(** * rtc, win32/main.cc: the window, its backbuffer and the presentation loop

    A shallow embedding of [src/win32/main.cc].  The program owns one
    [WSI_WINDOW_STATE]; the window procedure mutates it in response to
    window messages and talks to the operating system through Win32 calls.
    Here the structure is a record, the operating system is a second record
    ([Win32]) holding what the program can read back and the list of calls
    it has issued, and every routine is a computation in a small state and
    error monad over the pair of them.

    Integers are [Z] with the wrap-around of their C type written out.
    Signed arithmetic wraps as two's complement (the behaviour of the
    compilers this file is built with); division by zero is a trap. *)

From Stdlib Require Import ZArith List Bool Lia.
Import ListNotations.
Local Open Scope Z_scope.

(* ------------------------------------------------------------------ *)
(** ** Fixed-width integers *)

Definition u32 (z : Z) : Z := z mod 4294967296.
Definition s32 (z : Z) : Z := (z + 2147483648) mod 4294967296 - 2147483648.
(** [size_t] of the x64 target. *)
Definition usize (z : Z) : Z := z mod 18446744073709551616.

Definition LOWORD (z : Z) : Z := Z.land z 65535.
Definition HIWORD (z : Z) : Z := Z.land (Z.shiftr z 16) 65535.
(** [~x] on a 32-bit operand. *)
Definition not32 (z : Z) : Z := u32 (Z.lnot z).

(* ------------------------------------------------------------------ *)
(** ** Constants of the Windows headers *)

Definition USER_DEFAULT_SCREEN_DPI : Z := 96.
Definition WS_POPUP : Z := 2147483648.
Definition WS_OVERLAPPEDWINDOW : Z := 13565952.
Definition WS_CLIPCHILDREN : Z := 33554432.
Definition WS_CLIPSIBLINGS : Z := 67108864.
Definition SW_HIDE : Z := 0.
Definition SW_NORMAL : Z := 1.
Definition SW_MAXIMIZE : Z := 3.
Definition SW_SHOW : Z := 5.
Definition SWP_NOMOVE : Z := 2.
Definition SWP_NOZORDER : Z := 4.
Definition SWP_NOACTIVATE : Z := 16.
Definition SWP_FRAMECHANGED : Z := 32.
Definition SWP_NOOWNERZORDER : Z := 512.
Definition GWL_STYLE : Z := -16.
Definition GWL_EXSTYLE : Z := -20.
Definition SC_KEYMENU : Z := 61696.
Definition VK_RETURN : Z := 13.
Definition SIZE_RESTORED : Z := 0.
Definition SIZE_MINIMIZED : Z := 1.
Definition SIZE_MAXHIDE : Z := 4.
Definition BI_RGB : Z := 0.
Definition WM_CREATE : Z := 1.
Definition WM_MOVE : Z := 3.
Definition WM_SIZE : Z := 5.
Definition WM_ACTIVATE : Z := 6.
Definition WM_PAINT : Z := 15.
Definition WM_CLOSE : Z := 16.
Definition WM_QUIT : Z := 18.
Definition WM_SHOWWINDOW : Z := 24.
Definition WM_NCCREATE : Z := 129.
Definition WM_SYSCOMMAND : Z := 274.
Definition WM_DPICHANGED : Z := 736.

(* ------------------------------------------------------------------ *)
(** ** The flag enumerations *)

Definition WSI_WINDOW_STATUS_FLAGS_NONE : Z := 0.
Definition WSI_WINDOW_STATUS_FLAG_CREATED : Z := 1.
Definition WSI_WINDOW_STATUS_FLAG_ACTIVE : Z := 2.
Definition WSI_WINDOW_STATUS_FLAG_VISIBLE : Z := 4.
Definition WSI_WINDOW_STATUS_FLAG_FULLSCREEN : Z := 8.

Definition WSI_WINDOW_EVENT_FLAGS_NONE : Z := 0.
Definition WSI_WINDOW_EVENT_FLAG_CREATED : Z := 1.
Definition WSI_WINDOW_EVENT_FLAG_DESTROYED : Z := 2.
Definition WSI_WINDOW_EVENT_FLAG_SHOWN : Z := 4.
Definition WSI_WINDOW_EVENT_FLAG_HIDDEN : Z := 8.
Definition WSI_WINDOW_EVENT_FLAG_ACTIVATED : Z := 16.
Definition WSI_WINDOW_EVENT_FLAG_DEACTIVATED : Z := 32.
Definition WSI_WINDOW_EVENT_FLAG_SIZE_CHANGED : Z := 64.
Definition WSI_WINDOW_EVENT_FLAG_POSITION_CHANGED : Z := 128.

(** [flags & FLAG] used as a condition. *)
Definition has_flag (flags flag : Z) : bool := negb (Z.land flags flag =? 0).

(* ------------------------------------------------------------------ *)
(** ** Structures *)

Record RECT := mkRECT { left : Z; top : Z; right : Z; bottom : Z }.

(** The fields of [BITMAPINFO.bmiHeader] the program writes; [ZeroMemory]
    keeps every other byte of the structure at zero. *)
Record BITMAPINFOHEADER := mkBITMAPINFOHEADER {
  biSize : Z; biWidth : Z; biHeight : Z;
  biPlanes : Z; biBitCount : Z; biCompression : Z }.

Definition BITMAPINFO_zero : BITMAPINFOHEADER := mkBITMAPINFOHEADER 0 0 0 0 0 0.

(** The two implementations an entry of the dispatch table can point to. *)
Inductive PFN_SetProcessDpiAwareness :=
| Shcore_SetProcessDpiAwareness | Stub_SetProcessDpiAwareness.
Inductive PFN_GetDpiForMonitor :=
| Shcore_GetDpiForMonitor | Stub_GetDpiForMonitor.

Record WIN32API_DISPATCH := mkWIN32API_DISPATCH {
  SetProcessDpiAwareness : PFN_SetProcessDpiAwareness;
  GetDpiForMonitor : PFN_GetDpiForMonitor;
  ModuleHandle_Shcore : Z }.

Record WSI_WINDOW_STATE := mkWSI_WINDOW_STATE {
  Win32Handle : Z;
  StatusFlags : Z;
  EventFlags : Z;
  OutputDpiX : Z;
  OutputDpiY : Z;
  PositionX : Z;
  PositionY : Z;
  WindowSizeX : Z;
  WindowSizeY : Z;
  ClientSizeX : Z;
  ClientSizeY : Z;
  RestoreRect : RECT;
  RestoreStyle : Z;
  RestoreStyleEx : Z;
  BackBufferMemory : Z;
  BackBufferWidth : Z;
  BackBufferHeight : Z;
  BackBufferStride : Z;
  BackBufferInfo : BITMAPINFOHEADER;
  Win32Api : WIN32API_DISPATCH }.

(** [RTC_FRAMEBUFFER] of display.h. *)
Record RTC_FRAMEBUFFER := mkRTC_FRAMEBUFFER {
  Base : Z; Width : Z; Height : Z; Stride : Z }.

(** Field assignments. *)
Definition set_Win32Handle v w := mkWSI_WINDOW_STATE
  v (StatusFlags w) (EventFlags w) (OutputDpiX w) (OutputDpiY w) (PositionX w) (PositionY w)
  (WindowSizeX w) (WindowSizeY w) (ClientSizeX w) (ClientSizeY w) (RestoreRect w) (RestoreStyle w)
  (RestoreStyleEx w) (BackBufferMemory w) (BackBufferWidth w) (BackBufferHeight w)
  (BackBufferStride w) (BackBufferInfo w) (Win32Api w).
Definition set_StatusFlags v w := mkWSI_WINDOW_STATE
  (Win32Handle w) v (EventFlags w) (OutputDpiX w) (OutputDpiY w) (PositionX w) (PositionY w)
  (WindowSizeX w) (WindowSizeY w) (ClientSizeX w) (ClientSizeY w) (RestoreRect w) (RestoreStyle w)
  (RestoreStyleEx w) (BackBufferMemory w) (BackBufferWidth w) (BackBufferHeight w)
  (BackBufferStride w) (BackBufferInfo w) (Win32Api w).
Definition set_EventFlags v w := mkWSI_WINDOW_STATE
  (Win32Handle w) (StatusFlags w) v (OutputDpiX w) (OutputDpiY w) (PositionX w) (PositionY w)
  (WindowSizeX w) (WindowSizeY w) (ClientSizeX w) (ClientSizeY w) (RestoreRect w) (RestoreStyle w)
  (RestoreStyleEx w) (BackBufferMemory w) (BackBufferWidth w) (BackBufferHeight w)
  (BackBufferStride w) (BackBufferInfo w) (Win32Api w).
Definition set_OutputDpi x y w := mkWSI_WINDOW_STATE
  (Win32Handle w) (StatusFlags w) (EventFlags w) x y (PositionX w) (PositionY w)
  (WindowSizeX w) (WindowSizeY w) (ClientSizeX w) (ClientSizeY w) (RestoreRect w) (RestoreStyle w)
  (RestoreStyleEx w) (BackBufferMemory w) (BackBufferWidth w) (BackBufferHeight w)
  (BackBufferStride w) (BackBufferInfo w) (Win32Api w).
Definition set_Position x y w := mkWSI_WINDOW_STATE
  (Win32Handle w) (StatusFlags w) (EventFlags w) (OutputDpiX w) (OutputDpiY w) x y
  (WindowSizeX w) (WindowSizeY w) (ClientSizeX w) (ClientSizeY w) (RestoreRect w) (RestoreStyle w)
  (RestoreStyleEx w) (BackBufferMemory w) (BackBufferWidth w) (BackBufferHeight w)
  (BackBufferStride w) (BackBufferInfo w) (Win32Api w).
Definition set_WindowSize x y w := mkWSI_WINDOW_STATE
  (Win32Handle w) (StatusFlags w) (EventFlags w) (OutputDpiX w) (OutputDpiY w) (PositionX w) (PositionY w)
  x y (ClientSizeX w) (ClientSizeY w) (RestoreRect w) (RestoreStyle w)
  (RestoreStyleEx w) (BackBufferMemory w) (BackBufferWidth w) (BackBufferHeight w)
  (BackBufferStride w) (BackBufferInfo w) (Win32Api w).
Definition set_ClientSize x y w := mkWSI_WINDOW_STATE
  (Win32Handle w) (StatusFlags w) (EventFlags w) (OutputDpiX w) (OutputDpiY w) (PositionX w) (PositionY w)
  (WindowSizeX w) (WindowSizeY w) x y (RestoreRect w) (RestoreStyle w)
  (RestoreStyleEx w) (BackBufferMemory w) (BackBufferWidth w) (BackBufferHeight w)
  (BackBufferStride w) (BackBufferInfo w) (Win32Api w).
Definition set_Restore rc style style_ex w := mkWSI_WINDOW_STATE
  (Win32Handle w) (StatusFlags w) (EventFlags w) (OutputDpiX w) (OutputDpiY w) (PositionX w) (PositionY w)
  (WindowSizeX w) (WindowSizeY w) (ClientSizeX w) (ClientSizeY w) rc style
  style_ex (BackBufferMemory w) (BackBufferWidth w) (BackBufferHeight w)
  (BackBufferStride w) (BackBufferInfo w) (Win32Api w).
Definition set_BackBuffer mem width height stride w := mkWSI_WINDOW_STATE
  (Win32Handle w) (StatusFlags w) (EventFlags w) (OutputDpiX w) (OutputDpiY w) (PositionX w) (PositionY w)
  (WindowSizeX w) (WindowSizeY w) (ClientSizeX w) (ClientSizeY w) (RestoreRect w) (RestoreStyle w)
  (RestoreStyleEx w) mem width height stride (BackBufferInfo w) (Win32Api w).
Definition set_BackBufferInfo v w := mkWSI_WINDOW_STATE
  (Win32Handle w) (StatusFlags w) (EventFlags w) (OutputDpiX w) (OutputDpiY w) (PositionX w) (PositionY w)
  (WindowSizeX w) (WindowSizeY w) (ClientSizeX w) (ClientSizeY w) (RestoreRect w) (RestoreStyle w)
  (RestoreStyleEx w) (BackBufferMemory w) (BackBufferWidth w) (BackBufferHeight w)
  (BackBufferStride w) v (Win32Api w).

(* ------------------------------------------------------------------ *)
(** ** The operating system, as far as the program sees it *)

(** Calls that change something outside the program.  Calls that only read
    ([GetWindowRect], [GetWindowLong], [MonitorFromWindow], [GetDC], ...)
    leave no entry. *)
Inductive Win32Call :=
| Call_ShowWindow (nCmdShow : Z)
| Call_SetWindowPos (x y cx cy flags : Z)
| Call_SetWindowLong (index value : Z)
| Call_SetWindowLongPtr_USERDATA
| Call_VirtualAlloc (num_bytes result : Z)
| Call_VirtualFree (address : Z)
| Call_StretchDIBits (dst_x dst_y dst_w dst_h src_x src_y src_w src_h bits : Z)
                     (info : BITMAPINFOHEADER)
| Call_DefWindowProc (msg wparam lparam : Z)
| Call_DestroyWindow
| Call_Sleep (ms : Z).

Record Win32 := mkWin32 {
  WindowRect : RECT;               (* GetWindowRect *)
  ClientRect : RECT;               (* GetClientRect *)
  WindowStyle : Z;                 (* GetWindowLong(GWL_STYLE), a LONG *)
  WindowStyleEx : Z;               (* GetWindowLong(GWL_EXSTYLE), a LONG *)
  UserData : bool;                 (* GWLP_USERDATA holds the state pointer *)
  MonitorRect : RECT;              (* rcMonitor of the monitor nearest the window *)
  MonitorDpi : option (Z * Z);     (* Shcore's GetDpiForMonitor; None: the call fails *)
  ScreenLogPixels : Z * Z;         (* GetDeviceCaps(LOGPIXELSX / LOGPIXELSY) *)
  AdjustRect : RECT -> Z -> Z -> RECT; (* AdjustWindowRectEx without a menu *)
  RectAt : Z -> RECT;              (* the RECT an LPARAM points to *)
  DefResult : Z -> Z -> Z -> Z;    (* what DefWindowProc returns *)
  AllocPlan : list Z;              (* results of the coming VirtualAlloc calls, 0 = NULL *)
  Calls : list Win32Call           (* the calls issued so far, latest first *)
}.

Definition os_log (c : Win32Call) (o : Win32) : Win32 :=
  mkWin32 (WindowRect o) (ClientRect o) (WindowStyle o) (WindowStyleEx o) (UserData o)
          (MonitorRect o) (MonitorDpi o) (ScreenLogPixels o) (AdjustRect o) (RectAt o)
          (DefResult o) (AllocPlan o) (c :: Calls o).
Definition os_set_AllocPlan (p : list Z) (o : Win32) : Win32 :=
  mkWin32 (WindowRect o) (ClientRect o) (WindowStyle o) (WindowStyleEx o) (UserData o)
          (MonitorRect o) (MonitorDpi o) (ScreenLogPixels o) (AdjustRect o) (RectAt o)
          (DefResult o) p (Calls o).
Definition os_set_WindowRect (r : RECT) (o : Win32) : Win32 :=
  mkWin32 r (ClientRect o) (WindowStyle o) (WindowStyleEx o) (UserData o)
          (MonitorRect o) (MonitorDpi o) (ScreenLogPixels o) (AdjustRect o) (RectAt o)
          (DefResult o) (AllocPlan o) (Calls o).
Definition os_set_WindowStyle (v : Z) (o : Win32) : Win32 :=
  mkWin32 (WindowRect o) (ClientRect o) v (WindowStyleEx o) (UserData o)
          (MonitorRect o) (MonitorDpi o) (ScreenLogPixels o) (AdjustRect o) (RectAt o)
          (DefResult o) (AllocPlan o) (Calls o).
Definition os_set_WindowStyleEx (v : Z) (o : Win32) : Win32 :=
  mkWin32 (WindowRect o) (ClientRect o) (WindowStyle o) v (UserData o)
          (MonitorRect o) (MonitorDpi o) (ScreenLogPixels o) (AdjustRect o) (RectAt o)
          (DefResult o) (AllocPlan o) (Calls o).
Definition os_set_UserData (v : bool) (o : Win32) : Win32 :=
  mkWin32 (WindowRect o) (ClientRect o) (WindowStyle o) (WindowStyleEx o) v
          (MonitorRect o) (MonitorDpi o) (ScreenLogPixels o) (AdjustRect o) (RectAt o)
          (DefResult o) (AllocPlan o) (Calls o).

(* ------------------------------------------------------------------ *)
(** ** The monad of the program: window state, operating system, traps *)

Record Machine := mkMachine { window : WSI_WINDOW_STATE; host : Win32 }.

Definition M (A : Type) : Type := Machine -> option (A * Machine).

Definition ret {A} (a : A) : M A := fun m => Some (a, m).
Definition bind {A B} (c : M A) (k : A -> M B) : M B :=
  fun m => match c m with Some (a, m') => k a m' | None => None end.
Definition trap {A} : M A := fun _ => None.

Declare Scope wsi_scope.
Delimit Scope wsi_scope with wsi.
Notation "x <- c ;; k" := (bind c (fun x => k))
  (at level 100, c at next level, right associativity) : wsi_scope.
Notation "c ;; k" := (bind c (fun _ => k))
  (at level 100, right associativity) : wsi_scope.
Local Open Scope wsi_scope.

Definition get_window : M WSI_WINDOW_STATE := fun m => Some (window m, m).
Definition get_host : M Win32 := fun m => Some (host m, m).
Definition store (f : WSI_WINDOW_STATE -> WSI_WINDOW_STATE) : M unit :=
  fun m => Some (tt, mkMachine (f (window m)) (host m)).
Definition os_do (f : Win32 -> Win32) : M unit :=
  fun m => Some (tt, mkMachine (window m) (f (host m))).
Definition when (b : bool) (c : M unit) : M unit := if b then c else ret tt.

(** Unsigned division; a zero divisor stops the program. *)
Definition udiv (a b : Z) : option Z := if b =? 0 then None else Some (a / b).
Definition lift {A} (o : option A) : M A :=
  fun m => match o with Some a => Some (a, m) | None => None end.

(* ------------------------------------------------------------------ *)
(** ** Geometry conversion macros, at the [uint32_t] operands of every use *)

Definition PhysicalToLogicalPixels (_dim _dpi : Z) : option Z :=
  udiv (u32 (_dim * USER_DEFAULT_SCREEN_DPI)) _dpi.

Definition LogicalToPhysicalPixels (_dim _dpi : Z) : Z :=
  u32 (_dim * _dpi) / USER_DEFAULT_SCREEN_DPI.

(* ------------------------------------------------------------------ *)
(** ** Win32 calls *)

Definition ShowWindow (nCmdShow : Z) : M unit := os_do (os_log (Call_ShowWindow nCmdShow)).

Definition SetWindowLong (index value : Z) : M unit :=
  os_do (fun o =>
    os_log (Call_SetWindowLong index value)
      (if index =? GWL_STYLE then os_set_WindowStyle value o
       else if index =? GWL_EXSTYLE then os_set_WindowStyleEx value o
       else o)).

(** The window manager places the outer rectangle where it is asked to,
    keeping the corner under [SWP_NOMOVE]. *)
Definition SetWindowPos (x y cx cy flags : Z) : M unit :=
  os_do (fun o =>
    let r := WindowRect o in
    let x' := if has_flag flags SWP_NOMOVE then left r else x in
    let y' := if has_flag flags SWP_NOMOVE then top r else y in
    os_log (Call_SetWindowPos x y cx cy flags)
      (os_set_WindowRect (mkRECT x' y' (s32 (x' + cx)) (s32 (y' + cy))) o)).

Definition VirtualAlloc (num_bytes : Z) : M Z :=
  o <- get_host ;;
  let p := hd 0 (AllocPlan o) in
  os_do (fun o => os_log (Call_VirtualAlloc num_bytes p) (os_set_AllocPlan (tl (AllocPlan o)) o)) ;;
  ret p.

Definition VirtualFree (address : Z) : M unit := os_do (os_log (Call_VirtualFree address)).

Definition DefWindowProc (msg wparam lparam : Z) : M Z :=
  o <- get_host ;;
  os_do (os_log (Call_DefWindowProc msg wparam lparam)) ;;
  ret (DefResult o msg wparam lparam).

Definition GetWindowRect : M RECT := o <- get_host ;; ret (WindowRect o).
Definition GetClientRect : M RECT := o <- get_host ;; ret (ClientRect o).
Definition GetWindowLong (index : Z) : M Z :=
  o <- get_host ;;
  ret (if index =? GWL_STYLE then WindowStyle o
       else if index =? GWL_EXSTYLE then WindowStyleEx o else 0).
Definition AdjustWindowRectEx (rc : RECT) (style ex_style : Z) : M RECT :=
  o <- get_host ;; ret (AdjustRect o rc style ex_style).

(* ------------------------------------------------------------------ *)
(** ** Runtime-resolved entry points *)

Definition MDT_EFFECTIVE_DPI : Z := 0.
Definition S_OK : Z := 0.
Definition E_INVALIDARG : Z := -2147024809.

(** The result code and the values left in [*dpi_x] and [*dpi_y]. *)
Definition GetDpiForMonitor_Stub (type : Z) (o : Win32) : Z * (Z * Z) :=
  if type =? MDT_EFFECTIVE_DPI then
    let h_dpi := u32 (fst (ScreenLogPixels o)) in
    let v_dpi := u32 (snd (ScreenLogPixels o)) in
    (S_OK, (h_dpi, v_dpi))
  else
    (E_INVALIDARG, (USER_DEFAULT_SCREEN_DPI, USER_DEFAULT_SCREEN_DPI)).

(** [winapi->GetDpiForMonitor(monitor, MDT_EFFECTIVE_DPI, &dpi_x, &dpi_y)]
    with [dpi_x] and [dpi_y] holding the given values before the call: the
    values they hold after it.  The entry point of Shcore.dll leaves them
    alone when it fails. *)
Definition query_dpi (w : WSI_WINDOW_STATE) (o : Win32) (dpi_x dpi_y : Z) : Z * Z :=
  match GetDpiForMonitor (Win32Api w) with
  | Stub_GetDpiForMonitor => snd (GetDpiForMonitor_Stub MDT_EFFECTIVE_DPI o)
  | Shcore_GetDpiForMonitor =>
      match MonitorDpi o with
      | Some dpi => dpi
      | None => (dpi_x, dpi_y)
      end
  end.

Definition call_GetDpiForMonitor (dpi_x dpi_y : Z) : M (Z * Z) :=
  w <- get_window ;;
  o <- get_host ;;
  ret (query_dpi w o dpi_x dpi_y).

(** [QueryMonitorGeometry] for the monitor of the window: [rcMonitor]. *)
Definition QueryMonitorGeometry : M RECT := o <- get_host ;; ret (MonitorRect o).

(* ------------------------------------------------------------------ *)
(** ** The backbuffer *)

Definition ResizeBackBuffer (physical_x_px physical_y_px : Z) : M Z :=
  w <- get_window ;;
  let prev_mem := BackBufferMemory w in
  let prev_x_px := BackBufferWidth w in
  let prev_y_px := BackBufferHeight w in
  let num_bytes := usize (usize (physical_x_px * physical_y_px) * 4) in
  if (physical_x_px =? prev_x_px) && (physical_y_px =? prev_y_px) && negb (prev_mem =? 0)
  then ret 0
  else
    store (set_BackBufferInfo
             (mkBITMAPINFOHEADER 40 (s32 physical_x_px) (s32 (- s32 physical_y_px))
                                 1 32 BI_RGB)) ;;
    bmap_mem <- VirtualAlloc num_bytes ;;
    if bmap_mem =? 0 then ret (-1)
    else
      store (set_BackBuffer bmap_mem physical_x_px physical_y_px (u32 (physical_x_px * 4))) ;;
      when (negb (prev_mem =? 0)) (VirtualFree prev_mem) ;;
      ret 0.

(** Modelled from the spec: the body of [rtcGetFrameBuffer], which display.h
    only declares.  It returns the current backbuffer's base address, width,
    height and stride, and fails only when no backbuffer has been allocated. *)
Definition rtcGetFrameBuffer (w : WSI_WINDOW_STATE) : option RTC_FRAMEBUFFER :=
  if BackBufferMemory w =? 0 then None
  else Some (mkRTC_FRAMEBUFFER (BackBufferMemory w) (BackBufferWidth w)
                               (BackBufferHeight w) (BackBufferStride w)).

Definition PresentBackBuffer : M unit :=
  w <- get_window ;;
  let dst_x := 0 in
  let dst_y := 0 in
  let src_x := 0 in
  let src_y := 0 in
  let dst_w := s32 (LogicalToPhysicalPixels (ClientSizeX w) (OutputDpiX w)) in
  let dst_h := s32 (LogicalToPhysicalPixels (ClientSizeY w) (OutputDpiY w)) in
  let src_w := s32 (BackBufferWidth w) in
  let src_h := s32 (BackBufferHeight w) in
  os_do (os_log (Call_StretchDIBits dst_x dst_y dst_w dst_h src_x src_y src_w src_h
                                    (BackBufferMemory w) (BackBufferInfo w))).

(* ------------------------------------------------------------------ *)
(** ** The message handlers

    There is one window and one [WSI_WINDOW_STATE]; the [window] and [hwnd]
    arguments of the handlers are the state of the monad.  A message the
    system sends from inside a call ([SetWindowPos], [ShowWindow]) is taken
    as delivered after the handler that made the call has returned. *)

Definition or_EventFlags (flags : Z) : M unit :=
  store (fun w => set_EventFlags (Z.lor (EventFlags w) flags) w).
Definition or_StatusFlags (flags : Z) : M unit :=
  store (fun w => set_StatusFlags (Z.lor (StatusFlags w) flags) w).
Definition and_StatusFlags (mask : Z) : M unit :=
  store (fun w => set_StatusFlags (Z.land (StatusFlags w) mask) w).

Definition WSI_WndProc_WM_CREATE (wparam lparam : Z) : M Z :=
  style_l <- GetWindowLong GWL_STYLE ;;
  ex_style_l <- GetWindowLong GWL_EXSTYLE ;;
  let style := u32 style_l in
  let ex_style := u32 ex_style_l in
  dpi <- call_GetDpiForMonitor USER_DEFAULT_SCREEN_DPI USER_DEFAULT_SCREEN_DPI ;;
  let dpi_x := fst dpi in
  let dpi_y := snd dpi in
  w <- get_window ;;
  let phys_x_px := LogicalToPhysicalPixels (ClientSizeX w) dpi_x in
  let phys_y_px := LogicalToPhysicalPixels (ClientSizeY w) dpi_y in
  rc <- AdjustWindowRectEx (mkRECT 0 0 (s32 phys_x_px) (s32 phys_y_px)) style ex_style ;;
  SetWindowPos 0 0 (s32 (right rc - left rc)) (s32 (bottom rc - top rc))
               (Z.lor (Z.lor SWP_NOACTIVATE SWP_NOMOVE) SWP_NOZORDER) ;;
  store (set_StatusFlags WSI_WINDOW_STATUS_FLAG_CREATED) ;;
  store (set_EventFlags WSI_WINDOW_EVENT_FLAG_CREATED) ;;
  or_EventFlags WSI_WINDOW_EVENT_FLAG_SIZE_CHANGED ;;
  or_EventFlags WSI_WINDOW_EVENT_FLAG_POSITION_CHANGED ;;
  store (set_OutputDpi dpi_x dpi_y) ;;
  size_x <- lift (PhysicalToLogicalPixels (u32 (right rc - left rc)) dpi_x) ;;
  size_y <- lift (PhysicalToLogicalPixels (u32 (bottom rc - top rc)) dpi_y) ;;
  store (set_WindowSize size_x size_y) ;;
  ResizeBackBuffer phys_x_px phys_y_px ;;
  ret 0.

Definition WSI_WndProc_WM_CLOSE (wparam lparam : Z) : M Z :=
  ShowWindow SW_HIDE ;;
  store (set_StatusFlags WSI_WINDOW_STATUS_FLAGS_NONE) ;;
  store (set_EventFlags WSI_WINDOW_EVENT_FLAG_DESTROYED) ;;
  ret 0.

Definition WSI_WndProc_WM_ACTIVATE (wparam lparam : Z) : M Z :=
  let active := LOWORD wparam in
  let minimized := HIWORD wparam in
  (if negb (active =? 0) then
     or_StatusFlags (Z.lor WSI_WINDOW_STATUS_FLAG_ACTIVE WSI_WINDOW_STATUS_FLAG_VISIBLE) ;;
     or_EventFlags WSI_WINDOW_EVENT_FLAG_ACTIVATED
   else
     and_StatusFlags (not32 WSI_WINDOW_STATUS_FLAG_ACTIVE) ;;
     or_EventFlags WSI_WINDOW_EVENT_FLAG_DEACTIVATED) ;;
  when (negb (minimized =? 0))
    (and_StatusFlags (not32 WSI_WINDOW_STATUS_FLAG_VISIBLE) ;;
     or_EventFlags WSI_WINDOW_EVENT_FLAG_HIDDEN) ;;
  DefWindowProc WM_ACTIVATE wparam lparam.

Definition WSI_WndProc_WM_DPICHANGED (wparam lparam : Z) : M Z :=
  w <- get_window ;;
  o <- get_host ;;
  let flags := WSI_WINDOW_EVENT_FLAGS_NONE in
  let dpi_x := LOWORD wparam in
  let dpi_y := HIWORD wparam in
  style_l <- GetWindowLong GWL_STYLE ;;
  ex_style_l <- GetWindowLong GWL_EXSTYLE ;;
  let style := u32 style_l in
  let ex_style := u32 ex_style_l in
  let phys_x_px := LogicalToPhysicalPixels (ClientSizeX w) dpi_x in
  let phys_y_px := LogicalToPhysicalPixels (ClientSizeY w) dpi_y in
  let suggested := RectAt o lparam in
  rc_flags <-
    (if Z.land style WS_POPUP =? 0 then
       let flags :=
         if negb (left suggested =? PositionX w) || negb (top suggested =? PositionY w)
         then Z.lor flags WSI_WINDOW_EVENT_FLAG_POSITION_CHANGED else flags in
       rc <- AdjustWindowRectEx
               (mkRECT (left suggested) (top suggested)
                       (s32 (left suggested + phys_x_px)) (s32 (top suggested + phys_y_px)))
               style ex_style ;;
       SetWindowPos (left rc) (top rc) (s32 (right rc - left rc)) (s32 (bottom rc - top rc))
                    (Z.lor SWP_NOACTIVATE SWP_NOZORDER) ;;
       ret (rc, flags)
     else
       rc <- QueryMonitorGeometry ;;
       ret (rc, flags)) ;;
  let rc := fst rc_flags in
  let flags := snd rc_flags in
  store (set_OutputDpi dpi_x dpi_y) ;;
  store (set_Position (left rc) (top rc)) ;;
  size_x <- lift (PhysicalToLogicalPixels (u32 (right rc - left rc)) dpi_x) ;;
  size_y <- lift (PhysicalToLogicalPixels (u32 (bottom rc - top rc)) dpi_y) ;;
  store (set_WindowSize size_x size_y) ;;
  or_EventFlags (Z.lor WSI_WINDOW_EVENT_FLAG_SIZE_CHANGED flags) ;;
  ResizeBackBuffer phys_x_px phys_y_px ;;
  ret 0.

Definition WSI_WndProc_WM_MOVE (wparam lparam : Z) : M Z :=
  rc <- GetWindowRect ;;
  dpi <- call_GetDpiForMonitor USER_DEFAULT_SCREEN_DPI USER_DEFAULT_SCREEN_DPI ;;
  let dpi_x := fst dpi in
  let dpi_y := snd dpi in
  or_EventFlags WSI_WINDOW_EVENT_FLAG_POSITION_CHANGED ;;
  store (set_Position (left rc) (top rc)) ;;
  size_x <- lift (PhysicalToLogicalPixels (u32 (right rc - left rc)) dpi_x) ;;
  size_y <- lift (PhysicalToLogicalPixels (u32 (bottom rc - top rc)) dpi_y) ;;
  store (set_WindowSize size_x size_y) ;;
  store (set_OutputDpi dpi_x dpi_y) ;;
  ret 0.

Definition WSI_WndProc_WM_SIZE (wparam lparam : Z) : M Z :=
  w <- get_window ;;
  let phy_client_w := LOWORD lparam in
  let phy_client_h := HIWORD lparam in
  let flags := WSI_WINDOW_EVENT_FLAG_SIZE_CHANGED in
  let status := StatusFlags w in
  dpi <- call_GetDpiForMonitor USER_DEFAULT_SCREEN_DPI USER_DEFAULT_SCREEN_DPI ;;
  let dpi_x := fst dpi in
  let dpi_y := snd dpi in
  log_client_w <- lift (PhysicalToLogicalPixels phy_client_w dpi_x) ;;
  log_client_h <- lift (PhysicalToLogicalPixels phy_client_h dpi_y) ;;
  let '(flags, status, is_visible) :=
    if (wparam =? SIZE_MINIMIZED) || (wparam =? SIZE_MAXHIDE) then
      (Z.lor flags WSI_WINDOW_EVENT_FLAG_HIDDEN,
       Z.land status (not32 WSI_WINDOW_STATUS_FLAG_VISIBLE), false)
    else if wparam =? SIZE_RESTORED then
      (Z.lor flags WSI_WINDOW_EVENT_FLAG_SHOWN,
       Z.lor status WSI_WINDOW_STATUS_FLAG_VISIBLE, true)
    else
      (flags, Z.lor status WSI_WINDOW_STATUS_FLAG_VISIBLE, true) in
  let did_size :=
    if (log_client_w =? ClientSizeX w) && (log_client_h =? ClientSizeY w)
    then false else true in
  if negb is_visible || negb did_size then
    store (set_StatusFlags status) ;;
    ret 0
  else
    let is_fullscreen := has_flag (StatusFlags w) WSI_WINDOW_STATUS_FLAG_FULLSCREEN in
    ResizeBackBuffer phy_client_w phy_client_h ;;
    let status :=
      if is_fullscreen then Z.lor status WSI_WINDOW_STATUS_FLAG_FULLSCREEN
      else Z.land status (not32 WSI_WINDOW_STATUS_FLAG_FULLSCREEN) in
    rc <- GetWindowRect ;;
    store (set_StatusFlags status) ;;
    or_EventFlags flags ;;
    store (set_Position (left rc) (top rc)) ;;
    size_x <- lift (PhysicalToLogicalPixels (u32 (right rc - left rc)) dpi_x) ;;
    size_y <- lift (PhysicalToLogicalPixels (u32 (bottom rc - top rc)) dpi_y) ;;
    store (set_WindowSize size_x size_y) ;;
    store (set_ClientSize log_client_w log_client_h) ;;
    store (set_OutputDpi dpi_x dpi_y) ;;
    ret 0.

Definition WSI_WndProc_WM_SHOWWINDOW (wparam lparam : Z) : M Z :=
  (if negb (wparam =? 0) then
     rc <- GetWindowRect ;;
     dpi <- call_GetDpiForMonitor USER_DEFAULT_SCREEN_DPI USER_DEFAULT_SCREEN_DPI ;;
     let dpi_x := fst dpi in
     let dpi_y := snd dpi in
     or_StatusFlags WSI_WINDOW_STATUS_FLAG_VISIBLE ;;
     or_EventFlags WSI_WINDOW_EVENT_FLAG_SHOWN ;;
     store (set_Position (left rc) (top rc)) ;;
     size_x <- lift (PhysicalToLogicalPixels (u32 (right rc - left rc)) dpi_x) ;;
     size_y <- lift (PhysicalToLogicalPixels (u32 (bottom rc - top rc)) dpi_y) ;;
     store (set_WindowSize size_x size_y) ;;
     rc <- GetClientRect ;;
     let phys_x_px := u32 (right rc - left rc) in
     let phys_y_px := u32 (bottom rc - top rc) in
     client_x <- lift (PhysicalToLogicalPixels (u32 (right rc - left rc)) dpi_x) ;;
     client_y <- lift (PhysicalToLogicalPixels (u32 (bottom rc - top rc)) dpi_y) ;;
     store (set_ClientSize client_x client_y) ;;
     store (set_OutputDpi dpi_x dpi_y) ;;
     ResizeBackBuffer phys_x_px phys_y_px ;;
     ret tt
   else
     and_StatusFlags (not32 WSI_WINDOW_STATUS_FLAG_VISIBLE) ;;
     and_StatusFlags (not32 WSI_WINDOW_STATUS_FLAG_ACTIVE) ;;
     or_EventFlags (Z.lor WSI_WINDOW_EVENT_FLAG_HIDDEN WSI_WINDOW_EVENT_FLAG_DEACTIVATED)) ;;
  DefWindowProc WM_SHOWWINDOW wparam lparam.

Definition WSI_WndProc_WM_SYSCOMMAND (wparam lparam : Z) : M Z :=
  if (Z.land wparam 65520 =? SC_KEYMENU) && (lparam =? VK_RETURN) then
    call_GetDpiForMonitor USER_DEFAULT_SCREEN_DPI USER_DEFAULT_SCREEN_DPI ;;
    w <- get_window ;;
    (if has_flag (StatusFlags w) WSI_WINDOW_STATUS_FLAG_FULLSCREEN then
       let rc := RestoreRect w in
       SetWindowLong GWL_STYLE (s32 (RestoreStyle w)) ;;
       SetWindowLong GWL_EXSTYLE (s32 (RestoreStyleEx w)) ;;
       SetWindowPos (left rc) (top rc) (s32 (right rc - left rc)) (s32 (bottom rc - top rc))
                    (Z.lor (Z.lor (Z.lor SWP_FRAMECHANGED SWP_NOACTIVATE) SWP_NOZORDER)
                           SWP_NOOWNERZORDER) ;;
       and_StatusFlags (not32 WSI_WINDOW_STATUS_FLAG_FULLSCREEN) ;;
       ShowWindow SW_NORMAL
     else
       moninfo <- QueryMonitorGeometry ;;
       restore_rc <- GetWindowRect ;;
       style_l <- GetWindowLong GWL_STYLE ;;
       ex_style_l <- GetWindowLong GWL_EXSTYLE ;;
       store (set_Restore restore_rc (u32 style_l) (u32 ex_style_l)) ;;
       let rc := moninfo in
       SetWindowLong GWL_STYLE (s32 WS_POPUP) ;;
       SetWindowPos (left rc) (top rc) (s32 (right rc - left rc)) (s32 (bottom rc - top rc))
                    (Z.lor (Z.lor (Z.lor SWP_FRAMECHANGED SWP_NOACTIVATE) SWP_NOZORDER)
                           SWP_NOOWNERZORDER) ;;
       or_StatusFlags WSI_WINDOW_STATUS_FLAG_FULLSCREEN ;;
       ShowWindow SW_MAXIMIZE) ;;
    ret 0
  else DefWindowProc WM_SYSCOMMAND wparam lparam.

Definition WSI_WndProc_WM_PAINT (wparam lparam : Z) : M Z :=
  w <- get_window ;;
  if negb (BackBufferMemory w =? 0) then
    PresentBackBuffer ;;
    ret 0
  else DefWindowProc WM_PAINT wparam lparam.

Definition WSI_WndProc (hwnd msg wparam lparam : Z) : M Z :=
  if msg =? WM_NCCREATE then
    os_do (fun o => os_log Call_SetWindowLongPtr_USERDATA (os_set_UserData true o)) ;;
    store (set_Win32Handle hwnd) ;;
    DefWindowProc msg wparam lparam
  else
    o <- get_host ;;
    if negb (UserData o) then DefWindowProc msg wparam lparam
    else if msg =? WM_MOVE then WSI_WndProc_WM_MOVE wparam lparam
    else if msg =? WM_SIZE then WSI_WndProc_WM_SIZE wparam lparam
    else if msg =? WM_PAINT then WSI_WndProc_WM_PAINT wparam lparam
    else if msg =? WM_ACTIVATE then WSI_WndProc_WM_ACTIVATE wparam lparam
    else if msg =? WM_SHOWWINDOW then WSI_WndProc_WM_SHOWWINDOW wparam lparam
    else if msg =? WM_DPICHANGED then WSI_WndProc_WM_DPICHANGED wparam lparam
    else if msg =? WM_SYSCOMMAND then WSI_WndProc_WM_SYSCOMMAND wparam lparam
    else if msg =? WM_CREATE then WSI_WndProc_WM_CREATE wparam lparam
    else if msg =? WM_CLOSE then WSI_WndProc_WM_CLOSE wparam lparam
    else DefWindowProc msg wparam lparam.

(* ------------------------------------------------------------------ *)
(** ** wWinMain *)

Record MSG := mkMSG { message : Z; wParam : Z; lParam : Z }.

(** The dispatch table, from whether Shcore.dll loads and which of its two
    entry points [GetProcAddress] finds. *)
Definition resolve_Win32Api (shcore : Z) (has_GetDpiForMonitor has_SetProcessDpiAwareness : bool)
  : WIN32API_DISPATCH :=
  if negb (shcore =? 0) then
    mkWIN32API_DISPATCH
      (if has_SetProcessDpiAwareness then Shcore_SetProcessDpiAwareness
       else Stub_SetProcessDpiAwareness)
      (if has_GetDpiForMonitor then Shcore_GetDpiForMonitor else Stub_GetDpiForMonitor)
      shcore
  else
    mkWIN32API_DISPATCH Stub_SetProcessDpiAwareness Stub_GetDpiForMonitor 0.

(** The window state [wWinMain] builds before [CreateWindowEx], from the work
    area [rc] of the primary monitor; with it the position handed to
    [CreateWindowEx]. *)
Definition wWinMain_window_state (rc : RECT) (win32 : WIN32API_DISPATCH) : WSI_WINDOW_STATE :=
  let style := Z.lor (Z.lor WS_OVERLAPPEDWINDOW WS_CLIPCHILDREN) WS_CLIPSIBLINGS in
  let style_ex := 0 in
  let dim_x_px := 800 in
  let dim_y_px := 600 in
  let virtual_x := s32 (left rc + u32 (right rc - left rc - dim_x_px) / 2) in
  let virtual_y := s32 (top rc + u32 (bottom rc - top rc - dim_y_px) / 2) in
  let dim_x_px :=
    if s32 (right rc - left rc) <? s32 (virtual_x + dim_x_px)
    then u32 (right rc - left rc - virtual_x) else dim_x_px in
  let dim_y_px :=
    if s32 (bottom rc - top rc) <? s32 (virtual_y + dim_y_px)
    then u32 (bottom rc - top rc - virtual_y) else dim_y_px in
  mkWSI_WINDOW_STATE 0 WSI_WINDOW_STATUS_FLAGS_NONE WSI_WINDOW_EVENT_FLAGS_NONE
    USER_DEFAULT_SCREEN_DPI USER_DEFAULT_SCREEN_DPI virtual_x virtual_y
    dim_x_px dim_y_px dim_x_px dim_y_px (mkRECT 0 0 0 0) style style_ex
    0 0 0 0 BITMAPINFO_zero win32.

(** The inner [while]: [queue] lists what [PeekMessage] (or [GetMessage])
    hands out until it reports an empty queue. *)
Fixpoint dispatch_messages (hwnd : Z) (queue : list MSG) : M unit :=
  match queue with
  | [] => ret tt
  | msg :: rest =>
      if message msg =? WM_QUIT then ret tt
      else
        WSI_WndProc hwnd (message msg) (wParam msg) (lParam msg) ;;
        dispatch_messages hwnd rest
  end.

Inductive Tick := Tick_break | Tick_continue.

(** One pass of the outer [for], after the inner [while] has drained. *)
Definition wWinMain_present : M Tick :=
  ws <- get_window ;;
  if has_flag (EventFlags ws) WSI_WINDOW_EVENT_FLAG_DESTROYED then ret Tick_break
  else
    when (has_flag (StatusFlags ws) WSI_WINDOW_STATUS_FLAG_VISIBLE)
      (when (negb (BackBufferMemory ws =? 0)) PresentBackBuffer) ;;
    os_do (os_log (Call_Sleep 16)) ;;
    ret Tick_continue.

Definition wWinMain_tick (hwnd : Z) (queue : list MSG) : M Tick :=
  dispatch_messages hwnd queue ;;
  wWinMain_present.

(** The outer [for], driven by the queues of the successive passes.  The
    result tells whether the loop was left within the given passes. *)
Fixpoint wWinMain_loop (hwnd : Z) (ticks : list (list MSG)) : M bool :=
  match ticks with
  | [] => ret false
  | queue :: rest =>
      t <- wWinMain_tick hwnd queue ;;
      match t with
      | Tick_break => ret true
      | Tick_continue => wWinMain_loop hwnd rest
      end
  end.

(** What follows the loop: the window is destroyed and its last messages
    are dispatched.  [destroyed] is the result of [DestroyWindow]. *)
Definition wWinMain_destroy (hwnd : Z) (destroyed : bool) (final : list MSG) : M Z :=
  os_do (os_log Call_DestroyWindow) ;;
  when destroyed (dispatch_messages hwnd final) ;;
  ret 0.

(** [wWinMain] from the first pass of its loop to its return; [None] when
    the passes given do not reach the end of the loop. *)
Definition wWinMain_run (hwnd : Z) (ticks : list (list MSG)) (destroyed : bool)
           (final : list MSG) : M (option Z) :=
  left_loop <- wWinMain_loop hwnd ticks ;;
  if left_loop then
    r <- wWinMain_destroy hwnd destroyed final ;;
    ret (Some r)
  else ret None.

(** The DPI the handlers resolve for the monitor of the window. *)
Definition monitor_dpi (m : Machine) : Z * Z :=
  query_dpi (window m) (host m) USER_DEFAULT_SCREEN_DPI USER_DEFAULT_SCREEN_DPI.

(* ------------------------------------------------------------------ *)
(** ** Concrete machines for the examples *)

(** Decoration of a captioned window: borders of 8 pixels, a caption of 23. *)
Definition decorate (rc : RECT) (style ex_style : Z) : RECT :=
  mkRECT (left rc - 8) (top rc - 31) (right rc + 8) (bottom rc + 8).

Definition overlapped_style : Z :=
  Z.lor (Z.lor WS_OVERLAPPEDWINDOW WS_CLIPCHILDREN) WS_CLIPSIBLINGS.

(** What the program can read of a desktop: a monitor at [dpi], the window
    and its client area, the suggestion (100,100)-(500,400) behind every
    pointer, and an allocator that follows [plan]. *)
Definition desktop_at (dpi : Z) (monitor window_rc client_rc : RECT) (plan : list Z) : Win32 :=
  mkWin32 window_rc client_rc overlapped_style 0 true
          monitor (Some (dpi, dpi)) (dpi, dpi) decorate
          (fun _ => mkRECT 100 100 500 400) (fun _ _ _ => 0) plan [].

(** The window as [CreateWindowEx] places it on a 1920 x 1080 monitor at 96
    DPI, before the create notification has sized it. *)
Definition desktop_created (plan : list Z) : Win32 :=
  desktop_at 96 (mkRECT 0 0 1920 1080) (mkRECT 560 220 1360 820) (mkRECT 0 0 784 561) plan.

(** The same window once sized for a client area of 800 x 600. *)
Definition desktop (plan : list Z) : Win32 :=
  desktop_at 96 (mkRECT 0 0 1920 1080) (mkRECT 560 220 1376 859) (mkRECT 0 0 800 600) plan.

(** A 3840 x 2160 monitor at 192 DPI, the client area 1600 x 1200. *)
Definition desktop_192 (plan : list Z) : Win32 :=
  desktop_at 192 (mkRECT 0 0 3840 2160) (mkRECT 560 220 2176 1459) (mkRECT 0 0 1600 1200) plan.

(** The state [wWinMain] builds for a work area of 1920 x 1040. *)
Definition fresh_window : WSI_WINDOW_STATE :=
  wWinMain_window_state (mkRECT 0 0 1920 1040) (resolve_Win32Api 1 true true).

(** The window once created and shown at 96 DPI, backbuffer at 65536. *)
Definition shown_window : WSI_WINDOW_STATE :=
  mkWSI_WINDOW_STATE 7 (Z.lor WSI_WINDOW_STATUS_FLAG_CREATED WSI_WINDOW_STATUS_FLAG_VISIBLE)
    WSI_WINDOW_EVENT_FLAG_SHOWN 96 96 560 220 816 639 800 600
    (mkRECT 0 0 0 0) overlapped_style 0
    65536 800 600 3200 (mkBITMAPINFOHEADER 40 800 (-600) 1 32 BI_RGB)
    (resolve_Win32Api 1 true true).

(** The same window on the 192 DPI monitor, backbuffer of 1600 x 1200. *)
Definition shown_window_192 : WSI_WINDOW_STATE :=
  mkWSI_WINDOW_STATE 7 (Z.lor WSI_WINDOW_STATUS_FLAG_CREATED WSI_WINDOW_STATUS_FLAG_VISIBLE)
    WSI_WINDOW_EVENT_FLAGS_NONE 192 192 560 220 808 619 800 600
    (mkRECT 0 0 0 0) overlapped_style 0
    65536 1600 1200 6400 (mkBITMAPINFOHEADER 40 1600 (-1200) 1 32 BI_RGB)
    (resolve_Win32Api 1 true true).

Definition MAKELONG (lo hi : Z) : Z := Z.lor lo (Z.shiftl hi 16).

(* ------------------------------------------------------------------ *)
(** ** Vocabulary of the statements *)

(** What [ResizeBackBuffer] writes and asks for, and when it returns early. *)
Definition resize_header (x y : Z) : BITMAPINFOHEADER :=
  mkBITMAPINFOHEADER 40 (s32 x) (s32 (- s32 y)) 1 32 BI_RGB.

Definition resize_bytes (x y : Z) : Z := usize (usize (x * y) * 4).

Definition resize_is_noop (w : WSI_WINDOW_STATE) (x y : Z) : bool :=
  (x =? BackBufferWidth w) && (y =? BackBufferHeight w) && negb (BackBufferMemory w =? 0).

(** The fields a resize leaves alone, whatever its outcome. *)
Definition resize_frame (m m' : Machine) : Prop :=
  let w := window m in
  let w' := window m' in
  Win32Handle w' = Win32Handle w /\ StatusFlags w' = StatusFlags w /\
  EventFlags w' = EventFlags w /\ OutputDpiX w' = OutputDpiX w /\
  OutputDpiY w' = OutputDpiY w /\ PositionX w' = PositionX w /\
  PositionY w' = PositionY w /\ WindowSizeX w' = WindowSizeX w /\
  WindowSizeY w' = WindowSizeY w /\ ClientSizeX w' = ClientSizeX w /\
  ClientSizeY w' = ClientSizeY w /\ RestoreRect w' = RestoreRect w /\
  RestoreStyle w' = RestoreStyle w /\ RestoreStyleEx w' = RestoreStyleEx w /\
  Win32Api w' = Win32Api w /\
  WindowRect (host m') = WindowRect (host m) /\
  WindowStyle (host m') = WindowStyle (host m) /\
  WindowStyleEx (host m') = WindowStyleEx (host m).

(** Two window states hold the same backbuffer. *)
Definition same_buffer (w w' : WSI_WINDOW_STATE) : Prop :=
  BackBufferMemory w' = BackBufferMemory w /\ BackBufferWidth w' = BackBufferWidth w /\
  BackBufferHeight w' = BackBufferHeight w /\ BackBufferStride w' = BackBufferStride w.

(** The conversions as the specification words them, in exact integer
    arithmetic, and the loss their two truncations can add up to: the round
    trip never exceeds [d] and falls short of it by less than [1 + 96 / p]. *)
Definition logicalToPhysical_exact (d p : Z) : Z := d * p / 96.
Definition physicalToLogical_exact (d p : Z) : Z := d * 96 / p.
Definition within_truncation (d p r : Z) : Prop := r <= d /\ (d - r) * p < p + 96.

(** The blit of [PresentBackBuffer] for a window state. *)
Definition present_call (ws : WSI_WINDOW_STATE) : Win32Call :=
  Call_StretchDIBits 0 0
    (s32 (LogicalToPhysicalPixels (ClientSizeX ws) (OutputDpiX ws)))
    (s32 (LogicalToPhysicalPixels (ClientSizeY ws) (OutputDpiY ws)))
    0 0 (s32 (BackBufferWidth ws)) (s32 (BackBufferHeight ws))
    (BackBufferMemory ws) (BackBufferInfo ws).

(** A computation keeps a property of the machine when every run of it that
    returns does. *)
Definition preserves {A} (P : Machine -> Prop) (c : M A) : Prop :=
  forall m a m', c m = Some (a, m') -> P m -> P m'.

Definition holds_backbuffer (m : Machine) : Prop := BackBufferMemory (window m) <> 0.

Definition marked_destroyed (m : Machine) : Prop :=
  has_flag (EventFlags (window m)) WSI_WINDOW_EVENT_FLAG_DESTROYED = true.

(** The window is in fullscreen mode and its restore fields hold the given
    rectangle and styles. *)
Definition fullscreen_snapshot (rc : RECT) (style style_ex : Z) (m : Machine) : Prop :=
  has_flag (StatusFlags (window m)) WSI_WINDOW_STATUS_FLAG_FULLSCREEN = true /\
  RestoreRect (window m) = rc /\ RestoreStyle (window m) = style /\
  RestoreStyleEx (window m) = style_ex.

(** Messages that are neither create, close nor a system command. *)
Definition quiet (queue : list MSG) : Prop :=
  Forall (fun msg => (message msg =? WM_CREATE) = false /\
                     (message msg =? WM_CLOSE) = false /\
                     (message msg =? WM_SYSCOMMAND) = false) queue.

Definition no_create (queue : list MSG) : Prop :=
  Forall (fun msg => (message msg =? WM_CREATE) = false) queue.

(** The addresses a call log has allocated and not yet freed.  The log is
    latest first: an allocation that succeeded adds its address, a free takes
    the address it names away, once. *)
Fixpoint release (address : Z) (live : list Z) : list Z :=
  match live with
  | [] => []
  | a :: rest => if a =? address then rest else a :: release address rest
  end.

Fixpoint live_buffers (calls : list Win32Call) : list Z :=
  match calls with
  | [] => []
  | Call_VirtualAlloc _ p :: rest =>
      if p =? 0 then live_buffers rest else p :: live_buffers rest
  | Call_VirtualFree address :: rest => release address (live_buffers rest)
  | _ :: rest => live_buffers rest
  end.

(** The addresses the program has allocated and not freed are exactly the
    one the window state records, or none. *)
Definition buffer_accounted (m : Machine) : Prop :=
  live_buffers (Calls (host m)) =
    if BackBufferMemory (window m) =? 0 then [] else [BackBufferMemory (window m)].

(** The stride of a recorded backbuffer is four bytes per pixel of its width. *)
Definition stride_of_width (m : Machine) : Prop :=
  BackBufferMemory (window m) <> 0 ->
  BackBufferStride (window m) = u32 (BackBufferWidth (window m) * 4).

(** Every bit of [flags] is one of [mask]. *)
Definition only_flags (mask flags : Z) : Prop := Z.land flags mask = flags.

(** The status flags hold nothing but the four status flags, the event flags
    nothing but the eight event flags. *)
Definition flags_defined (m : Machine) : Prop :=
  only_flags 15 (StatusFlags (window m)) /\ only_flags 255 (EventFlags (window m)).

Definition not_destroyed (m : Machine) : Prop :=
  has_flag (EventFlags (window m)) WSI_WINDOW_EVENT_FLAG_DESTROYED = false.

Definition no_close (queue : list MSG) : Prop :=
  Forall (fun msg => (message msg =? WM_CLOSE) = false) queue.

(** A logged blit reads from an allocated buffer. *)
Definition blit_has_source (c : Win32Call) : Prop :=
  match c with
  | Call_StretchDIBits _ _ _ _ _ _ _ _ memory _ => memory <> 0
  | _ => True
  end.

Definition blits_have_source (m : Machine) : Prop :=
  Forall blit_has_source (Calls (host m)).

(** The messages the window procedure has a handler for. *)
Definition handled (msg : Z) : bool :=
  existsb (Z.eqb msg)
    [WM_MOVE; WM_SIZE; WM_PAINT; WM_ACTIVATE; WM_SHOWWINDOW; WM_DPICHANGED;
     WM_SYSCOMMAND; WM_CREATE; WM_CLOSE].

(** A message goes to [DefWindowProc] and nothing else happens. *)
Definition forwarded (hwnd msg wparam lparam : Z) (m : Machine) : Prop :=
  WSI_WndProc hwnd msg wparam lparam m =
    Some (DefResult (host m) msg wparam lparam,
          mkMachine (window m) (os_log (Call_DefWindowProc msg wparam lparam) (host m))).

(** A computation returns, and keeps a property of the machine, from every
    machine that has the property. *)
Definition returns {A} (P : Machine -> Prop) (c : M A) : Prop :=
  forall m, P m -> exists a m', c m = Some (a, m') /\ P m'.

(** The handlers resolve the DPI [d] for the monitor of the window, and
    neither component of it is zero. *)
Definition dpi_is (d : Z * Z) (m : Machine) : Prop :=
  monitor_dpi m = d /\ fst d <> 0 /\ snd d <> 0.

(** A message that carries no pointer for the window procedure to read
    through: neither the DPI-changed nor the attaching notification. *)
Definition plain_message (msg : MSG) : Prop :=
  message msg <> WM_DPICHANGED /\ message msg <> WM_NCCREATE.

(* ------------------------------------------------------------------ *)
(** ** Reduction behaviour *)

Arguments u32 : simpl never.
Arguments s32 : simpl never.
Arguments usize : simpl never.
Arguments not32 : simpl never.
Arguments LOWORD : simpl never.
Arguments HIWORD : simpl never.
Arguments has_flag : simpl never.
Arguments PhysicalToLogicalPixels : simpl never.
Arguments LogicalToPhysicalPixels : simpl never.
Arguments query_dpi : simpl never.
Arguments ResizeBackBuffer : simpl never.

Ltac run :=
  unfold bind, ret, store, os_do, get_window, get_host, when, lift, trap,
         or_EventFlags, or_StatusFlags, and_StatusFlags; cbn.

(** Field reads through field assignments, and nothing else. *)
Ltac fields_in H :=
  cbn [window host
       Win32Handle StatusFlags EventFlags OutputDpiX OutputDpiY PositionX PositionY
       WindowSizeX WindowSizeY ClientSizeX ClientSizeY RestoreRect RestoreStyle RestoreStyleEx
       BackBufferMemory BackBufferWidth BackBufferHeight BackBufferStride BackBufferInfo
       Win32Api
       set_Win32Handle set_StatusFlags set_EventFlags set_OutputDpi set_Position
       set_WindowSize set_ClientSize set_Restore set_BackBuffer set_BackBufferInfo
       WindowRect ClientRect WindowStyle WindowStyleEx UserData MonitorRect MonitorDpi
       ScreenLogPixels AdjustRect RectAt DefResult AllocPlan Calls
       os_log os_set_AllocPlan os_set_WindowRect os_set_WindowStyle os_set_WindowStyleEx
       os_set_UserData] in H.

(* ------------------------------------------------------------------ *)
(** * Properties *)

(** ** Integers and flags *)

Lemma u32_small (z : Z) : 0 <= z < 4294967296 -> u32 z = z.
Proof. intros H. unfold u32. apply Z.mod_small. exact H. Qed.

Lemma s32_small (z : Z) : -2147483648 <= z < 2147483648 -> s32 z = z.
Proof. intros H. unfold s32. rewrite Z.mod_small; lia. Qed.

Lemma s32_add_s32 (a b : Z) : s32 (a + s32 b) = s32 (a + b).
Proof.
  unfold s32. f_equal.
  replace (a + ((b + 2147483648) mod 4294967296 - 2147483648) + 2147483648)
    with (a + (b + 2147483648) mod 4294967296) by lia.
  rewrite Zplus_mod_idemp_r. f_equal. lia.
Qed.

(** A corner moved by the wrapped extent lands on the opposite corner. *)
Lemma s32_span (a b : Z) : -2147483648 <= b < 2147483648 -> s32 (a + s32 (b - a)) = b.
Proof.
  intros H. rewrite s32_add_s32. replace (a + (b - a)) with b by lia.
  apply s32_small. exact H.
Qed.

Lemma has_flag_lor_r (flags flag : Z) :
  flag <> 0 -> has_flag (Z.lor flags flag) flag = true.
Proof.
  intros H. unfold has_flag.
  rewrite Z.land_comm, Z.land_lor_distr_r, Z.land_diag, Z.lor_comm.
  apply negb_true_iff, Z.eqb_neq. intros E.
  apply Z.lor_eq_0_iff in E. tauto.
Qed.

Lemma has_flag_lor_mid (flags flag more : Z) :
  flag <> 0 -> has_flag (Z.lor flags (Z.lor flag more)) flag = true.
Proof.
  intros H. rewrite (Z.lor_comm flag more), Z.lor_assoc.
  apply has_flag_lor_r. exact H.
Qed.

Lemma land_lor_other (flags a f : Z) :
  Z.land a f = 0 -> Z.land (Z.lor flags a) f = Z.land flags f.
Proof.
  intros H. rewrite Z.land_lor_distr_l, H. apply Z.lor_0_r.
Qed.

Lemma land_u32 (x f : Z) : 0 <= f < 4294967296 -> Z.land (u32 x) f = Z.land x f.
Proof.
  intros H. unfold u32.
  change 4294967296 with (2 ^ 32).
  rewrite <- Z.land_ones by lia.
  rewrite <- Z.land_assoc. f_equal.
  rewrite Z.land_comm, Z.land_ones by lia.
  apply Z.mod_small. exact H.
Qed.

(** Clearing a flag leaves every flag disjoint from it alone. *)
Lemma land_not32_other (flags a f : Z) :
  0 <= f < 4294967296 -> Z.land f a = 0 ->
  Z.land (Z.land flags (not32 a)) f = Z.land flags f.
Proof.
  intros Hf H. unfold not32.
  rewrite <- Z.land_assoc. f_equal.
  rewrite land_u32 by exact Hf.
  apply Z.bits_inj'. intros n Hn.
  rewrite Z.land_spec, Z.lnot_spec by exact Hn.
  assert (Hb : Z.testbit (Z.land f a) n = false) by (rewrite H; apply Z.bits_0).
  rewrite Z.land_spec in Hb.
  destruct (Z.testbit f n), (Z.testbit a n); cbn in *; congruence.
Qed.

Lemma has_flag_cleared (flags a : Z) :
  0 <= a < 4294967296 -> has_flag (Z.land flags (not32 a)) a = false.
Proof.
  intros Ha. unfold has_flag, not32.
  rewrite <- Z.land_assoc, land_u32 by exact Ha.
  replace (Z.land (Z.lnot a) a) with 0.
  - rewrite Z.land_0_r. reflexivity.
  - symmetry. apply Z.bits_inj'. intros n Hn.
    rewrite Z.land_spec, Z.lnot_spec, Z.bits_0 by exact Hn.
    destruct (Z.testbit a n); reflexivity.
Qed.

Lemma has_flag_other (flags flags' f : Z) :
  Z.land flags' f = Z.land flags f -> has_flag flags' f = has_flag flags f.
Proof. intros H. unfold has_flag. rewrite H. reflexivity. Qed.

Lemma has_flag_lor_keep (flags more flag : Z) :
  has_flag flags flag = true -> has_flag (Z.lor flags more) flag = true.
Proof.
  unfold has_flag. intros H. apply negb_true_iff, Z.eqb_neq in H.
  apply negb_true_iff, Z.eqb_neq.
  rewrite Z.land_lor_distr_l. intros E. apply Z.lor_eq_0_iff in E. tauto.
Qed.

Lemma has_flag_land_keep (flags a flag : Z) :
  0 <= flag < 4294967296 -> Z.land flag a = 0 ->
  has_flag flags flag = true -> has_flag (Z.land flags (not32 a)) flag = true.
Proof.
  intros Hf Ha H. rewrite <- H. apply has_flag_other, land_not32_other; assumption.
Qed.

(** ** The conversions *)

Lemma PhysicalToLogicalPixels_Some (dim dpi : Z) :
  dpi <> 0 -> PhysicalToLogicalPixels dim dpi = Some (u32 (dim * 96) / dpi).
Proof.
  intros H. unfold PhysicalToLogicalPixels, udiv, USER_DEFAULT_SCREEN_DPI.
  apply Z.eqb_neq in H. rewrite H. reflexivity.
Qed.

Lemma LogicalToPhysicalPixels_range (dim dpi : Z) :
  0 <= LogicalToPhysicalPixels dim dpi < 44739243.
Proof.
  unfold LogicalToPhysicalPixels, u32, USER_DEFAULT_SCREEN_DPI.
  pose proof (Z.mod_pos_bound (dim * dpi) 4294967296 eq_refl) as H.
  split.
  - apply Z.div_pos; lia.
  - apply Z.div_lt_upper_bound; lia.
Qed.

(** ** ResizeBackBuffer, case by case *)

Lemma ResizeBackBuffer_noop (x y : Z) (m : Machine) :
  resize_is_noop (window m) x y = true -> ResizeBackBuffer x y m = Some (0, m).
Proof.
  unfold resize_is_noop. intros H. unfold ResizeBackBuffer. run. rewrite H. reflexivity.
Qed.

Lemma ResizeBackBuffer_fail (x y : Z) (m : Machine) :
  resize_is_noop (window m) x y = false ->
  hd 0 (AllocPlan (host m)) = 0 ->
  ResizeBackBuffer x y m =
  Some (-1, mkMachine (set_BackBufferInfo (resize_header x y) (window m))
                      (os_log (Call_VirtualAlloc (resize_bytes x y) 0)
                              (os_set_AllocPlan (tl (AllocPlan (host m))) (host m)))).
Proof.
  unfold resize_is_noop. intros H Hp. unfold ResizeBackBuffer, VirtualAlloc. run.
  rewrite H, Hp. reflexivity.
Qed.

Lemma ResizeBackBuffer_ok (x y : Z) (m : Machine) :
  resize_is_noop (window m) x y = false ->
  hd 0 (AllocPlan (host m)) <> 0 ->
  let p := hd 0 (AllocPlan (host m)) in
  let o := os_log (Call_VirtualAlloc (resize_bytes x y) p)
                  (os_set_AllocPlan (tl (AllocPlan (host m))) (host m)) in
  ResizeBackBuffer x y m =
  Some (0, mkMachine (set_BackBuffer p x y (u32 (x * 4))
                        (set_BackBufferInfo (resize_header x y) (window m)))
                     (if BackBufferMemory (window m) =? 0 then o
                      else os_log (Call_VirtualFree (BackBufferMemory (window m))) o)).
Proof.
  unfold resize_is_noop. intros H Hp. unfold ResizeBackBuffer, VirtualAlloc. run.
  rewrite H. apply Z.eqb_neq in Hp. rewrite Hp. cbn.
  destruct (BackBufferMemory (window m) =? 0); reflexivity.
Qed.

Lemma ResizeBackBuffer_total (x y : Z) (m : Machine) :
  exists r m', ResizeBackBuffer x y m = Some (r, m') /\ resize_frame m m'.
Proof.
  destruct (resize_is_noop (window m) x y) eqn:Hn.
  - exists 0, m. split. apply ResizeBackBuffer_noop, Hn.
    unfold resize_frame. cbn. repeat split.
  - destruct (Z.eq_dec (hd 0 (AllocPlan (host m))) 0) as [Hp|Hp].
    + eexists _, _. split. apply ResizeBackBuffer_fail; assumption.
      unfold resize_frame. cbn. repeat split.
    + eexists _, _. split. apply ResizeBackBuffer_ok; assumption.
      unfold resize_frame. cbn.
      destruct (BackBufferMemory (window m) =? 0); cbn; repeat split.
Qed.

(** A failed resize rewrites the bitmap header all the same: the header
    then describes the size that was asked for, not the buffer kept. *)
Remark ResizeBackBuffer_fail_header (x y : Z) (m m' : Machine) :
  ResizeBackBuffer x y m = Some (-1, m') ->
  BackBufferInfo (window m') = resize_header x y.
Proof.
  intros H.
  destruct (resize_is_noop (window m) x y) eqn:Hn.
  - rewrite ResizeBackBuffer_noop in H by exact Hn. discriminate.
  - destruct (Z.eq_dec (hd 0 (AllocPlan (host m))) 0) as [Hp|Hp].
    + rewrite ResizeBackBuffer_fail in H by assumption.
      injection H as <-. reflexivity.
    + rewrite ResizeBackBuffer_ok in H by assumption. discriminate.
Qed.

(** C1.  When a backbuffer exists and the allocation of a resize fails, the
    resize returns -1 and the stored base address, width, height and stride
    keep their values, so the framebuffer query still returns the descriptor
    of the buffer held before the call. *)
Theorem ResizeBackBuffer_failure_keeps_buffer (m : Machine) (x y : Z) :
  BackBufferMemory (window m) <> 0 ->
  x <> BackBufferWidth (window m) \/ y <> BackBufferHeight (window m) ->
  hd 0 (AllocPlan (host m)) = 0 ->
  exists m',
    ResizeBackBuffer x y m = Some (-1, m') /\
    BackBufferMemory (window m') = BackBufferMemory (window m) /\
    BackBufferWidth (window m') = BackBufferWidth (window m) /\
    BackBufferHeight (window m') = BackBufferHeight (window m) /\
    BackBufferStride (window m') = BackBufferStride (window m) /\
    rtcGetFrameBuffer (window m') = rtcGetFrameBuffer (window m) /\
    rtcGetFrameBuffer (window m) =
      Some (mkRTC_FRAMEBUFFER (BackBufferMemory (window m)) (BackBufferWidth (window m))
                              (BackBufferHeight (window m)) (BackBufferStride (window m))).
Proof.
  intros Hmem Hdim Hfail.
  assert (Hn : resize_is_noop (window m) x y = false).
  { unfold resize_is_noop.
    destruct Hdim as [H|H]; apply Z.eqb_neq in H; rewrite H; cbn.
    - reflexivity.
    - rewrite andb_false_r. reflexivity. }
  eexists. split.
  - apply ResizeBackBuffer_fail; assumption.
  - cbn. repeat split.
    unfold rtcGetFrameBuffer. apply Z.eqb_neq in Hmem. rewrite Hmem. reflexivity.
Qed.

Lemma ResizeBackBuffer_failure_keeps_buffer_witness :
  exists m',
    ResizeBackBuffer 1024 768 (mkMachine shown_window (desktop [0])) = Some (-1, m') /\
    rtcGetFrameBuffer (window m') = Some (mkRTC_FRAMEBUFFER 65536 800 600 3200).
Proof.
  destruct (ResizeBackBuffer_failure_keeps_buffer
              (mkMachine shown_window (desktop [0])) 1024 768)
    as (m' & Hr & _ & _ & _ & _ & Hq & Hd).
  - cbn. lia.
  - left. cbn. lia.
  - reflexivity.
  - exists m'. split. exact Hr. rewrite Hq. exact Hd.
Defined.

(** C2.  A resize to the size the backbuffer already has returns 0 and
    changes nothing, neither in the window state nor on the side of the
    operating system; so a resize that succeeded, asked for again with the
    same size, returns 0 a second time without allocating. *)
Theorem ResizeBackBuffer_idempotent (x y : Z) :
  (forall m,
      BackBufferWidth (window m) = x -> BackBufferHeight (window m) = y ->
      BackBufferMemory (window m) <> 0 ->
      ResizeBackBuffer x y m = Some (0, m)) /\
  (forall m m1,
      ResizeBackBuffer x y m = Some (0, m1) ->
      ResizeBackBuffer x y m1 = Some (0, m1)).
Proof.
  assert (Hsame : forall m,
      BackBufferWidth (window m) = x -> BackBufferHeight (window m) = y ->
      BackBufferMemory (window m) <> 0 ->
      ResizeBackBuffer x y m = Some (0, m)).
  { intros m Hx Hy Hmem. apply ResizeBackBuffer_noop. unfold resize_is_noop.
    rewrite Hx, Hy, !Z.eqb_refl. apply Z.eqb_neq in Hmem. rewrite Hmem. reflexivity. }
  split. exact Hsame.
  intros m m1 H.
  destruct (resize_is_noop (window m) x y) eqn:Hn.
  - rewrite ResizeBackBuffer_noop in H by exact Hn.
    injection H as <-. apply ResizeBackBuffer_noop, Hn.
  - destruct (Z.eq_dec (hd 0 (AllocPlan (host m))) 0) as [Hp|Hp].
    + rewrite ResizeBackBuffer_fail in H by assumption. discriminate.
    + rewrite ResizeBackBuffer_ok in H by assumption.
      injection H as <-. apply Hsame; cbn; auto.
Qed.

Lemma ResizeBackBuffer_idempotent_witness :
  exists m1,
    ResizeBackBuffer 1024 768 (mkMachine shown_window (desktop [131072])) = Some (0, m1) /\
    ResizeBackBuffer 1024 768 m1 = Some (0, m1) /\
    Calls (host m1) = [Call_VirtualFree 65536; Call_VirtualAlloc 3145728 131072].
Proof.
  eexists. split; [|split].
  - apply ResizeBackBuffer_ok.
    + reflexivity.
    + cbn. lia.
  - apply (proj2 (ResizeBackBuffer_idempotent 1024 768)
                 (mkMachine shown_window (desktop [131072]))).
    apply ResizeBackBuffer_ok.
    + reflexivity.
    + cbn. lia.
  - reflexivity.
Defined.

(** ** The conversion round trip *)

(** In exact arithmetic the round trip is within the truncation loss for
    every positive dimension and DPI. *)
Lemma exact_round_trip (d p : Z) :
  0 < d -> 0 < p ->
  within_truncation d p (physicalToLogical_exact (logicalToPhysical_exact d p) p).
Proof.
  intros Hd Hp. unfold within_truncation, physicalToLogical_exact, logicalToPhysical_exact.
  pose proof (Z.mul_div_le (d * p) 96 eq_refl) as H1.
  pose proof (Z.mul_succ_div_gt (d * p) 96 eq_refl) as H2.
  set (q := d * p / 96) in *.
  pose proof (Z.mul_div_le (q * 96) p Hp) as H3.
  pose proof (Z.mul_succ_div_gt (q * 96) p Hp) as H4.
  set (r := q * 96 / p) in *.
  split; nia.
Qed.

Lemma conversions_exact_below_wrap (d p : Z) :
  0 < d -> 0 < p -> d * p < 4294967296 ->
  LogicalToPhysicalPixels d p = logicalToPhysical_exact d p /\
  PhysicalToLogicalPixels (LogicalToPhysicalPixels d p) p =
    Some (physicalToLogical_exact (logicalToPhysical_exact d p) p).
Proof.
  intros Hd Hp Hw.
  assert (HL : LogicalToPhysicalPixels d p = logicalToPhysical_exact d p).
  { unfold LogicalToPhysicalPixels, logicalToPhysical_exact, USER_DEFAULT_SCREEN_DPI.
    rewrite u32_small by nia. reflexivity. }
  split. exact HL.
  rewrite HL, PhysicalToLogicalPixels_Some by lia.
  unfold physicalToLogical_exact, logicalToPhysical_exact.
  pose proof (Z.mul_div_le (d * p) 96 eq_refl) as H1.
  assert (0 <= d * p / 96) by (apply Z.div_pos; nia).
  rewrite u32_small by nia. reflexivity.
Qed.

(** C8, as the code has it.  For a positive dimension and DPI whose product
    stays below 2^32 the macros compute the exact quotients, and the round
    trip is within the truncation loss: it never exceeds [d], it is [d] or
    [d - 1] from 96 DPI upwards, and it is [d] at 96 DPI. *)
Theorem conversion_round_trip (d p : Z) :
  0 < d -> 0 < p -> d * p < 4294967296 ->
  exists r,
    PhysicalToLogicalPixels (LogicalToPhysicalPixels d p) p = Some r /\
    r = physicalToLogical_exact (logicalToPhysical_exact d p) p /\
    within_truncation d p r /\
    (96 <= p -> d - 1 <= r) /\
    (p = 96 -> r = d).
Proof.
  intros Hd Hp Hw.
  destruct (conversions_exact_below_wrap d p Hd Hp Hw) as [_ HP].
  pose proof (exact_round_trip d p Hd Hp) as Ht.
  eexists. split. exact HP. split. reflexivity. split. exact Ht.
  unfold within_truncation in Ht.
  set (r := physicalToLogical_exact (logicalToPhysical_exact d p) p) in *.
  split.
  - intros H96. nia.
  - intros ->. unfold r, physicalToLogical_exact, logicalToPhysical_exact.
    rewrite !Z.div_mul by lia. reflexivity.
Qed.

Lemma conversion_round_trip_witness :
  PhysicalToLogicalPixels (LogicalToPhysicalPixels 801 144) 144 = Some 800.
Proof.
  destruct (conversion_round_trip 801 144) as (r & Hr & He & _); try lia.
  rewrite Hr, He. reflexivity.
Defined.

(** C8, as the claim has it, fails where the 32-bit product wraps: at 96 DPI
    the exact round trip is the identity, and the macros send 2^31 to 0. *)
Lemma conversion_round_trip_wraps :
  physicalToLogical_exact (logicalToPhysical_exact 2147483648 96) 96 = 2147483648 /\
  PhysicalToLogicalPixels (LogicalToPhysicalPixels 2147483648 96) 96 = Some 0 /\
  ~ (exists r,
        PhysicalToLogicalPixels (LogicalToPhysicalPixels 2147483648 96) 96 = Some r /\
        within_truncation 2147483648 96 r).
Proof.
  split. reflexivity. split. reflexivity.
  intros (r & Hr & Hle & Hlt).
  assert (E : PhysicalToLogicalPixels (LogicalToPhysicalPixels 2147483648 96) 96 = Some 0)
    by reflexivity.
  rewrite E in Hr. injection Hr as <-. lia.
Qed.

(** ** The presentation loop *)

(** What a pass of the loop does once its messages are dispatched. *)
Lemma wWinMain_present_eq (m : Machine) :
  let ws := window m in
  wWinMain_present m =
  Some (if has_flag (EventFlags ws) WSI_WINDOW_EVENT_FLAG_DESTROYED then (Tick_break, m)
        else (Tick_continue,
              mkMachine ws
                (os_log (Call_Sleep 16)
                   (if has_flag (StatusFlags ws) WSI_WINDOW_STATUS_FLAG_VISIBLE
                       && negb (BackBufferMemory ws =? 0)
                    then os_log (present_call ws) (host m) else host m)))).
Proof.
  unfold wWinMain_present, PresentBackBuffer. run.
  destruct (has_flag (EventFlags (window m)) WSI_WINDOW_EVENT_FLAG_DESTROYED);
    [reflexivity|].
  destruct (has_flag (StatusFlags (window m)) WSI_WINDOW_STATUS_FLAG_VISIBLE); cbn;
    [|reflexivity].
  destruct (BackBufferMemory (window m) =? 0); reflexivity.
Qed.

(** C3, as the code has it.  Once the pending messages of a pass are
    dispatched, the pass leaves the loop exactly when the Destroyed event
    flag is set, and the loop then runs no further pass; otherwise the pass
    issues one blit exactly when the Visible status flag is set and the
    backbuffer address is not null, and no blit in any other case, and the
    loop goes on.  The blit goes from the backbuffer's stored width and
    height to the client size times the stored DPI over 96, the product
    taken in 32 bits.  The paint notification issues the same blit whenever
    the backbuffer address is not null, whatever the Visible status flag and
    the Destroyed event flag say. *)
Theorem wWinMain_tick_presents (hwnd : Z) (queue : list MSG) (m m1 : Machine) :
  dispatch_messages hwnd queue m = Some (tt, m1) ->
  let blit ws := Call_StretchDIBits 0 0
                   (s32 (u32 (ClientSizeX ws * OutputDpiX ws) / 96))
                   (s32 (u32 (ClientSizeY ws * OutputDpiY ws) / 96))
                   0 0 (s32 (BackBufferWidth ws)) (s32 (BackBufferHeight ws))
                   (BackBufferMemory ws) (BackBufferInfo ws) in
  let ws := window m1 in
  let destroyed := has_flag (EventFlags ws) WSI_WINDOW_EVENT_FLAG_DESTROYED in
  let presents := has_flag (StatusFlags ws) WSI_WINDOW_STATUS_FLAG_VISIBLE
                  && negb (BackBufferMemory ws =? 0) in
  let m2 := mkMachine ws (os_log (Call_Sleep 16)
                            (if presents then os_log (blit ws) (host m1) else host m1)) in
  wWinMain_tick hwnd queue m =
    Some (if destroyed then (Tick_break, m1) else (Tick_continue, m2)) /\
  (forall rest,
     wWinMain_loop hwnd (queue :: rest) m =
       if destroyed then Some (true, m1) else wWinMain_loop hwnd rest m2) /\
  (forall m0 wparam lparam,
     BackBufferMemory (window m0) <> 0 ->
     WSI_WndProc_WM_PAINT wparam lparam m0 =
       Some (0, mkMachine (window m0) (os_log (blit (window m0)) (host m0)))).
Proof.
  intros H blit ws destroyed presents m2.
  assert (Htick : wWinMain_tick hwnd queue m =
                  Some (if destroyed then (Tick_break, m1) else (Tick_continue, m2))).
  { unfold wWinMain_tick, bind. rewrite H. apply wWinMain_present_eq. }
  split. exact Htick.
  split.
  - intros rest. cbn [wWinMain_loop]. unfold bind at 1. rewrite Htick.
    destruct destroyed; reflexivity.
  - intros m0 wparam lparam Hmem. apply Z.eqb_neq in Hmem.
    unfold WSI_WndProc_WM_PAINT, PresentBackBuffer. run. rewrite Hmem. reflexivity.
Qed.

Lemma wWinMain_tick_presents_witness :
  exists m',
    wWinMain_tick 7 [] (mkMachine shown_window_192 (desktop_192 [])) =
      Some (Tick_continue, m') /\
    Calls (host m') =
      [Call_Sleep 16;
       Call_StretchDIBits 0 0 1600 1200 0 0 1600 1200 65536
                          (mkBITMAPINFOHEADER 40 1600 (-1200) 1 32 BI_RGB)].
Proof.
  eexists. split.
  - rewrite (proj1 (wWinMain_tick_presents 7 [] (mkMachine shown_window_192 (desktop_192 []))
                                           (mkMachine shown_window_192 (desktop_192 []))
                                           eq_refl)).
    reflexivity.
  - reflexivity.
Defined.

(** C3, as the claim has it, fails in its last sentence: a shown window with
    its backbuffer at 65536 receives the close notification and then, in the
    same pass, a paint notification.  The close notification has set the
    Destroyed event flag and cleared the Visible status flag, and the paint
    notification presents all the same; the check that follows leaves the
    loop. *)
Lemma WM_PAINT_presents_after_destroyed :
  exists m1 m2,
    dispatch_messages 7 [mkMSG WM_CLOSE 0 0] (mkMachine shown_window (desktop [])) =
      Some (tt, m1) /\
    has_flag (EventFlags (window m1)) WSI_WINDOW_EVENT_FLAG_DESTROYED = true /\
    has_flag (StatusFlags (window m1)) WSI_WINDOW_STATUS_FLAG_VISIBLE = false /\
    Calls (host m1) = [Call_ShowWindow SW_HIDE] /\
    wWinMain_tick 7 [mkMSG WM_PAINT 0 0] m1 = Some (Tick_break, m2) /\
    Calls (host m2) =
      [Call_StretchDIBits 0 0 800 600 0 0 800 600 65536
                          (mkBITMAPINFOHEADER 40 800 (-600) 1 32 BI_RGB);
       Call_ShowWindow SW_HIDE].
Proof.
  eexists _, _. split. vm_compute. reflexivity.
  split. reflexivity. split. reflexivity. split. reflexivity.
  split. vm_compute. reflexivity. reflexivity.
Qed.

(** ** What a resize returns *)

Lemma ResizeBackBuffer_outcome (x y : Z) (m : Machine) :
  exists r m',
    ResizeBackBuffer x y m = Some (r, m') /\ resize_frame m m' /\
    (r = -1 ->
       same_buffer (window m) (window m') /\
       resize_is_noop (window m) x y = false /\ hd 0 (AllocPlan (host m)) = 0) /\
    (r <> -1 ->
       r = 0 /\ BackBufferMemory (window m') <> 0 /\
       BackBufferWidth (window m') = x /\ BackBufferHeight (window m') = y).
Proof.
  destruct (ResizeBackBuffer_total x y m) as (r & m' & Hr & Hf).
  exists r, m'. split. exact Hr. split. exact Hf.
  destruct (resize_is_noop (window m) x y) eqn:Hn.
  - rewrite ResizeBackBuffer_noop in Hr by exact Hn. injection Hr as <- <-.
    split. discriminate. intros _.
    unfold resize_is_noop in Hn. apply andb_prop in Hn as [Hn Hmem].
    apply andb_prop in Hn as [Hx Hy].
    apply Z.eqb_eq in Hx, Hy. apply negb_true_iff, Z.eqb_neq in Hmem. auto.
  - destruct (Z.eq_dec (hd 0 (AllocPlan (host m))) 0) as [Hp|Hp].
    + rewrite ResizeBackBuffer_fail in Hr by assumption. injection Hr as <- <-.
      split. intros _. unfold same_buffer. cbn. auto. intros H. congruence.
    + rewrite ResizeBackBuffer_ok in Hr by assumption. injection Hr as <- <-.
      split. discriminate. intros _. cbn. auto.
Qed.

(** ** The size notification *)

(** C9.  A size notification with a minimized code, or one whose converted
    client size is the stored one, rewrites the status flags and nothing
    else: the Visible flag follows the code, every other status flag, the
    event flags, position, sizes, DPI and backbuffer keep their values, and
    no call is issued. *)
Theorem WM_SIZE_minimized_or_unchanged (m : Machine) (wparam lparam : Z) :
  fst (monitor_dpi m) <> 0 -> snd (monitor_dpi m) <> 0 ->
  let minimized := (wparam =? SIZE_MINIMIZED) || (wparam =? SIZE_MAXHIDE) in
  minimized = true \/
  (PhysicalToLogicalPixels (LOWORD lparam) (fst (monitor_dpi m)) =
     Some (ClientSizeX (window m)) /\
   PhysicalToLogicalPixels (HIWORD lparam) (snd (monitor_dpi m)) =
     Some (ClientSizeY (window m))) ->
  let status :=
    if minimized
    then Z.land (StatusFlags (window m)) (not32 WSI_WINDOW_STATUS_FLAG_VISIBLE)
    else Z.lor (StatusFlags (window m)) WSI_WINDOW_STATUS_FLAG_VISIBLE in
  WSI_WndProc_WM_SIZE wparam lparam m =
    Some (0, mkMachine (set_StatusFlags status (window m)) (host m)) /\
  has_flag status WSI_WINDOW_STATUS_FLAG_VISIBLE = negb minimized /\
  (forall f, 0 <= f < 4294967296 -> Z.land f WSI_WINDOW_STATUS_FLAG_VISIBLE = 0 ->
             Z.land status f = Z.land (StatusFlags (window m)) f).
Proof.
  intros Hx Hy minimized Hcase status.
  split; [|split].
  - unfold WSI_WndProc_WM_SIZE, call_GetDpiForMonitor, monitor_dpi in *. run.
    rewrite (PhysicalToLogicalPixels_Some (LOWORD lparam)) by exact Hx.
    rewrite (PhysicalToLogicalPixels_Some (HIWORD lparam)) by exact Hy.
    subst status. fold minimized.
    destruct minimized eqn:Hmin.
    + reflexivity.
    + destruct Hcase as [Hc|[Hw Hh]]; [discriminate|].
      rewrite PhysicalToLogicalPixels_Some in Hw by exact Hx.
      rewrite PhysicalToLogicalPixels_Some in Hh by exact Hy.
      injection Hw as Hw. injection Hh as Hh.
      rewrite Hw, Hh, !Z.eqb_refl.
      destruct (wparam =? SIZE_RESTORED); reflexivity.
  - subst status. destruct minimized; cbn.
    + apply has_flag_cleared. unfold WSI_WINDOW_STATUS_FLAG_VISIBLE. lia.
    + apply has_flag_lor_r. discriminate.
  - intros f Hf Hd. subst status. destruct minimized.
    + apply land_not32_other; assumption.
    + apply land_lor_other. rewrite Z.land_comm. exact Hd.
Qed.

Lemma WM_SIZE_minimized_or_unchanged_witness :
  WSI_WndProc_WM_SIZE SIZE_MINIMIZED (MAKELONG 0 0) (mkMachine shown_window (desktop [])) =
  Some (0, mkMachine (set_StatusFlags WSI_WINDOW_STATUS_FLAG_CREATED shown_window)
                     (desktop [])).
Proof.
  destruct (WM_SIZE_minimized_or_unchanged
              (mkMachine shown_window (desktop [])) SIZE_MINIMIZED (MAKELONG 0 0))
    as (H & _).
  - vm_compute. lia.
  - vm_compute. lia.
  - left. reflexivity.
  - exact H.
Defined.

(** C10, as the code has it.  A size notification with a code other than
    minimized whose converted client size differs from the stored one
    resizes the backbuffer and then, whatever the resize returned, stores
    the converted client size, the window size, the position and the DPI and
    sets the SizeChanged event.  When the resize failed the backbuffer is
    the one held before, and if one was held its size is not the size the
    notification carried. *)
Theorem WM_SIZE_resized (m : Machine) (wparam lparam : Z) :
  let dpi_x := fst (monitor_dpi m) in
  let dpi_y := snd (monitor_dpi m) in
  let rc := WindowRect (host m) in
  dpi_x <> 0 -> dpi_y <> 0 ->
  (wparam =? SIZE_MINIMIZED) || (wparam =? SIZE_MAXHIDE) = false ->
  PhysicalToLogicalPixels (LOWORD lparam) dpi_x <> Some (ClientSizeX (window m)) \/
  PhysicalToLogicalPixels (HIWORD lparam) dpi_y <> Some (ClientSizeY (window m)) ->
  exists r m1 m2,
    ResizeBackBuffer (LOWORD lparam) (HIWORD lparam) m = Some (r, m1) /\
    WSI_WndProc_WM_SIZE wparam lparam m = Some (0, m2) /\
    PhysicalToLogicalPixels (LOWORD lparam) dpi_x = Some (ClientSizeX (window m2)) /\
    PhysicalToLogicalPixels (HIWORD lparam) dpi_y = Some (ClientSizeY (window m2)) /\
    PhysicalToLogicalPixels (u32 (right rc - left rc)) dpi_x = Some (WindowSizeX (window m2)) /\
    PhysicalToLogicalPixels (u32 (bottom rc - top rc)) dpi_y = Some (WindowSizeY (window m2)) /\
    PositionX (window m2) = left rc /\ PositionY (window m2) = top rc /\
    OutputDpiX (window m2) = dpi_x /\ OutputDpiY (window m2) = dpi_y /\
    has_flag (EventFlags (window m2)) WSI_WINDOW_EVENT_FLAG_SIZE_CHANGED = true /\
    same_buffer (window m1) (window m2) /\ host m2 = host m1 /\
    (r = -1 ->
       same_buffer (window m) (window m2) /\
       (BackBufferMemory (window m) <> 0 ->
        BackBufferWidth (window m2) <> LOWORD lparam \/
        BackBufferHeight (window m2) <> HIWORD lparam)).
Proof.
  intros dpi_x dpi_y rc Hx Hy Hmin Hsize.
  destruct (ResizeBackBuffer_outcome (LOWORD lparam) (HIWORD lparam) m)
    as (r & m1 & Hr & Hf & Hfail & _).
  exists r, m1.
  assert (Hdid : (u32 (LOWORD lparam * 96) / dpi_x =? ClientSizeX (window m))
                 && (u32 (HIWORD lparam * 96) / dpi_y =? ClientSizeY (window m)) = false).
  { rewrite !PhysicalToLogicalPixels_Some in Hsize by assumption.
    destruct Hsize as [H|H].
    - assert (H' : u32 (LOWORD lparam * 96) / dpi_x <> ClientSizeX (window m)) by congruence.
      apply Z.eqb_neq in H'. rewrite H'. reflexivity.
    - assert (H' : u32 (HIWORD lparam * 96) / dpi_y <> ClientSizeY (window m)) by congruence.
      apply Z.eqb_neq in H'. rewrite H'. apply andb_false_r. }
  destruct Hf as (_ & _ & Hev & _ & _ & _ & _ & _ & _ & _ & _ & _ & _ & _ & _ & Hrc & _).
  assert (Hrun : exists m2,
    WSI_WndProc_WM_SIZE wparam lparam m = Some (0, m2) /\
    ClientSizeX (window m2) = u32 (LOWORD lparam * 96) / dpi_x /\
    ClientSizeY (window m2) = u32 (HIWORD lparam * 96) / dpi_y /\
    WindowSizeX (window m2) = u32 (u32 (right rc - left rc) * 96) / dpi_x /\
    WindowSizeY (window m2) = u32 (u32 (bottom rc - top rc) * 96) / dpi_y /\
    PositionX (window m2) = left rc /\ PositionY (window m2) = top rc /\
    OutputDpiX (window m2) = dpi_x /\ OutputDpiY (window m2) = dpi_y /\
    (exists flags, EventFlags (window m2) =
       Z.lor (EventFlags (window m)) (Z.lor WSI_WINDOW_EVENT_FLAG_SIZE_CHANGED flags)) /\
    same_buffer (window m1) (window m2) /\ host m2 = host m1).
  { unfold WSI_WndProc_WM_SIZE, call_GetDpiForMonitor, GetWindowRect. run.
    fold (monitor_dpi m). fold dpi_x. fold dpi_y.
    rewrite (PhysicalToLogicalPixels_Some (LOWORD lparam)) by exact Hx.
    rewrite (PhysicalToLogicalPixels_Some (HIWORD lparam)) by exact Hy.
    rewrite Hmin.
    destruct (wparam =? SIZE_RESTORED); cbn; rewrite Hdid; cbn; rewrite Hr;
      rewrite (PhysicalToLogicalPixels_Some _ dpi_x) by exact Hx;
      rewrite (PhysicalToLogicalPixels_Some _ dpi_y) by exact Hy;
      eexists; (split; [reflexivity|]); cbn; subst rc; rewrite Hrc, Hev;
      unfold same_buffer; repeat split.
    - exists WSI_WINDOW_EVENT_FLAG_SHOWN. reflexivity.
    - exists 0. reflexivity. }
  destruct Hrun as (m2 & Hm2 & Hcx & Hcy & Hwx & Hwy & Hpx & Hpy & Hdx & Hdy
                    & (flags & Hflags) & Hbuf & Hhost).
  exists m2. split. exact Hr. split. exact Hm2.
  rewrite !PhysicalToLogicalPixels_Some by assumption.
  rewrite Hcx, Hcy, Hwx, Hwy.
  repeat (split; [first [reflexivity|assumption]|]).
  split.
  { rewrite Hflags. apply has_flag_lor_mid. discriminate. }
  split. exact Hbuf. split. exact Hhost.
  intros Hneg. destruct (Hfail Hneg) as (Hsame & Hnoop & _).
  assert (Hsame2 : same_buffer (window m) (window m2)).
  { unfold same_buffer in *. intuition congruence. }
  split. exact Hsame2.
  intros Hmem. destruct Hsame2 as (_ & Hw & Hh & _). rewrite Hw, Hh.
  unfold resize_is_noop in Hnoop. apply Z.eqb_neq in Hmem. rewrite Hmem in Hnoop.
  cbn in Hnoop. rewrite andb_true_r in Hnoop.
  apply andb_false_iff in Hnoop as [H|H]; apply Z.eqb_neq in H; auto.
Qed.

Lemma WM_SIZE_resized_witness :
  exists m2,
    WSI_WndProc_WM_SIZE SIZE_RESTORED (MAKELONG 1602 1200)
                        (mkMachine shown_window_192 (desktop_192 [0])) = Some (0, m2) /\
    ClientSizeX (window m2) = 801 /\ BackBufferWidth (window m2) = 1600 /\
    has_flag (EventFlags (window m2)) WSI_WINDOW_EVENT_FLAG_SIZE_CHANGED = true.
Proof.
  destruct (WM_SIZE_resized (mkMachine shown_window_192 (desktop_192 [0]))
                            SIZE_RESTORED (MAKELONG 1602 1200))
    as (r & m1 & m2 & Hr & Hm2 & Hcx & _ & _ & _ & _ & _ & _ & _ & Hev & _ & _ & Hfail).
  - vm_compute. lia.
  - vm_compute. lia.
  - reflexivity.
  - left. vm_compute. congruence.
  - exists m2. split. exact Hm2.
    vm_compute in Hcx. injection Hcx as Hcx.
    vm_compute in Hr. injection Hr as Hr _.
    destruct (Hfail (eq_sym Hr)) as ((_ & Hw & _) & _).
    split. symmetry. exact Hcx. split. exact Hw. exact Hev.
Defined.

(** C10, as the claim has it, fails at 192 DPI: the client area grows from
    1600 to 1601 physical pixels while the window is visible, the converted
    size stays 800, and the handler sets no event and resizes nothing. *)
Lemma WM_SIZE_ignores_subpixel_change :
  exists m2,
    WSI_WndProc_WM_SIZE SIZE_RESTORED (MAKELONG 1601 1200)
                        (mkMachine shown_window_192 (desktop_192 [131072])) = Some (0, m2) /\
    LOWORD (MAKELONG 1601 1200) = 1601 /\
    LogicalToPhysicalPixels (ClientSizeX shown_window_192) (OutputDpiX shown_window_192) = 1600 /\
    BackBufferWidth shown_window_192 = 1600 /\
    has_flag (StatusFlags (window m2)) WSI_WINDOW_STATUS_FLAG_VISIBLE = true /\
    has_flag (EventFlags (window m2)) WSI_WINDOW_EVENT_FLAG_SIZE_CHANGED = false /\
    BackBufferWidth (window m2) = 1600 /\
    Calls (host m2) = [].
Proof.
  eexists. split. vm_compute. reflexivity.
  repeat split.
Qed.

(** ** Properties every notification keeps *)

Section Preserves.
Variable P : Machine -> Prop.
Hypothesis P_host : forall w o o', P (mkMachine w o) -> P (mkMachine w o').

Lemma preserves_ret {A} (a : A) : preserves P (ret a).
Proof. intros m b m' H. injection H as <- <-. auto. Qed.

Lemma preserves_bind {A B} (c : M A) (k : A -> M B) :
  preserves P c -> (forall a, preserves P (k a)) -> preserves P (bind c k).
Proof.
  intros Hc Hk m b m' H HP. unfold bind in H.
  destruct (c m) as [[a m1]|] eqn:E; [|discriminate].
  eapply Hk; eauto.
Qed.

Lemma preserves_lift {A} (o : option A) : preserves P (lift o).
Proof. intros m a m' H. destruct o; [|discriminate]. injection H as <- <-. auto. Qed.

Lemma preserves_get_window : preserves P get_window.
Proof. intros m a m' H. injection H as <- <-. auto. Qed.

Lemma preserves_get_host : preserves P get_host.
Proof. intros m a m' H. injection H as <- <-. auto. Qed.

(** What is read from the window state has the property too. *)
Lemma preserves_get_window_bind {B} (k : WSI_WINDOW_STATE -> M B) :
  (forall w o, P (mkMachine w o) -> preserves P (k w)) -> preserves P (bind get_window k).
Proof.
  intros Hk m b m' H HP. unfold bind, get_window in H.
  destruct m as [w o]. eapply (Hk w o); eauto.
Qed.

Lemma preserves_os_do (f : Win32 -> Win32) : preserves P (os_do f).
Proof.
  intros m a m' H HP. injection H as <- <-. destruct m as [w o]. eapply P_host, HP.
Qed.

Lemma preserves_store (f : WSI_WINDOW_STATE -> WSI_WINDOW_STATE) :
  (forall w o, P (mkMachine w o) -> P (mkMachine (f w) o)) -> preserves P (store f).
Proof.
  intros Hf m a m' H HP. injection H as <- <-. destruct m as [w o]. apply Hf, HP.
Qed.

(** The message pump keeps what every notification of its queue keeps. *)
Lemma preserves_dispatch_messages (ok : MSG -> Prop) (hwnd : Z) (queue : list MSG) :
  (forall msg, ok msg ->
               preserves P (WSI_WndProc hwnd (message msg) (wParam msg) (lParam msg))) ->
  Forall ok queue -> preserves P (dispatch_messages hwnd queue).
Proof.
  intros Hproc Hq. induction Hq as [|msg rest Hmsg _ IH]; cbn [dispatch_messages].
  - apply preserves_ret.
  - destruct (message msg =? WM_QUIT).
    + apply preserves_ret.
    + apply preserves_bind; [apply Hproc, Hmsg | intros _; exact IH].
Qed.
End Preserves.

Ltac unfold_handlers :=
  unfold WSI_WndProc, WSI_WndProc_WM_MOVE, WSI_WndProc_WM_SIZE, WSI_WndProc_WM_PAINT,
    WSI_WndProc_WM_ACTIVATE, WSI_WndProc_WM_SHOWWINDOW, WSI_WndProc_WM_DPICHANGED,
    WSI_WndProc_WM_SYSCOMMAND, WSI_WndProc_WM_CREATE, WSI_WndProc_WM_CLOSE,
    ShowWindow, SetWindowLong, SetWindowPos, VirtualFree, DefWindowProc, GetWindowRect,
    GetClientRect, GetWindowLong, AdjustWindowRectEx, call_GetDpiForMonitor,
    QueryMonitorGeometry, PresentBackBuffer, or_EventFlags, or_StatusFlags, and_StatusFlags,
    when.

(** One step through a handler: a bind, a primitive, or a branch. *)
Ltac step_preserves :=
  first
    [ apply preserves_ret
    | apply preserves_get_window
    | apply preserves_get_host
    | apply preserves_lift
    | apply preserves_os_do; assumption
    | apply preserves_bind; [|intros ?]
    | match goal with
      | |- preserves ?P (if false then _ else ?c) => change (preserves P c)
      | |- preserves _ (if ?b then _ else _) => destruct b
      | |- preserves _ (match ?x with (_, _) => _ end) => destruct x
      end ].

Lemma ResizeBackBuffer_keeps_backbuffer (x y : Z) :
  preserves holds_backbuffer (ResizeBackBuffer x y).
Proof.
  intros m r m' H HP. unfold holds_backbuffer in *.
  destruct (ResizeBackBuffer_outcome x y m) as (r0 & m0 & Hr & _ & Hfail & Hok).
  rewrite Hr in H. injection H as <- <-.
  destruct (Z.eq_dec r0 (-1)) as [E|E].
  - destruct (Hfail E) as ((Hm & _) & _). congruence.
  - destruct (Hok E) as (_ & Hm & _). exact Hm.
Qed.

(** No notification leaves the window without a backbuffer once it has one:
    the address changes only where a resize installs a new buffer. *)
Lemma WSI_WndProc_keeps_backbuffer (hwnd msg wparam lparam : Z) :
  preserves holds_backbuffer (WSI_WndProc hwnd msg wparam lparam).
Proof.
  assert (Hh : forall w o o',
             holds_backbuffer (mkMachine w o) -> holds_backbuffer (mkMachine w o'))
    by (intros w o o' H; exact H).
  unfold_handlers.
  repeat first
    [ apply ResizeBackBuffer_keeps_backbuffer
    | apply preserves_store; [intros ? ? HP; exact HP]
    | step_preserves ].
Qed.

Lemma marked_destroyed_or (flags : Z) (w : WSI_WINDOW_STATE) (o : Win32) :
  marked_destroyed (mkMachine w o) ->
  marked_destroyed (mkMachine (set_EventFlags (Z.lor (EventFlags w) flags) w) o).
Proof. apply has_flag_lor_keep. Qed.

Lemma ResizeBackBuffer_keeps_destroyed (x y : Z) :
  preserves marked_destroyed (ResizeBackBuffer x y).
Proof.
  intros m r m' H HP. unfold marked_destroyed in *.
  destruct (ResizeBackBuffer_total x y m) as (r0 & m0 & Hr & Hf).
  rewrite Hr in H. injection H as <- <-.
  destruct Hf as (_ & _ & Hev & _). rewrite Hev. exact HP.
Qed.

(** The Destroyed event, once set, stays set under every notification but
    the create notification, which assigns the event flags anew. *)
Lemma WSI_WndProc_keeps_destroyed (hwnd msg wparam lparam : Z) :
  (msg =? WM_CREATE) = false ->
  preserves marked_destroyed (WSI_WndProc hwnd msg wparam lparam).
Proof.
  intros Hmsg.
  assert (Hh : forall w o o',
             marked_destroyed (mkMachine w o) -> marked_destroyed (mkMachine w o'))
    by (intros w o o' H; exact H).
  unfold_handlers. rewrite Hmsg.
  repeat first
    [ apply ResizeBackBuffer_keeps_destroyed
    | apply preserves_store; [intros ? ? HP; first [exact HP | apply marked_destroyed_or, HP]]
    | apply preserves_store; [intros ? ? _; reflexivity]
    | step_preserves ].
Qed.

Lemma ResizeBackBuffer_keeps_snapshot (rc : RECT) (style style_ex x y : Z) :
  preserves (fullscreen_snapshot rc style style_ex) (ResizeBackBuffer x y).
Proof.
  intros m r m' H HP. unfold fullscreen_snapshot in *.
  destruct (ResizeBackBuffer_total x y m) as (r0 & m0 & Hr & Hf).
  rewrite Hr in H. injection H as <- <-.
  destruct Hf as (_ & Hst & _ & _ & _ & _ & _ & _ & _ & _ & _ & Hrr & Hrs & Hre & _).
  rewrite Hst, Hrr, Hrs, Hre. exact HP.
Qed.

Ltac flag_kept :=
  repeat first
    [ assumption
    | apply has_flag_lor_r; discriminate
    | apply has_flag_lor_keep
    | apply has_flag_land_keep;
      [unfold WSI_WINDOW_STATUS_FLAG_FULLSCREEN; lia | reflexivity |] ].

(** The Fullscreen flag and the restore fields are left alone by every
    notification but create, close and the system command: the size
    notification writes the status flags back with the Fullscreen flag it
    found. *)
Lemma WSI_WndProc_keeps_snapshot (rc : RECT) (style style_ex hwnd msg wparam lparam : Z) :
  (msg =? WM_CREATE) = false -> (msg =? WM_CLOSE) = false -> (msg =? WM_SYSCOMMAND) = false ->
  preserves (fullscreen_snapshot rc style style_ex) (WSI_WndProc hwnd msg wparam lparam).
Proof.
  intros H1 H2 H3.
  assert (Hh : forall w o o',
             fullscreen_snapshot rc style style_ex (mkMachine w o) ->
             fullscreen_snapshot rc style style_ex (mkMachine w o'))
    by (intros w o o' H; exact H).
  unfold_handlers. rewrite H1, H2, H3.
  repeat first
    [ apply ResizeBackBuffer_keeps_snapshot
    | apply preserves_get_window_bind; intros ? ? ?
    | match goal with
      | |- preserves _ (match (if ?b then _ else _) with (_, _) => _ end) => destruct b
      end
    | apply preserves_store;
      [ intros ? ? HP;
        first
          [ exact HP
          | unfold fullscreen_snapshot in *;
            cbn [window StatusFlags RestoreRect RestoreStyle RestoreStyleEx set_StatusFlags]
              in *;
            repeat match goal with H : _ /\ _ |- _ => destruct H end;
            repeat split; try assumption;
            try match goal with
                | Hf : has_flag (StatusFlags ?w0) _ = true
                  |- context [if has_flag (StatusFlags ?w0) _ then _ else _] => rewrite Hf
                end;
            flag_kept ] ]
    | step_preserves ].
Qed.

(** ** The close notification *)

(** C4, as the code has it.  The close notification hides the window, sets
    the status flags to none and the event flags to Destroyed alone, whatever
    they held.  The check of the loop that follows leaves the loop, also
    after further notifications of the same pass as long as none of them is
    the create notification, and what follows the loop destroys the window.
    Nothing there releases the backbuffer: with no further message
    dispatched the program ends with the buffer it held at the notification
    and without a call that frees it, and whatever is dispatched last, a
    window that held a buffer still holds one. *)
Theorem WM_CLOSE_marks_destroyed (m : Machine) (hwnd wparam lparam : Z) (destroyed : bool) :
  exists m1 m2,
    WSI_WndProc_WM_CLOSE wparam lparam m = Some (0, m1) /\
    m1 = mkMachine (set_EventFlags WSI_WINDOW_EVENT_FLAG_DESTROYED
                      (set_StatusFlags WSI_WINDOW_STATUS_FLAGS_NONE (window m)))
                   (os_log (Call_ShowWindow SW_HIDE) (host m)) /\
    StatusFlags (window m1) = WSI_WINDOW_STATUS_FLAGS_NONE /\
    EventFlags (window m1) = WSI_WINDOW_EVENT_FLAG_DESTROYED /\
    wWinMain_present m1 = Some (Tick_break, m1) /\
    (forall rest m', no_create rest -> dispatch_messages hwnd rest m1 = Some (tt, m') ->
                     wWinMain_present m' = Some (Tick_break, m')) /\
    wWinMain_destroy hwnd destroyed [] m1 = Some (0, m2) /\
    window m2 = window m1 /\
    Calls (host m2) = Call_DestroyWindow :: Call_ShowWindow SW_HIDE :: Calls (host m) /\
    same_buffer (window m) (window m2) /\
    (forall final m', wWinMain_destroy hwnd destroyed final m1 = Some (0, m') ->
                      BackBufferMemory (window m) <> 0 -> BackBufferMemory (window m') <> 0).
Proof.
  eexists _, _. split. reflexivity. split. reflexivity.
  split. reflexivity. split. reflexivity.
  split. rewrite wWinMain_present_eq. reflexivity.
  split.
  { intros rest m' Hrest Hrun.
    assert (Hd : marked_destroyed m').
    { eapply (preserves_dispatch_messages marked_destroyed
                (fun msg => (message msg =? WM_CREATE) = false)).
      - intros msg Hmsg. apply WSI_WndProc_keeps_destroyed, Hmsg.
      - exact Hrest.
      - exact Hrun.
      - reflexivity. }
    rewrite wWinMain_present_eq. cbv zeta. unfold marked_destroyed in Hd.
    rewrite Hd. reflexivity. }
  split. unfold wWinMain_destroy. run. destruct destroyed; reflexivity.
  split. reflexivity. split. reflexivity.
  split. unfold same_buffer. cbn. repeat split.
  intros final m' Hrun Hmem.
  unfold wWinMain_destroy, bind, os_do, when in Hrun. cbn [window host] in Hrun.
  destruct destroyed.
  - destruct (dispatch_messages hwnd final _) as [[[] m3]|] eqn:E; [|discriminate].
    injection Hrun as <-.
    eapply (preserves_dispatch_messages holds_backbuffer (fun _ => True)).
    + intros msg _. apply WSI_WndProc_keeps_backbuffer.
    + apply Forall_forall. auto.
    + exact E.
    + exact Hmem.
  - injection Hrun as <-. exact Hmem.
Qed.

Lemma WM_CLOSE_marks_destroyed_witness :
  exists m1 m',
    WSI_WndProc_WM_CLOSE 0 0 (mkMachine shown_window (desktop [])) = Some (0, m1) /\
    dispatch_messages 7 [mkMSG WM_PAINT 0 0] m1 = Some (tt, m') /\
    wWinMain_present m' = Some (Tick_break, m').
Proof.
  destruct (WM_CLOSE_marks_destroyed (mkMachine shown_window (desktop [])) 7 0 0 true)
    as (m1 & m2 & H1 & Hm1 & _ & _ & _ & Hrest & _).
  assert (Hrun : exists m', dispatch_messages 7 [mkMSG WM_PAINT 0 0] m1 = Some (tt, m')).
  { rewrite Hm1. eexists. vm_compute. reflexivity. }
  destruct Hrun as (m' & Hrun).
  exists m1, m'. split. exact H1. split.
  - exact Hrun.
  - apply (Hrest [mkMSG WM_PAINT 0 0]).
    + repeat constructor.
    + exact Hrun.
Defined.

(** C4, as the claim has it, fails in its last part: a shown window with its
    backbuffer at 65536 receives the close notification, the loop is left,
    the window is destroyed and [wWinMain] returns 0, and the buffer has not
    been released. *)
Lemma WM_CLOSE_keeps_backbuffer_allocated :
  exists m2,
    wWinMain_run 7 [[mkMSG WM_CLOSE 0 0]] true []
                 (mkMachine shown_window (desktop [])) = Some (Some 0, m2) /\
    BackBufferMemory (window m2) = 65536 /\
    Calls (host m2) = [Call_DestroyWindow; Call_ShowWindow SW_HIDE] /\
    ~ In (Call_VirtualFree 65536) (Calls (host m2)).
Proof.
  eexists. split. vm_compute. reflexivity.
  split. reflexivity. split. reflexivity.
  cbn. intros [H|[H|[]]]; discriminate.
Qed.

(** ** The fullscreen toggle *)

Lemma s32_u32 (z : Z) : -2147483648 <= z < 2147483648 -> s32 (u32 z) = z.
Proof.
  intros H. unfold s32, u32.
  rewrite Zplus_mod_idemp_l. rewrite Z.mod_small; lia.
Qed.

(** Alt+Enter on a windowed window. *)
Lemma toggle_to_fullscreen (m : Machine) (wparam : Z) :
  Z.land wparam 65520 = SC_KEYMENU ->
  has_flag (StatusFlags (window m)) WSI_WINDOW_STATUS_FLAG_FULLSCREEN = false ->
  exists m1,
    WSI_WndProc_WM_SYSCOMMAND wparam VK_RETURN m = Some (0, m1) /\
    fullscreen_snapshot (WindowRect (host m)) (u32 (WindowStyle (host m)))
                        (u32 (WindowStyleEx (host m))) m1 /\
    WindowStyle (host m1) = s32 WS_POPUP.
Proof.
  intros Hw Hwin.
  eexists. split.
  { unfold WSI_WndProc_WM_SYSCOMMAND, call_GetDpiForMonitor, QueryMonitorGeometry,
      GetWindowRect, GetWindowLong, SetWindowLong, SetWindowPos, ShowWindow.
    rewrite Hw. run. rewrite Hwin. reflexivity. }
  unfold fullscreen_snapshot. cbn.
  split; [|reflexivity].
  split; [|repeat split].
  apply has_flag_lor_r. discriminate.
Qed.

(** Alt+Enter on a fullscreen window: what it asks for, from the restore
    fields alone. *)
Lemma toggle_to_windowed (m1 : Machine) (wparam : Z) :
  let rc := RestoreRect (window m1) in
  Z.land wparam 65520 = SC_KEYMENU ->
  has_flag (StatusFlags (window m1)) WSI_WINDOW_STATUS_FLAG_FULLSCREEN = true ->
  exists m2,
    WSI_WndProc_WM_SYSCOMMAND wparam VK_RETURN m1 = Some (0, m2) /\
    Calls (host m2) =
      Call_ShowWindow SW_NORMAL
      :: Call_SetWindowPos (left rc) (top rc) (s32 (right rc - left rc))
                           (s32 (bottom rc - top rc))
                           (Z.lor (Z.lor (Z.lor SWP_FRAMECHANGED SWP_NOACTIVATE) SWP_NOZORDER)
                                  SWP_NOOWNERZORDER)
      :: Call_SetWindowLong GWL_EXSTYLE (s32 (RestoreStyleEx (window m1)))
      :: Call_SetWindowLong GWL_STYLE (s32 (RestoreStyle (window m1)))
      :: Calls (host m1) /\
    WindowRect (host m2) =
      mkRECT (left rc) (top rc) (s32 (left rc + s32 (right rc - left rc)))
             (s32 (top rc + s32 (bottom rc - top rc))) /\
    WindowStyle (host m2) = s32 (RestoreStyle (window m1)) /\
    WindowStyleEx (host m2) = s32 (RestoreStyleEx (window m1)) /\
    has_flag (StatusFlags (window m2)) WSI_WINDOW_STATUS_FLAG_FULLSCREEN = false.
Proof.
  intros rc Hw Hfull.
  eexists. split.
  { unfold WSI_WndProc_WM_SYSCOMMAND, call_GetDpiForMonitor, QueryMonitorGeometry,
      GetWindowRect, GetWindowLong, SetWindowLong, SetWindowPos, ShowWindow.
    rewrite Hw. run. rewrite Hfull. reflexivity. }
  cbn. repeat (split; [reflexivity|]).
  apply has_flag_cleared. unfold WSI_WINDOW_STATUS_FLAG_FULLSCREEN. lia.
Qed.

(** C7.  Alt+Enter on a windowed window stores the rectangle, style and
    extended style of the window in the restore fields and sets the
    Fullscreen flag.  Alt+Enter again, at once or after any notifications
    other than create, close and system commands, asks for exactly that
    style, extended style, corner and extent, so that the window has the
    rectangle and the styles it had before the first toggle, and clears the
    Fullscreen flag. *)
Theorem fullscreen_round_trip (m : Machine) (hwnd wparam wparam' : Z) (between : list MSG) :
  let rc := WindowRect (host m) in
  let style := WindowStyle (host m) in
  let style_ex := WindowStyleEx (host m) in
  Z.land wparam 65520 = SC_KEYMENU -> Z.land wparam' 65520 = SC_KEYMENU ->
  has_flag (StatusFlags (window m)) WSI_WINDOW_STATUS_FLAG_FULLSCREEN = false ->
  -2147483648 <= right rc < 2147483648 -> -2147483648 <= bottom rc < 2147483648 ->
  -2147483648 <= style < 2147483648 -> -2147483648 <= style_ex < 2147483648 ->
  exists m1,
    WSI_WndProc_WM_SYSCOMMAND wparam VK_RETURN m = Some (0, m1) /\
    RestoreRect (window m1) = rc /\
    RestoreStyle (window m1) = u32 style /\
    RestoreStyleEx (window m1) = u32 style_ex /\
    has_flag (StatusFlags (window m1)) WSI_WINDOW_STATUS_FLAG_FULLSCREEN = true /\
    WindowStyle (host m1) = s32 WS_POPUP /\
    forall m1',
      quiet between -> dispatch_messages hwnd between m1 = Some (tt, m1') ->
      exists m2,
        WSI_WndProc_WM_SYSCOMMAND wparam' VK_RETURN m1' = Some (0, m2) /\
        Calls (host m2) =
          Call_ShowWindow SW_NORMAL
          :: Call_SetWindowPos (left rc) (top rc) (s32 (right rc - left rc))
                               (s32 (bottom rc - top rc))
                               (Z.lor (Z.lor (Z.lor SWP_FRAMECHANGED SWP_NOACTIVATE)
                                             SWP_NOZORDER)
                                      SWP_NOOWNERZORDER)
          :: Call_SetWindowLong GWL_EXSTYLE style_ex
          :: Call_SetWindowLong GWL_STYLE style
          :: Calls (host m1') /\
        WindowRect (host m2) = rc /\
        WindowStyle (host m2) = style /\
        WindowStyleEx (host m2) = style_ex /\
        has_flag (StatusFlags (window m2)) WSI_WINDOW_STATUS_FLAG_FULLSCREEN = false.
Proof.
  intros rc style style_ex Hw Hw' Hwin Hr Hb Hs Hse.
  destruct (toggle_to_fullscreen m wparam Hw Hwin) as (m1 & H1 & Hsnap & Hpop).
  exists m1. split. exact H1.
  pose proof Hsnap as (Hfull & Hrr & Hrs & Hre).
  repeat (split; [assumption|]).
  intros m1' Hquiet Hrun.
  assert (Hsnap' : fullscreen_snapshot rc (u32 style) (u32 style_ex) m1').
  { eapply (preserves_dispatch_messages
              (fullscreen_snapshot rc (u32 style) (u32 style_ex))
              (fun msg => (message msg =? WM_CREATE) = false /\
                          (message msg =? WM_CLOSE) = false /\
                          (message msg =? WM_SYSCOMMAND) = false)).
    - intros msg (Hm1 & Hm2 & Hm3). apply WSI_WndProc_keeps_snapshot; assumption.
    - exact Hquiet.
    - exact Hrun.
    - exact Hsnap. }
  destruct Hsnap' as (Hfull' & Hrr' & Hrs' & Hre').
  destruct (toggle_to_windowed m1' wparam' Hw' Hfull')
    as (m2 & H2 & Hcalls & Hrect & Hst & Hste & Hoff).
  exists m2. split. exact H2.
  rewrite Hrr', Hrs', Hre' in *. rewrite !s32_u32 in * by assumption.
  split. exact Hcalls.
  split. { rewrite Hrect, !s32_span by assumption. destruct rc; reflexivity. }
  split. exact Hst. split. exact Hste. exact Hoff.
Qed.

Lemma fullscreen_round_trip_witness :
  exists m1 m1' m2,
    WSI_WndProc_WM_SYSCOMMAND SC_KEYMENU VK_RETURN
                              (mkMachine shown_window (desktop [131072])) = Some (0, m1) /\
    WindowRect (host m1) = mkRECT 0 0 1920 1080 /\
    dispatch_messages 7 [mkMSG WM_SIZE 2 (MAKELONG 1920 1080)] m1 = Some (tt, m1') /\
    WSI_WndProc_WM_SYSCOMMAND SC_KEYMENU VK_RETURN m1' = Some (0, m2) /\
    WindowRect (host m2) = mkRECT 560 220 1376 859 /\
    WindowStyle (host m2) = overlapped_style.
Proof.
  destruct (fullscreen_round_trip (mkMachine shown_window (desktop [131072])) 7
                                  SC_KEYMENU SC_KEYMENU
                                  [mkMSG WM_SIZE 2 (MAKELONG 1920 1080)])
    as (m1 & H1 & _ & _ & _ & _ & _ & Hback).
  - reflexivity.
  - reflexivity.
  - reflexivity.
  - cbn. lia.
  - cbn. lia.
  - cbn. lia.
  - cbn. lia.
  - assert (Hm1 : exists m1', dispatch_messages 7 [mkMSG WM_SIZE 2 (MAKELONG 1920 1080)] m1
                              = Some (tt, m1')).
    { vm_compute in H1. injection H1 as <-. eexists. vm_compute. reflexivity. }
    destruct Hm1 as (m1' & Hrun).
    destruct (Hback m1') as (m2 & H2 & _ & Hrc & Hst & _).
    + repeat constructor.
    + exact Hrun.
    + exists m1, m1', m2. split. exact H1.
      split. vm_compute in H1. injection H1 as <-. reflexivity.
      split. exact Hrun. split. exact H2. split. exact Hrc. exact Hst.
Defined.

(** ** The create and DPI-changed notifications *)

Lemma resize_bytes_exact (x y : Z) :
  0 <= x < 44739243 -> 0 <= y < 44739243 -> resize_bytes x y = x * y * 4.
Proof.
  intros Hx Hy. unfold resize_bytes, usize.
  rewrite (Z.mod_small (x * y)) by nia.
  apply Z.mod_small. nia.
Qed.

(** C6.  On a window that holds no backbuffer yet, the create notification
    resolves the DPI of the monitor: the DPI Shcore's [GetDpiForMonitor]
    reports for it or, through the stub, the pixels per inch of the screen
    device context.  It converts the requested client size to physical
    pixels, client size times DPI over 96 with the product taken in 32 bits,
    sizes the outer window to the decorated client rectangle, sets the status
    flags to Created and the event flags to Created, SizeChanged and
    PositionChanged, stores the DPI and the logical size of the outer
    window, and asks for a backbuffer of width x height x 4 bytes, installed
    with a stride of 4 x width when the allocation succeeds.  For 800 x 600
    at 96 DPI these are 800, 600, 800*600*4 bytes and 3200. *)
Theorem WM_CREATE_allocates (m : Machine) (wparam lparam dpi_x dpi_y : Z) :
  let w := window m in
  let o := host m in
  let style := u32 (WindowStyle o) in
  let ex_style := u32 (WindowStyleEx o) in
  let phys_x_px := u32 (ClientSizeX w * dpi_x) / 96 in
  let phys_y_px := u32 (ClientSizeY w * dpi_y) / 96 in
  let rc := AdjustRect o (mkRECT 0 0 (s32 phys_x_px) (s32 phys_y_px)) style ex_style in
  let p := hd 0 (AllocPlan o) in
  (GetDpiForMonitor (Win32Api w) = Shcore_GetDpiForMonitor /\
   MonitorDpi o = Some (dpi_x, dpi_y)) \/
  (GetDpiForMonitor (Win32Api w) = Stub_GetDpiForMonitor /\
   dpi_x = u32 (fst (ScreenLogPixels o)) /\ dpi_y = u32 (snd (ScreenLogPixels o))) ->
  BackBufferMemory w = 0 -> dpi_x <> 0 -> dpi_y <> 0 ->
  exists m2,
    WSI_WndProc_WM_CREATE wparam lparam m = Some (0, m2) /\
    StatusFlags (window m2) = WSI_WINDOW_STATUS_FLAG_CREATED /\
    EventFlags (window m2) =
      Z.lor (Z.lor WSI_WINDOW_EVENT_FLAG_CREATED WSI_WINDOW_EVENT_FLAG_SIZE_CHANGED)
            WSI_WINDOW_EVENT_FLAG_POSITION_CHANGED /\
    OutputDpiX (window m2) = dpi_x /\ OutputDpiY (window m2) = dpi_y /\
    WindowSizeX (window m2) = u32 (u32 (right rc - left rc) * 96) / dpi_x /\
    WindowSizeY (window m2) = u32 (u32 (bottom rc - top rc) * 96) / dpi_y /\
    ClientSizeX (window m2) = ClientSizeX w /\ ClientSizeY (window m2) = ClientSizeY w /\
    Calls (host m2) =
      Call_VirtualAlloc (phys_x_px * phys_y_px * 4) p
      :: Call_SetWindowPos 0 0 (s32 (right rc - left rc)) (s32 (bottom rc - top rc))
                           (Z.lor (Z.lor SWP_NOACTIVATE SWP_NOMOVE) SWP_NOZORDER)
      :: Calls o /\
    (p <> 0 ->
       BackBufferMemory (window m2) = p /\ BackBufferWidth (window m2) = phys_x_px /\
       BackBufferHeight (window m2) = phys_y_px /\
       BackBufferStride (window m2) = phys_x_px * 4) /\
    (p = 0 -> BackBufferMemory (window m2) = 0) /\
    (ClientSizeX w = 800 -> ClientSizeY w = 600 ->
     dpi_x = 96 -> dpi_y = 96 ->
     phys_x_px = 800 /\ phys_y_px = 600 /\
     phys_x_px * phys_y_px * 4 = 800 * 600 * 4 /\ phys_x_px * 4 = 3200).
Proof.
  intros w o style ex_style phys_x_px phys_y_px rc p Hdpi Hmem Hx Hy.
  assert (Hq : monitor_dpi m = (dpi_x, dpi_y)).
  { unfold monitor_dpi, query_dpi, GetDpiForMonitor_Stub. fold w. fold o.
    destruct Hdpi as [[Hs Hd]|[Hs [Hdx Hdy]]]; rewrite Hs.
    - rewrite Hd. reflexivity.
    - cbn. rewrite Hdx, Hdy. reflexivity. }
  pose proof (LogicalToPhysicalPixels_range (ClientSizeX w) dpi_x) as Rx.
  pose proof (LogicalToPhysicalPixels_range (ClientSizeY w) dpi_y) as Ry.
  change (LogicalToPhysicalPixels (ClientSizeX w) dpi_x) with phys_x_px in Rx.
  change (LogicalToPhysicalPixels (ClientSizeY w) dpi_y) with phys_y_px in Ry.
  set (m1 := mkMachine
    (set_WindowSize (u32 (u32 (right rc - left rc) * 96) / dpi_x)
                    (u32 (u32 (bottom rc - top rc) * 96) / dpi_y)
       (set_OutputDpi dpi_x dpi_y
          (set_EventFlags
             (Z.lor (Z.lor WSI_WINDOW_EVENT_FLAG_CREATED WSI_WINDOW_EVENT_FLAG_SIZE_CHANGED)
                    WSI_WINDOW_EVENT_FLAG_POSITION_CHANGED)
             (set_StatusFlags WSI_WINDOW_STATUS_FLAG_CREATED w))))
    (os_log (Call_SetWindowPos 0 0 (s32 (right rc - left rc)) (s32 (bottom rc - top rc))
                               (Z.lor (Z.lor SWP_NOACTIVATE SWP_NOMOVE) SWP_NOZORDER))
            (os_set_WindowRect
               (mkRECT (left (WindowRect o)) (top (WindowRect o))
                       (s32 (left (WindowRect o) + s32 (right rc - left rc)))
                       (s32 (top (WindowRect o) + s32 (bottom rc - top rc))))
               o))).
  assert (Hrun : WSI_WndProc_WM_CREATE wparam lparam m =
                 match ResizeBackBuffer phys_x_px phys_y_px m1 with
                 | Some (_, m2) => Some (0, m2)
                 | None => None
                 end).
  { unfold WSI_WndProc_WM_CREATE, call_GetDpiForMonitor, GetWindowLong, AdjustWindowRectEx,
      SetWindowPos. run.
    fold (monitor_dpi m). rewrite Hq. cbn [fst snd].
    fold w. fold o. fold style. fold ex_style.
    change (LogicalToPhysicalPixels (ClientSizeX w) dpi_x) with phys_x_px.
    change (LogicalToPhysicalPixels (ClientSizeY w) dpi_y) with phys_y_px.
    fold rc.
    rewrite (PhysicalToLogicalPixels_Some _ dpi_x) by exact Hx.
    rewrite (PhysicalToLogicalPixels_Some _ dpi_y) by exact Hy.
    reflexivity. }
  assert (Hn : resize_is_noop (window m1) phys_x_px phys_y_px = false).
  { unfold resize_is_noop. cbn. fold w. rewrite Hmem. cbn. apply andb_false_r. }
  rewrite Hrun.
  destruct (Z.eq_dec p 0) as [Hp|Hp].
  - rewrite ResizeBackBuffer_fail by assumption.
    eexists. split. reflexivity. cbn.
    rewrite resize_bytes_exact by assumption. fold o. fold p. rewrite Hp.
    repeat (split; [reflexivity|]).
    split. intros H. congruence. split. intros _. exact Hmem.
    intros Hcx Hcy Hdx Hdy. subst phys_x_px phys_y_px.
    rewrite Hcx, Hcy, Hdx, Hdy. repeat split.
  - rewrite ResizeBackBuffer_ok by assumption.
    eexists. split. reflexivity. cbn. fold w.
    rewrite Hmem. cbn.
    rewrite resize_bytes_exact by assumption. fold o. fold p.
    repeat (split; [reflexivity|]).
    split. intros _. rewrite u32_small by lia. repeat split.
    split. intros H. congruence.
    intros Hcx Hcy Hdx Hdy. subst phys_x_px phys_y_px.
    rewrite Hcx, Hcy, Hdx, Hdy. repeat split.
Qed.

Lemma WM_CREATE_allocates_witness :
  (exists m2,
     WSI_WndProc_WM_CREATE 0 0 (mkMachine fresh_window (desktop_192 [65536])) = Some (0, m2) /\
     OutputDpiX (window m2) = 192 /\ OutputDpiY (window m2) = 192 /\
     Calls (host m2) = [Call_VirtualAlloc 7680000 65536; Call_SetWindowPos 0 0 1616 1239 22] /\
     rtcGetFrameBuffer (window m2) = Some (mkRTC_FRAMEBUFFER 65536 1600 1200 6400)) /\
  (exists m2,
     WSI_WndProc_WM_CREATE 0 0 (mkMachine fresh_window (desktop_created [65536])) =
       Some (0, m2) /\
     Calls (host m2) = [Call_VirtualAlloc 1920000 65536; Call_SetWindowPos 0 0 816 639 22] /\
     rtcGetFrameBuffer (window m2) = Some (mkRTC_FRAMEBUFFER 65536 800 600 3200)).
Proof.
  split.
  - destruct (WM_CREATE_allocates (mkMachine fresh_window (desktop_192 [65536])) 0 0 192 192)
      as (m2 & Hm2 & _ & _ & Hdx & Hdy & _ & _ & _ & _ & Hcalls & Hok & _).
    + left. split; reflexivity.
    + reflexivity.
    + discriminate.
    + discriminate.
    + exists m2. split. exact Hm2. split. exact Hdx. split. exact Hdy.
      split. exact Hcalls.
      destruct Hok as (Hp & Hw & Hh & Hs). vm_compute. lia.
      unfold rtcGetFrameBuffer. rewrite Hp, Hw, Hh, Hs. reflexivity.
  - destruct (WM_CREATE_allocates (mkMachine fresh_window (desktop_created [65536])) 0 0 96 96)
      as (m2 & Hm2 & _ & _ & _ & _ & _ & _ & _ & _ & Hcalls & Hok & _).
    + left. split; reflexivity.
    + reflexivity.
    + discriminate.
    + discriminate.
    + exists m2. split. exact Hm2. split. exact Hcalls.
      destruct Hok as (Hp & Hw & Hh & Hs). vm_compute. lia.
      unfold rtcGetFrameBuffer. rewrite Hp, Hw, Hh, Hs. reflexivity.
Defined.




(* ------------------------------------------------------------------ *)
(** * Further properties of the window procedure and its loop *)

(** ** The conversions at and below the reference DPI *)

(** X1.  At 96 DPI both conversions return the dimension itself, as long as
    96 times the dimension fits in 32 bits. *)
Theorem conversions_identity_at_96 (d : Z) :
  0 <= d -> d * 96 < 4294967296 ->
  LogicalToPhysicalPixels d 96 = d /\ PhysicalToLogicalPixels d 96 = Some d.
Proof.
  intros Hd Hw. split.
  - unfold LogicalToPhysicalPixels, USER_DEFAULT_SCREEN_DPI.
    rewrite u32_small by lia. apply Z.div_mul. discriminate.
  - rewrite PhysicalToLogicalPixels_Some by discriminate.
    rewrite u32_small by lia. f_equal. apply Z.div_mul. discriminate.
Qed.

Lemma conversions_identity_at_96_witness :
  LogicalToPhysicalPixels 800 96 = 800 /\ PhysicalToLogicalPixels 800 96 = Some 800.
Proof. apply (conversions_identity_at_96 800); lia. Defined.

Lemma div_strictly_monotone (a b c p : Z) :
  0 < p -> p <= c -> 0 <= a -> a < b -> a * c / p < b * c / p.
Proof.
  intros Hp Hc Ha Hab.
  apply Z.lt_le_trans with ((a * c + p) / p).
  - replace (a * c + p) with (a * c + 1 * p) by lia.
    rewrite Z.div_add by lia. lia.
  - apply Z.div_le_mono; nia.
Qed.

(** X2.  Up to 96 DPI a larger physical size converts to a strictly larger
    logical size, and from 96 DPI on a larger logical size converts to a
    strictly larger physical size (products below 2^32): in those ranges no
    change of size is lost in the conversion. *)
Theorem conversions_strictly_monotone (d1 d2 p : Z) :
  0 <= d1 -> d1 < d2 -> 0 < p ->
  (p <= 96 -> d2 * 96 < 4294967296 ->
   exists r1 r2, PhysicalToLogicalPixels d1 p = Some r1 /\
                 PhysicalToLogicalPixels d2 p = Some r2 /\ r1 < r2) /\
  (96 <= p -> d2 * p < 4294967296 ->
   LogicalToPhysicalPixels d1 p < LogicalToPhysicalPixels d2 p).
Proof.
  intros H1 H12 Hp. split.
  - intros Hle Hw.
    rewrite !PhysicalToLogicalPixels_Some by lia.
    eexists _, _. split. reflexivity. split. reflexivity.
    rewrite !u32_small by lia.
    apply div_strictly_monotone; lia.
  - intros Hle Hw.
    unfold LogicalToPhysicalPixels, USER_DEFAULT_SCREEN_DPI.
    rewrite !u32_small by nia.
    apply div_strictly_monotone; lia.
Qed.

Lemma conversions_strictly_monotone_witness :
  (exists r1 r2, PhysicalToLogicalPixels 1600 72 = Some r1 /\
                 PhysicalToLogicalPixels 1601 72 = Some r2 /\ r1 < r2) /\
  LogicalToPhysicalPixels 800 192 < LogicalToPhysicalPixels 801 192.
Proof.
  split.
  - apply (proj1 (conversions_strictly_monotone 1600 1601 72 ltac:(lia) ltac:(lia) ltac:(lia)));
      lia.
  - apply (proj2 (conversions_strictly_monotone 800 801 192 ltac:(lia) ltac:(lia) ltac:(lia)));
      lia.
Defined.

(** ** The calls of a resize *)

(** X3.  A resize issues no call when it returns early, one [VirtualAlloc]
    when the allocation fails, and on success one [VirtualAlloc] followed by
    one [VirtualFree] of the address held before, or by none when no buffer
    was held; it returns -1 exactly in the second case. *)
Theorem ResizeBackBuffer_calls (x y : Z) (m : Machine) :
  let prev := BackBufferMemory (window m) in
  let p := hd 0 (AllocPlan (host m)) in
  let alloc := Call_VirtualAlloc (resize_bytes x y) p in
  exists r m',
    ResizeBackBuffer x y m = Some (r, m') /\
    Calls (host m') =
      (if resize_is_noop (window m) x y then []
       else if p =? 0 then [alloc]
       else if prev =? 0 then [alloc]
       else [Call_VirtualFree prev; alloc]) ++ Calls (host m) /\
    (r = -1 <-> resize_is_noop (window m) x y = false /\ p = 0) /\
    (r <> -1 -> r = 0).
Proof.
  intros prev p alloc.
  destruct (resize_is_noop (window m) x y) eqn:Hn.
  - exists 0, m. split. apply ResizeBackBuffer_noop, Hn.
    split. reflexivity. split; [|auto]. split; [discriminate|intros [? _]; discriminate].
  - destruct (Z.eq_dec p 0) as [Hp|Hp].
    + eexists _, _. split. apply ResizeBackBuffer_fail; assumption.
      subst alloc. cbn. fold p. rewrite Hp. cbn.
      split. reflexivity. split; [tauto|congruence].
    + eexists _, _. split. apply ResizeBackBuffer_ok; assumption.
      subst alloc. fold p. fold prev.
      pose proof Hp as Hp'. apply Z.eqb_neq in Hp'. rewrite Hp'.
      split. destruct (prev =? 0); reflexivity.
      split; [|auto]. split; [discriminate|]. intros [_ E]. contradiction.
Qed.

(** X4.  After a resize whose allocation failed the next present hands
    [StretchDIBits] the memory and the extent of the buffer kept, together
    with a bitmap header that describes the size that was asked for. *)
Theorem present_after_failed_resize (x y : Z) (m : Machine) :
  let w := window m in
  BackBufferMemory w <> 0 ->
  x <> BackBufferWidth w \/ y <> BackBufferHeight w ->
  hd 0 (AllocPlan (host m)) = 0 ->
  exists m1 m2,
    ResizeBackBuffer x y m = Some (-1, m1) /\
    PresentBackBuffer m1 = Some (tt, m2) /\
    hd (Call_Sleep 0) (Calls (host m2)) =
      Call_StretchDIBits 0 0
        (s32 (LogicalToPhysicalPixels (ClientSizeX w) (OutputDpiX w)))
        (s32 (LogicalToPhysicalPixels (ClientSizeY w) (OutputDpiY w)))
        0 0 (s32 (BackBufferWidth w)) (s32 (BackBufferHeight w)) (BackBufferMemory w)
        (mkBITMAPINFOHEADER 40 (s32 x) (s32 (- s32 y)) 1 32 BI_RGB).
Proof.
  intros w Hmem Hdim Hfail.
  assert (Hn : resize_is_noop (window m) x y = false).
  { unfold resize_is_noop. fold w.
    destruct Hdim as [H|H]; apply Z.eqb_neq in H; rewrite H; cbn.
    - reflexivity.
    - rewrite andb_false_r. reflexivity. }
  eexists _, _. split.
  - apply ResizeBackBuffer_fail; assumption.
  - unfold PresentBackBuffer. run. split; reflexivity.
Qed.

Lemma present_after_failed_resize_witness :
  exists m1 m2,
    ResizeBackBuffer 1024 768 (mkMachine shown_window (desktop [0])) = Some (-1, m1) /\
    PresentBackBuffer m1 = Some (tt, m2) /\
    hd (Call_Sleep 0) (Calls (host m2)) =
      Call_StretchDIBits 0 0 800 600 0 0 800 600 65536
        (mkBITMAPINFOHEADER 40 1024 (-768) 1 32 BI_RGB).
Proof.
  destruct (present_after_failed_resize 1024 768 (mkMachine shown_window (desktop [0])))
    as (m1 & m2 & H1 & H2 & H3).
  - cbn. lia.
  - left. cbn. lia.
  - reflexivity.
  - exists m1, m2. split. exact H1. split. exact H2.
    vm_compute in H1. injection H1 as <-.
    vm_compute in H2. injection H2 as <-. reflexivity.
Defined.

(** ** Walking through a handler *)

Lemma preserves_ext {A} (P : Machine -> Prop) (c c' : M A) :
  (forall m, c m = c' m) -> preserves P c' -> preserves P c.
Proof. intros E H m a m' Hc. rewrite E in Hc. eapply H, Hc. Qed.

Lemma bind_assoc_at {A B C} (c : M A) (f : A -> M B) (k : B -> M C) (m : Machine) :
  bind (bind c f) k m = bind c (fun x => bind (f x) k) m.
Proof. unfold bind. destruct (c m) as [[a m1]|]; reflexivity. Qed.

Lemma preserves_os_do_gen (P : Machine -> Prop) (f : Win32 -> Win32) :
  (forall w o, P (mkMachine w o) -> P (mkMachine w (f o))) -> preserves P (os_do f).
Proof.
  intros Hf m a m' H HP. injection H as <- <-. destruct m as [w o]. apply Hf, HP.
Qed.

(** The steps that move values along: binds are re-associated, a returned
    value is handed to what follows, and a branch is split. *)
Ltac walk_shape :=
  match goal with
  | |- preserves ?P (bind (bind ?c ?f) ?k) =>
      apply (preserves_ext P _ (bind c (fun x => bind (f x) k))
                           (fun m => bind_assoc_at c f k m))
  | |- preserves ?P (bind (ret ?a) ?k) =>
      apply (preserves_ext P _ (k a) (fun m => eq_refl)); cbv beta
  | |- preserves ?P (if false then _ else ?c) => change (preserves P c)
  | |- preserves ?P (if true then ?c else _) => change (preserves P c)
  | |- preserves _ (bind (if ?b then _ else _) _) => destruct b
  | |- preserves _ (if ?b then _ else _) => destruct b
  | |- preserves _ (match (if ?b then _ else _) with (_, _) => _ end) => destruct b
  | |- preserves _ (match ?x with (_, _) => _ end) => destruct x
  end.

(** A whole handler, given how the property survives the assignments to the
    window state ([on_store]), the calls ([on_call]) and a resize. *)
Ltac walk resize_lemma on_store on_call :=
  cbv zeta;
  repeat first
    [ apply resize_lemma
    | walk_shape
    | apply preserves_ret
    | apply preserves_lift
    | apply preserves_get_window_bind; intros ? ? ?
    | apply preserves_get_host
    | apply preserves_store; [intros ? ? ?; on_store]
    | apply preserves_os_do_gen; [intros ? ? ?; on_call]
    | apply preserves_bind; [|intros ?] ];
  cbn [fst snd].

(** ** What the whole run keeps *)

Section Run.
Variable P : Machine -> Prop.
Hypothesis P_proc : forall hwnd msg wparam lparam,
    preserves P (WSI_WndProc hwnd msg wparam lparam).
Hypothesis P_pass : preserves P wWinMain_present.
Hypothesis P_destroy : preserves P (os_do (os_log Call_DestroyWindow)).

Lemma preserves_pump (hwnd : Z) (queue : list MSG) : preserves P (dispatch_messages hwnd queue).
Proof.
  apply (preserves_dispatch_messages P (fun _ => True)).
  - intros msg _. apply P_proc.
  - apply Forall_forall. auto.
Qed.

Lemma preserves_tick (hwnd : Z) (queue : list MSG) : preserves P (wWinMain_tick hwnd queue).
Proof.
  unfold wWinMain_tick.
  apply preserves_bind; [apply preserves_pump|intros _; apply P_pass].
Qed.

Lemma preserves_loop (hwnd : Z) (ticks : list (list MSG)) :
  preserves P (wWinMain_loop hwnd ticks).
Proof.
  induction ticks as [|queue rest IH]; cbn [wWinMain_loop].
  - apply preserves_ret.
  - apply preserves_bind; [apply preserves_tick|intros [|]].
    + apply preserves_ret.
    + exact IH.
Qed.

Lemma preserves_run (hwnd : Z) (ticks : list (list MSG)) (destroyed : bool)
      (final : list MSG) :
  preserves P (wWinMain_run hwnd ticks destroyed final).
Proof.
  unfold wWinMain_run, wWinMain_destroy, when.
  apply preserves_bind; [apply preserves_loop|intros [|]]; [|apply preserves_ret].
  apply preserves_bind; [|intros ?; apply preserves_ret].
  apply preserves_bind; [apply P_destroy|intros _].
  apply preserves_bind; [|intros ?; apply preserves_ret].
  destruct destroyed; [apply preserves_pump|apply preserves_ret].
Qed.
End Run.

(** The pass after the pump keeps what a blit and the sleep keep. *)
Lemma preserves_present_pass (P : Machine -> Prop) :
  preserves P PresentBackBuffer -> preserves P (os_do (os_log (Call_Sleep 16))) ->
  preserves P wWinMain_present.
Proof.
  intros P_present P_sleep. unfold wWinMain_present, when.
  apply preserves_bind; [apply preserves_get_window|intros ws].
  destruct (has_flag _ _); [apply preserves_ret|].
  apply preserves_bind.
  - destruct (has_flag _ _); [|apply preserves_ret].
    destruct (negb _); [apply P_present|apply preserves_ret].
  - intros _. apply preserves_bind; [apply P_sleep|intros _; apply preserves_ret].
Qed.

(** ** One buffer at a time *)

Lemma ResizeBackBuffer_keeps_accounted (x y : Z) :
  preserves buffer_accounted (ResizeBackBuffer x y).
Proof.
  intros m r m' H HP. unfold buffer_accounted in *.
  destruct (resize_is_noop (window m) x y) eqn:Hn.
  - rewrite ResizeBackBuffer_noop in H by exact Hn. injection H as <- <-. exact HP.
  - destruct (Z.eq_dec (hd 0 (AllocPlan (host m))) 0) as [Hp|Hp].
    + rewrite ResizeBackBuffer_fail in H by assumption. injection H as <- <-.
      cbn. exact HP.
    + rewrite ResizeBackBuffer_ok in H by assumption. injection H as <- <-.
      cbn [window host BackBufferMemory set_BackBuffer].
      pose proof Hp as Hp'. apply Z.eqb_neq in Hp'. rewrite Hp'.
      destruct (BackBufferMemory (window m) =? 0) eqn:Hmem;
        cbn [Calls os_log os_set_AllocPlan live_buffers]; rewrite Hp', HP.
      * reflexivity.
      * cbn [release].
        destruct (hd 0 (AllocPlan (host m)) =? BackBufferMemory (window m)) eqn:E.
        -- apply Z.eqb_eq in E. rewrite E. reflexivity.
        -- cbn [release]. rewrite Z.eqb_refl. reflexivity.
Qed.

Ltac accounted_kept :=
  idtac;
  match goal with
  | HP : buffer_accounted _ |- buffer_accounted _ =>
      first [ exact HP
            | unfold buffer_accounted in *;
              repeat match goal with |- context [if ?b then _ else _] =>
                       match b with
                       | (_ =? 0) => fail 1
                       | _ => destruct b
                       end end;
              exact HP ]
  end.

Lemma WSI_WndProc_keeps_accounted (hwnd msg wparam lparam : Z) :
  preserves buffer_accounted (WSI_WndProc hwnd msg wparam lparam).
Proof.
  unfold_handlers.
  walk ResizeBackBuffer_keeps_accounted accounted_kept accounted_kept.
Qed.

(** X5.  Along any run, from the message loop to the return of [wWinMain],
    the addresses allocated and not yet freed are exactly the one recorded
    in the window state: a resize that installs a new buffer frees the
    address it replaces and no other, and no second buffer is kept. *)
Theorem one_buffer_at_a_time (hwnd : Z) (ticks : list (list MSG)) (destroyed : bool)
        (final : list MSG) (m m' : Machine) (r : option Z) :
  buffer_accounted m ->
  wWinMain_run hwnd ticks destroyed final m = Some (r, m') ->
  buffer_accounted m'.
Proof.
  intros HP Hrun.
  eapply (preserves_run buffer_accounted); [| | |exact Hrun|exact HP].
  - apply WSI_WndProc_keeps_accounted.
  - apply preserves_present_pass.
    + unfold PresentBackBuffer.
      walk ResizeBackBuffer_keeps_accounted accounted_kept accounted_kept.
    + apply preserves_os_do_gen. intros w o H. exact H.
  - apply preserves_os_do_gen. intros w o H. exact H.
Qed.

Lemma one_buffer_at_a_time_witness :
  exists m',
    wWinMain_run 7 [[mkMSG WM_CREATE 0 0; mkMSG WM_SIZE 0 (MAKELONG 1024 768)];
                    [mkMSG WM_CLOSE 0 0]] true []
                 (mkMachine fresh_window (desktop_created [65536; 131072])) =
      Some (Some 0, m') /\
    BackBufferMemory (window m') = 131072 /\
    In (Call_VirtualFree 65536) (Calls (host m')) /\
    live_buffers (Calls (host m')) = [131072].
Proof.
  assert (Hrun : exists m',
    wWinMain_run 7 [[mkMSG WM_CREATE 0 0; mkMSG WM_SIZE 0 (MAKELONG 1024 768)];
                    [mkMSG WM_CLOSE 0 0]] true []
                 (mkMachine fresh_window (desktop_created [65536; 131072])) =
      Some (Some 0, m') /\ BackBufferMemory (window m') = 131072 /\
    In (Call_VirtualFree 65536) (Calls (host m'))).
  { eexists. split. vm_compute. reflexivity. split. reflexivity. vm_compute. tauto. }
  destruct Hrun as (m' & Hrun & Hmem & Hfree).
  exists m'. split. exact Hrun. split. exact Hmem. split. exact Hfree.
  pose proof (one_buffer_at_a_time 7 _ true []
                (mkMachine fresh_window (desktop_created [65536; 131072])) m' (Some 0)
                eq_refl Hrun) as H.
  unfold buffer_accounted in H. rewrite Hmem in H. exact H.
Defined.

(** ** The stride of the backbuffer *)

Lemma ResizeBackBuffer_keeps_stride (x y : Z) :
  preserves stride_of_width (ResizeBackBuffer x y).
Proof.
  intros m r m' H HP. unfold stride_of_width in *.
  destruct (resize_is_noop (window m) x y) eqn:Hn.
  - rewrite ResizeBackBuffer_noop in H by exact Hn. injection H as <- <-. exact HP.
  - destruct (Z.eq_dec (hd 0 (AllocPlan (host m))) 0) as [Hp|Hp].
    + rewrite ResizeBackBuffer_fail in H by assumption. injection H as <- <-. exact HP.
    + rewrite ResizeBackBuffer_ok in H by assumption. injection H as <- <-.
      intros _. reflexivity.
Qed.

Ltac same_kept := idtac; match goal with HP : _ |- _ => exact HP end.

(** X6.  Along any run a recorded backbuffer has a stride of four times its
    width (modulo 2^32): the address, the extent and the stride are only
    ever assigned together. *)
Theorem stride_is_four_times_width (hwnd : Z) (ticks : list (list MSG)) (destroyed : bool)
        (final : list MSG) (m m' : Machine) (r : option Z) :
  stride_of_width m ->
  wWinMain_run hwnd ticks destroyed final m = Some (r, m') ->
  BackBufferMemory (window m') <> 0 ->
  BackBufferStride (window m') = u32 (BackBufferWidth (window m') * 4).
Proof.
  intros HP Hrun.
  eapply (preserves_run stride_of_width); [| | |exact Hrun|exact HP].
  - intros ? ? ? ?. unfold_handlers.
    walk ResizeBackBuffer_keeps_stride same_kept same_kept.
  - apply preserves_present_pass.
    + unfold PresentBackBuffer.
      walk ResizeBackBuffer_keeps_stride same_kept same_kept.
    + apply preserves_os_do_gen. intros w o H. exact H.
  - apply preserves_os_do_gen. intros w o H. exact H.
Qed.

Lemma stride_is_four_times_width_witness :
  exists m',
    wWinMain_run 7 [[mkMSG WM_CREATE 0 0; mkMSG WM_SIZE 0 (MAKELONG 1024 768)]] true []
                 (mkMachine fresh_window (desktop_created [65536; 131072])) = Some (None, m') /\
    BackBufferWidth (window m') = 1024 /\ BackBufferStride (window m') = 4096.
Proof.
  assert (Hrun : exists m',
    wWinMain_run 7 [[mkMSG WM_CREATE 0 0; mkMSG WM_SIZE 0 (MAKELONG 1024 768)]] true []
                 (mkMachine fresh_window (desktop_created [65536; 131072])) = Some (None, m') /\
    BackBufferWidth (window m') = 1024 /\ BackBufferMemory (window m') = 131072).
  { eexists. split. vm_compute. reflexivity. split; reflexivity. }
  destruct Hrun as (m' & Hrun & Hw & Hmem).
  exists m'. split. exact Hrun. split. exact Hw.
  rewrite (stride_is_four_times_width 7 _ true []
             (mkMachine fresh_window (desktop_created [65536; 131072])) m' None
             (fun H => False_ind _ (H eq_refl)) Hrun).
  - rewrite Hw. reflexivity.
  - rewrite Hmem. discriminate.
Defined.

(** ** Leaving the loop *)

Lemma ResizeBackBuffer_keeps_not_destroyed (x y : Z) :
  preserves not_destroyed (ResizeBackBuffer x y).
Proof.
  intros m r m' H HP. unfold not_destroyed in *.
  destruct (ResizeBackBuffer_total x y m) as (r0 & m0 & Hr & Hf).
  rewrite Hr in H. injection H as <- <-.
  destruct Hf as (_ & _ & Hev & _). rewrite Hev. exact HP.
Qed.

Ltac not_destroyed_kept :=
  idtac;
  match goal with
  | HP : not_destroyed _ |- not_destroyed _ =>
      first
        [ exact HP
        | reflexivity
        | unfold not_destroyed in *; cbn [window EventFlags set_EventFlags] in *;
          repeat match goal with |- context [if ?b then _ else _] => destruct b end;
          rewrite <- HP; apply has_flag_other, land_lor_other; reflexivity ]
  end.

Lemma WSI_WndProc_keeps_not_destroyed (hwnd msg wparam lparam : Z) :
  (msg =? WM_CLOSE) = false ->
  preserves not_destroyed (WSI_WndProc hwnd msg wparam lparam).
Proof.
  intros Hmsg. unfold_handlers. rewrite Hmsg.
  walk ResizeBackBuffer_keeps_not_destroyed not_destroyed_kept not_destroyed_kept.
Qed.

(** X7.  Only the close notification ends the loop: as long as no message
    of any pass is a close notification and the Destroyed event is not set
    to begin with, the loop is not left, however many passes it runs. *)
Theorem loop_left_only_by_close (hwnd : Z) (ticks : list (list MSG)) (m m' : Machine)
        (left_loop : bool) :
  Forall no_close ticks ->
  not_destroyed m ->
  wWinMain_loop hwnd ticks m = Some (left_loop, m') ->
  left_loop = false /\ not_destroyed m'.
Proof.
  intros Hticks. revert m.
  induction Hticks as [|queue rest Hq _ IH]; intros m HP Hrun; cbn [wWinMain_loop] in Hrun.
  - injection Hrun as <- <-. auto.
  - unfold bind at 1 in Hrun. unfold wWinMain_tick, bind at 1 in Hrun.
    destruct (dispatch_messages hwnd queue m) as [[[] m1]|] eqn:Hpump; [|discriminate].
    assert (H1 : not_destroyed m1).
    { eapply (preserves_dispatch_messages not_destroyed
                (fun msg => (message msg =? WM_CLOSE) = false)); eauto.
      intros msg Hmsg. apply WSI_WndProc_keeps_not_destroyed, Hmsg. }
    rewrite wWinMain_present_eq in Hrun. cbv zeta in Hrun.
    unfold not_destroyed in H1. rewrite H1 in Hrun.
    apply (IH _ ) in Hrun; [exact Hrun|]. exact H1.
Qed.

Lemma loop_left_only_by_close_witness :
  exists m',
    wWinMain_loop 7 [[mkMSG WM_ACTIVATE 1 0]; [mkMSG WM_MOVE 0 0; mkMSG WM_PAINT 0 0]; []]
                  (mkMachine shown_window (desktop [])) = Some (false, m').
Proof.
  assert (Hrun : exists b m',
    wWinMain_loop 7 [[mkMSG WM_ACTIVATE 1 0]; [mkMSG WM_MOVE 0 0; mkMSG WM_PAINT 0 0]; []]
                  (mkMachine shown_window (desktop [])) = Some (b, m')).
  { eexists _, _. vm_compute. reflexivity. }
  destruct Hrun as (b & m' & Hrun).
  destruct (loop_left_only_by_close 7
              [[mkMSG WM_ACTIVATE 1 0]; [mkMSG WM_MOVE 0 0; mkMSG WM_PAINT 0 0]; []]
              (mkMachine shown_window (desktop [])) m' b)
    as [Hb _]; [repeat constructor | reflexivity | exact Hrun |].
  exists m'. rewrite <- Hb. exact Hrun.
Defined.

(** ** The flags in use *)

Lemma only_flags_lor (mask a b : Z) :
  only_flags mask a -> only_flags mask b -> only_flags mask (Z.lor a b).
Proof. unfold only_flags. intros Ha Hb. rewrite Z.land_lor_distr_l, Ha, Hb. reflexivity. Qed.

Lemma only_flags_land (mask a b : Z) : only_flags mask a -> only_flags mask (Z.land a b).
Proof.
  unfold only_flags. intros Ha.
  rewrite <- Z.land_assoc, (Z.land_comm b mask), Z.land_assoc, Ha. reflexivity.
Qed.

Lemma only_flags_range (n flags : Z) :
  0 <= n -> (only_flags (Z.ones n) flags <-> 0 <= flags < 2 ^ n).
Proof.
  intros Hn. unfold only_flags. rewrite Z.land_ones by exact Hn. split.
  - intros H. rewrite <- H. apply Z.mod_pos_bound. apply Z.pow_pos_nonneg; lia.
  - intros H. apply Z.mod_small. exact H.
Qed.

Lemma ResizeBackBuffer_keeps_flags (x y : Z) :
  preserves flags_defined (ResizeBackBuffer x y).
Proof.
  intros m r m' H HP. unfold flags_defined in *.
  destruct (ResizeBackBuffer_total x y m) as (r0 & m0 & Hr & Hf).
  rewrite Hr in H. injection H as <- <-.
  destruct Hf as (_ & Hst & Hev & _). rewrite Hst, Hev. exact HP.
Qed.

Ltac flags_kept :=
  idtac;
  match goal with
  | HP : flags_defined _ |- flags_defined _ =>
      first
        [ exact HP
        | unfold flags_defined in *;
          cbn [window StatusFlags EventFlags set_StatusFlags set_EventFlags] in *;
          repeat match goal with H : _ /\ _ |- _ => destruct H end;
          repeat match goal with |- context [if ?b then _ else _] => destruct b end;
          split;
          repeat first [ assumption | apply only_flags_lor | apply only_flags_land
                       | reflexivity ] ]
  end.

Lemma WSI_WndProc_keeps_flags (hwnd msg wparam lparam : Z) :
  preserves flags_defined (WSI_WndProc hwnd msg wparam lparam).
Proof.
  unfold_handlers.
  walk ResizeBackBuffer_keeps_flags flags_kept flags_kept.
Qed.

(** X8.  Along any run the status flags hold none but the four status flags
    and the event flags none but the eight event flags: a window state whose
    flags are below 16 and 256 keeps them there. *)
Theorem flags_stay_defined (hwnd : Z) (ticks : list (list MSG)) (destroyed : bool)
        (final : list MSG) (m m' : Machine) (r : option Z) :
  0 <= StatusFlags (window m) < 16 -> 0 <= EventFlags (window m) < 256 ->
  wWinMain_run hwnd ticks destroyed final m = Some (r, m') ->
  0 <= StatusFlags (window m') < 16 /\ 0 <= EventFlags (window m') < 256.
Proof.
  intros Hs He Hrun.
  assert (HP : flags_defined m).
  { split; [apply (only_flags_range 4)|apply (only_flags_range 8)]; lia. }
  assert (HP' : flags_defined m').
  { eapply (preserves_run flags_defined); [| | |exact Hrun|exact HP].
    - apply WSI_WndProc_keeps_flags.
    - apply preserves_present_pass.
      + unfold PresentBackBuffer. walk ResizeBackBuffer_keeps_flags flags_kept flags_kept.
      + apply preserves_os_do_gen. intros w o H. exact H.
    - apply preserves_os_do_gen. intros w o H. exact H. }
  destruct HP' as [H1 H2].
  split; [apply (only_flags_range 4)|apply (only_flags_range 8)]; (lia || assumption).
Qed.

Lemma flags_stay_defined_witness :
  exists m',
    wWinMain_run 7 [[mkMSG WM_ACTIVATE 1 0; mkMSG WM_DPICHANGED (MAKELONG 192 192) 0];
                    [mkMSG WM_CLOSE 0 0]] true []
                 (mkMachine shown_window (desktop [131072])) = Some (Some 0, m') /\
    0 <= StatusFlags (window m') < 16 /\ 0 <= EventFlags (window m') < 256.
Proof.
  assert (Hrun : exists m',
    wWinMain_run 7 [[mkMSG WM_ACTIVATE 1 0; mkMSG WM_DPICHANGED (MAKELONG 192 192) 0];
                    [mkMSG WM_CLOSE 0 0]] true []
                 (mkMachine shown_window (desktop [131072])) = Some (Some 0, m')).
  { eexists. vm_compute. reflexivity. }
  destruct Hrun as (m' & Hrun).
  exists m'. split. exact Hrun.
  apply (fun Hs He => flags_stay_defined 7 _ true []
                          (mkMachine shown_window (desktop [131072])) m' (Some 0)
                          Hs He Hrun); vm_compute; (split; [discriminate|reflexivity]).
Defined.

(** ** The activate notification *)

Lemma has_flag_lor (a b flag : Z) :
  has_flag (Z.lor a b) flag = has_flag a flag || has_flag b flag.
Proof.
  unfold has_flag. rewrite Z.land_lor_distr_l, <- negb_andb. f_equal.
  destruct (Z.eqb_spec (Z.land a flag) 0) as [Ea|Ea];
    destruct (Z.eqb_spec (Z.land b flag) 0) as [Eb|Eb]; cbn;
    apply Z.eqb_eq || apply Z.eqb_neq.
  - rewrite Ea, Eb. reflexivity.
  - intros E. apply Z.lor_eq_0_iff in E. tauto.
  - intros E. apply Z.lor_eq_0_iff in E. tauto.
  - intros E. apply Z.lor_eq_0_iff in E. tauto.
Qed.

Lemma has_flag_land_other (flags a flag : Z) :
  0 <= flag < 4294967296 -> Z.land flag a = 0 ->
  has_flag (Z.land flags (not32 a)) flag = has_flag flags flag.
Proof. intros Hf Ha. apply has_flag_other, land_not32_other; assumption. Qed.

(** Reading one flag of a status word built by the handlers. *)
Lemma has_flag_lor_set (s c f : Z) :
  has_flag c f = true -> has_flag (Z.lor s c) f = true.
Proof. intros H. rewrite has_flag_lor, H. apply orb_true_r. Qed.

Lemma has_flag_lor_unset (s c f : Z) :
  has_flag c f = false -> has_flag (Z.lor s c) f = has_flag s f.
Proof. intros H. rewrite has_flag_lor, H. apply orb_false_r. Qed.

Lemma u32_range_dec (f : Z) :
  (0 <=? f) && (f <? 4294967296) = true -> 0 <= f < 4294967296.
Proof. intros H. apply andb_true_iff in H. lia. Qed.

Ltac read_flags :=
  repeat first
    [ reflexivity
    | rewrite has_flag_cleared by (apply u32_range_dec; reflexivity)
    | rewrite has_flag_land_other by (reflexivity || (apply u32_range_dec; reflexivity))
    | rewrite has_flag_lor_set by reflexivity
    | rewrite has_flag_lor_unset by reflexivity ].

(** X9.  The activate notification makes the Active flag say whether the
    window was activated; it clears the Visible flag when the window is
    minimized, sets it when an unminimized window is activated and leaves it
    alone otherwise.  It adds the Activated or the Deactivated event, and the
    Hidden event for a minimized window, changes nothing else in the window
    state and hands the message on to [DefWindowProc]. *)
Theorem WM_ACTIVATE_flags (m : Machine) (wparam lparam : Z) :
  let active := negb (LOWORD wparam =? 0) in
  let minimized := negb (HIWORD wparam =? 0) in
  let w := window m in
  exists status events,
    WSI_WndProc_WM_ACTIVATE wparam lparam m =
      Some (DefResult (host m) WM_ACTIVATE wparam lparam,
            mkMachine (set_EventFlags events (set_StatusFlags status w))
                      (os_log (Call_DefWindowProc WM_ACTIVATE wparam lparam) (host m))) /\
    has_flag status WSI_WINDOW_STATUS_FLAG_ACTIVE = active /\
    has_flag status WSI_WINDOW_STATUS_FLAG_VISIBLE =
      (if minimized then false
       else if active then true
       else has_flag (StatusFlags w) WSI_WINDOW_STATUS_FLAG_VISIBLE) /\
    has_flag status WSI_WINDOW_STATUS_FLAG_FULLSCREEN =
      has_flag (StatusFlags w) WSI_WINDOW_STATUS_FLAG_FULLSCREEN /\
    events =
      Z.lor (Z.lor (EventFlags w)
                   (if active then WSI_WINDOW_EVENT_FLAG_ACTIVATED
                    else WSI_WINDOW_EVENT_FLAG_DEACTIVATED))
            (if minimized then WSI_WINDOW_EVENT_FLAG_HIDDEN else 0).
Proof.
  intros active minimized w. subst active minimized w.
  set (s := StatusFlags (window m)). set (e := EventFlags (window m)).
  destruct (LOWORD wparam =? 0) eqn:Ha, (HIWORD wparam =? 0) eqn:Hm;
    cbv beta iota zeta delta
      [WSI_WndProc_WM_ACTIVATE DefWindowProc bind ret store os_do get_window get_host
       when or_EventFlags or_StatusFlags and_StatusFlags negb];
    rewrite ?Ha, ?Hm;
    cbv beta iota zeta delta [negb];
    cbn [window host StatusFlags EventFlags set_StatusFlags set_EventFlags];
    fold s e.
  - exists (Z.land s (not32 WSI_WINDOW_STATUS_FLAG_ACTIVE)),
      (Z.lor e WSI_WINDOW_EVENT_FLAG_DEACTIVATED).
    rewrite Z.lor_0_r. repeat split; read_flags.
  - exists (Z.land (Z.land s (not32 WSI_WINDOW_STATUS_FLAG_ACTIVE))
                   (not32 WSI_WINDOW_STATUS_FLAG_VISIBLE)),
      (Z.lor (Z.lor e WSI_WINDOW_EVENT_FLAG_DEACTIVATED) WSI_WINDOW_EVENT_FLAG_HIDDEN).
    repeat split; read_flags.
  - exists (Z.lor s (Z.lor WSI_WINDOW_STATUS_FLAG_ACTIVE WSI_WINDOW_STATUS_FLAG_VISIBLE)),
      (Z.lor e WSI_WINDOW_EVENT_FLAG_ACTIVATED).
    rewrite Z.lor_0_r. repeat split; read_flags.
  - exists (Z.land (Z.lor s (Z.lor WSI_WINDOW_STATUS_FLAG_ACTIVE WSI_WINDOW_STATUS_FLAG_VISIBLE))
                   (not32 WSI_WINDOW_STATUS_FLAG_VISIBLE)),
      (Z.lor (Z.lor e WSI_WINDOW_EVENT_FLAG_ACTIVATED) WSI_WINDOW_EVENT_FLAG_HIDDEN).
    repeat split; read_flags.
Qed.

(** ** The move notification *)

(** X10.  A move notification stores the corner of the window rectangle, the
    extent of that rectangle in logical pixels and the DPI of the monitor,
    and adds the PositionChanged event.  It reads nothing from its message
    parameters, makes no call that changes the window, and leaves the status
    flags, the client size and the backbuffer as they were. *)
Theorem WM_MOVE_tracks_window_rect (m : Machine) (wparam lparam : Z) :
  let dpi_x := fst (monitor_dpi m) in
  let dpi_y := snd (monitor_dpi m) in
  let rc := WindowRect (host m) in
  let w := window m in
  dpi_x <> 0 -> dpi_y <> 0 ->
  exists w',
    WSI_WndProc_WM_MOVE wparam lparam m = Some (0, mkMachine w' (host m)) /\
    PositionX w' = left rc /\ PositionY w' = top rc /\
    PhysicalToLogicalPixels (u32 (right rc - left rc)) dpi_x = Some (WindowSizeX w') /\
    PhysicalToLogicalPixels (u32 (bottom rc - top rc)) dpi_y = Some (WindowSizeY w') /\
    OutputDpiX w' = dpi_x /\ OutputDpiY w' = dpi_y /\
    EventFlags w' = Z.lor (EventFlags w) WSI_WINDOW_EVENT_FLAG_POSITION_CHANGED /\
    StatusFlags w' = StatusFlags w /\
    ClientSizeX w' = ClientSizeX w /\ ClientSizeY w' = ClientSizeY w /\
    same_buffer w w' /\ BackBufferInfo w' = BackBufferInfo w.
Proof.
  intros dpi_x dpi_y rc w Hx Hy.
  unfold WSI_WndProc_WM_MOVE, call_GetDpiForMonitor, GetWindowRect. run.
  fold (monitor_dpi m). fold dpi_x dpi_y rc.
  rewrite !PhysicalToLogicalPixels_Some by assumption.
  cbn. eexists. split. reflexivity.
  unfold same_buffer. cbn. repeat split.
Qed.

Lemma WM_MOVE_tracks_window_rect_witness :
  exists w',
    WSI_WndProc_WM_MOVE 0 0 (mkMachine shown_window (desktop_192 [])) =
      Some (0, mkMachine w' (desktop_192 [])) /\
    PositionX w' = 560 /\ WindowSizeX w' = 808 /\ WindowSizeY w' = 619 /\
    OutputDpiX w' = 192 /\ ClientSizeX w' = 800 /\ BackBufferWidth w' = 800.
Proof.
  destruct (WM_MOVE_tracks_window_rect (mkMachine shown_window (desktop_192 [])) 0 0)
    as (w' & Hrun & Hpx & _ & Hwx & Hwy & Hdx & _ & _ & _ & Hcx & _ & (_ & Hbw & _) & _).
  - vm_compute. lia.
  - vm_compute. lia.
  - exists w'. split. exact Hrun.
    split. exact Hpx.
    split. { change (Some 808 = Some (WindowSizeX w')) in Hwx. congruence. }
    split. { change (Some 619 = Some (WindowSizeY w')) in Hwy. congruence. }
    split. exact Hdx. split. exact Hcx. exact Hbw.
Defined.

(** X11.  The move, size and show notifications divide by the DPI the monitor
    reports: when either component is zero, the handler stops at the
    division and the window procedure does not return. *)
Theorem zero_dpi_stops_handlers (m : Machine) (hwnd msg wparam lparam : Z) :
  UserData (host m) = true ->
  fst (monitor_dpi m) = 0 \/ snd (monitor_dpi m) = 0 ->
  msg = WM_MOVE \/ msg = WM_SIZE \/ (msg = WM_SHOWWINDOW /\ wparam <> 0) ->
  WSI_WndProc hwnd msg wparam lparam m = None.
Proof.
  intros Hu Hdpi Hmsg.
  assert (Hdiv : forall a b, PhysicalToLogicalPixels a (fst (monitor_dpi m)) = None \/
                             PhysicalToLogicalPixels b (snd (monitor_dpi m)) = None).
  { intros a b. destruct Hdpi as [H|H]; rewrite H; [left|right]; reflexivity. }
  unfold WSI_WndProc.
  destruct Hmsg as [->|[->|[-> Hw]]];
    change (WM_MOVE =? WM_NCCREATE) with false;
    change (WM_SIZE =? WM_NCCREATE) with false;
    change (WM_SHOWWINDOW =? WM_NCCREATE) with false;
    cbv beta iota; unfold bind at 1, get_host at 1; rewrite Hu; cbv beta iota delta [negb].
  - change (WM_MOVE =? WM_MOVE) with true. cbv beta iota.
    unfold WSI_WndProc_WM_MOVE, call_GetDpiForMonitor, GetWindowRect. run.
    fold (monitor_dpi m).
    destruct (Hdiv (u32 (right (WindowRect (host m)) - left (WindowRect (host m))))
                   (u32 (bottom (WindowRect (host m)) - top (WindowRect (host m)))))
      as [H|H]; rewrite H; [reflexivity|].
    destruct (PhysicalToLogicalPixels _ (fst (monitor_dpi m))); reflexivity.
  - change (WM_SIZE =? WM_MOVE) with false. change (WM_SIZE =? WM_SIZE) with true.
    cbv beta iota.
    unfold WSI_WndProc_WM_SIZE, call_GetDpiForMonitor. run.
    fold (monitor_dpi m).
    destruct (Hdiv (LOWORD lparam) (HIWORD lparam)) as [H|H]; rewrite H; [reflexivity|].
    destruct (PhysicalToLogicalPixels _ (fst (monitor_dpi m))); reflexivity.
  - change (WM_SHOWWINDOW =? WM_MOVE) with false.
    change (WM_SHOWWINDOW =? WM_SIZE) with false.
    change (WM_SHOWWINDOW =? WM_PAINT) with false.
    change (WM_SHOWWINDOW =? WM_ACTIVATE) with false.
    change (WM_SHOWWINDOW =? WM_SHOWWINDOW) with true.
    cbv beta iota.
    apply Z.eqb_neq in Hw.
    unfold WSI_WndProc_WM_SHOWWINDOW, call_GetDpiForMonitor, GetWindowRect. rewrite Hw. run.
    fold (monitor_dpi m).
    destruct (Hdiv (u32 (right (WindowRect (host m)) - left (WindowRect (host m))))
                   (u32 (bottom (WindowRect (host m)) - top (WindowRect (host m)))))
      as [H|H]; rewrite H; [reflexivity|].
    destruct (PhysicalToLogicalPixels _ (fst (monitor_dpi m))); reflexivity.
Qed.

Lemma zero_dpi_stops_handlers_witness :
  WSI_WndProc 7 WM_MOVE 0 0
    (mkMachine shown_window
       (desktop_at 0 (mkRECT 0 0 1920 1080) (mkRECT 560 220 1376 859) (mkRECT 0 0 800 600) []))
  = None.
Proof.
  apply zero_dpi_stops_handlers.
  - reflexivity.
  - left. reflexivity.
  - left. reflexivity.
Defined.

(** ** No blit without a buffer *)

Lemma ResizeBackBuffer_keeps_blits (x y : Z) :
  preserves blits_have_source (ResizeBackBuffer x y).
Proof.
  intros m r m' H HP. unfold blits_have_source in *.
  destruct (resize_is_noop (window m) x y) eqn:Hn.
  - rewrite ResizeBackBuffer_noop in H by exact Hn. injection H as <- <-. exact HP.
  - destruct (Z.eq_dec (hd 0 (AllocPlan (host m))) 0) as [Hp|Hp].
    + rewrite ResizeBackBuffer_fail in H by assumption. injection H as <- <-.
      cbn [host Calls os_log os_set_AllocPlan]. constructor; [exact I|exact HP].
    + rewrite ResizeBackBuffer_ok in H by assumption. injection H as <- <-.
      destruct (BackBufferMemory (window m) =? 0);
        cbn [host Calls os_log os_set_AllocPlan]; repeat (constructor; [exact I|]);
        exact HP.
Qed.

Ltac blits_kept :=
  idtac;
  match goal with
  | HP : blits_have_source _ |- blits_have_source _ =>
      first [ exact HP
            | unfold blits_have_source in *;
              repeat match goal with |- context [if ?b then _ else _] => destruct b end;
              cbn [host Calls os_log os_set_AllocPlan os_set_WindowRect os_set_WindowStyle
                   os_set_WindowStyleEx os_set_UserData] in *;
              repeat (constructor; [exact I|]); exact HP ]
  end.

Lemma PresentBackBuffer_keeps_blits (m m' : Machine) (u : unit) :
  BackBufferMemory (window m) <> 0 ->
  PresentBackBuffer m = Some (u, m') -> blits_have_source m -> blits_have_source m'.
Proof.
  intros Hmem H HP. unfold PresentBackBuffer in H. revert H. run. intros H.
  injection H as <- <-. unfold blits_have_source in *. cbn [host Calls os_log].
  constructor; [exact Hmem|exact HP].
Qed.

Lemma WM_PAINT_keeps_blits (wparam lparam : Z) :
  preserves blits_have_source (WSI_WndProc_WM_PAINT wparam lparam).
Proof.
  intros m r m' H HP. unfold WSI_WndProc_WM_PAINT in H.
  unfold bind at 1, get_window at 1 in H.
  destruct (BackBufferMemory (window m) =? 0) eqn:Hmem; cbn [negb] in H.
  - revert H. unfold DefWindowProc. run. intros H. injection H as <- <-.
    unfold blits_have_source in *. cbn [host Calls os_log].
    constructor; [exact I|exact HP].
  - apply Z.eqb_neq in Hmem. unfold bind, ret in H.
    destruct (PresentBackBuffer m) as [[u m1]|] eqn:Hp; [|discriminate].
    injection H as <- <-. eapply PresentBackBuffer_keeps_blits; eassumption.
Qed.

Lemma WSI_WndProc_keeps_blits (hwnd msg wparam lparam : Z) :
  preserves blits_have_source (WSI_WndProc hwnd msg wparam lparam).
Proof.
  unfold WSI_WndProc.
  destruct (msg =? WM_NCCREATE).
  { unfold DefWindowProc. walk ResizeBackBuffer_keeps_blits blits_kept blits_kept. }
  apply preserves_bind; [apply preserves_get_host|intros o].
  destruct (negb (UserData o)).
  { unfold DefWindowProc. walk ResizeBackBuffer_keeps_blits blits_kept blits_kept. }
  destruct (msg =? WM_MOVE).
  { unfold_handlers. walk ResizeBackBuffer_keeps_blits blits_kept blits_kept. }
  destruct (msg =? WM_SIZE).
  { unfold_handlers. walk ResizeBackBuffer_keeps_blits blits_kept blits_kept. }
  destruct (msg =? WM_PAINT).
  { apply WM_PAINT_keeps_blits. }
  unfold WSI_WndProc_WM_ACTIVATE, WSI_WndProc_WM_SHOWWINDOW, WSI_WndProc_WM_DPICHANGED,
    WSI_WndProc_WM_SYSCOMMAND, WSI_WndProc_WM_CREATE, WSI_WndProc_WM_CLOSE,
    ShowWindow, SetWindowLong, SetWindowPos, VirtualFree, DefWindowProc, GetWindowRect,
    GetClientRect, GetWindowLong, AdjustWindowRectEx, call_GetDpiForMonitor,
    QueryMonitorGeometry, or_EventFlags, or_StatusFlags, and_StatusFlags, when.
  walk ResizeBackBuffer_keeps_blits blits_kept blits_kept.
Qed.

Lemma wWinMain_present_keeps_blits : preserves blits_have_source wWinMain_present.
Proof.
  intros m t m' H HP. unfold wWinMain_present in H.
  unfold bind at 1, get_window at 1 in H.
  destruct (has_flag (EventFlags (window m)) WSI_WINDOW_EVENT_FLAG_DESTROYED).
  { injection H as <- <-. exact HP. }
  assert (Hsleep : forall m1, blits_have_source m1 ->
            (os_do (os_log (Call_Sleep 16)) ;; ret Tick_continue) m1 = Some (t, m') ->
            blits_have_source m').
  { intros m1 H1. run. intros E. injection E as <- <-.
    unfold blits_have_source in *. cbn [host Calls os_log]. constructor; [exact I|exact H1]. }
  unfold bind at 1 in H. unfold when in H.
  destruct (has_flag (StatusFlags (window m)) WSI_WINDOW_STATUS_FLAG_VISIBLE);
    [destruct (BackBufferMemory (window m) =? 0) eqn:Hmem; cbn [negb] in H|].
  - apply (Hsleep m HP H).
  - destruct (PresentBackBuffer m) as [[u m1]|] eqn:Hp; [|discriminate].
    apply Z.eqb_neq in Hmem.
    apply (Hsleep m1); [|exact H].
    eapply PresentBackBuffer_keeps_blits; eassumption.
  - apply (Hsleep m HP H).
Qed.

(** X12.  Along any run every blit the program issues reads from an
    allocated buffer: neither the paint notification nor the pass of the
    loop hands [StretchDIBits] a null source. *)
Theorem never_blits_without_buffer (hwnd : Z) (ticks : list (list MSG)) (destroyed : bool)
        (final : list MSG) (m m' : Machine) (r : option Z) :
  blits_have_source m ->
  wWinMain_run hwnd ticks destroyed final m = Some (r, m') ->
  blits_have_source m'.
Proof.
  intros HP Hrun.
  eapply (preserves_run blits_have_source); [| | |exact Hrun|exact HP].
  - apply WSI_WndProc_keeps_blits.
  - apply wWinMain_present_keeps_blits.
  - apply preserves_os_do_gen. intros w o H.
    unfold blits_have_source in *. cbn [host Calls os_log]. constructor; [exact I|exact H].
Qed.

Lemma never_blits_without_buffer_witness :
  exists m',
    wWinMain_run 7 [[mkMSG WM_PAINT 0 0; mkMSG WM_CREATE 0 0; mkMSG WM_SHOWWINDOW 1 0;
                     mkMSG WM_PAINT 0 0]; [mkMSG WM_CLOSE 0 0]] true []
                 (mkMachine fresh_window (desktop_created [0; 65536])) = Some (Some 0, m') /\
    blits_have_source m' /\
    In (Call_StretchDIBits 0 0 784 561 0 0 784 561 65536
                           (mkBITMAPINFOHEADER 40 784 (-561) 1 32 BI_RGB))
       (Calls (host m')).
Proof.
  assert (Hrun : exists m',
    wWinMain_run 7 [[mkMSG WM_PAINT 0 0; mkMSG WM_CREATE 0 0; mkMSG WM_SHOWWINDOW 1 0;
                     mkMSG WM_PAINT 0 0]; [mkMSG WM_CLOSE 0 0]] true []
                 (mkMachine fresh_window (desktop_created [0; 65536])) = Some (Some 0, m') /\
    In (Call_StretchDIBits 0 0 784 561 0 0 784 561 65536
                           (mkBITMAPINFOHEADER 40 784 (-561) 1 32 BI_RGB))
       (Calls (host m'))).
  { eexists. split. vm_compute. reflexivity. vm_compute. tauto. }
  destruct Hrun as (m' & Hrun & Hin).
  exists m'. split. exact Hrun. split; [|exact Hin].
  exact (never_blits_without_buffer 7 _ true []
           (mkMachine fresh_window (desktop_created [0; 65536])) m' (Some 0)
           (Forall_nil _) Hrun).
Defined.

(** ** What the window procedure hands on *)

(** X13.  The window procedure hands a message to [DefWindowProc] and leaves
    the window state alone when the state pointer has not been attached yet
    (whatever the message, other than the attaching one), when it has no
    handler for the message, when a system command is not Alt+Enter, and when
    a paint notification finds no backbuffer. *)
Theorem WSI_WndProc_forwards (m : Machine) (hwnd msg wparam lparam : Z) :
  msg <> WM_NCCREATE ->
  UserData (host m) = false \/
  handled msg = false \/
  (msg = WM_SYSCOMMAND /\
   (Z.land wparam 65520 <> SC_KEYMENU \/ lparam <> VK_RETURN)) \/
  (msg = WM_PAINT /\ BackBufferMemory (window m) = 0) ->
  forwarded hwnd msg wparam lparam m.
Proof.
  intros Hnc H. apply Z.eqb_neq in Hnc.
  unfold forwarded, WSI_WndProc. rewrite Hnc.
  unfold bind at 1, get_host at 1.
  destruct H as [H|[H|[[-> H]|[-> H]]]].
  - rewrite H. reflexivity.
  - destruct (UserData (host m)); [|reflexivity]. cbv beta iota delta [negb].
    unfold handled in H. cbn [existsb] in H.
    repeat (apply orb_false_iff in H; let E := fresh "E" in destruct H as [E H]; rewrite E).
    reflexivity.
  - destruct (UserData (host m)); [|reflexivity]. cbv beta iota delta [negb].
    change (WM_SYSCOMMAND =? WM_MOVE) with false.
    change (WM_SYSCOMMAND =? WM_SIZE) with false.
    change (WM_SYSCOMMAND =? WM_PAINT) with false.
    change (WM_SYSCOMMAND =? WM_ACTIVATE) with false.
    change (WM_SYSCOMMAND =? WM_SHOWWINDOW) with false.
    change (WM_SYSCOMMAND =? WM_DPICHANGED) with false.
    change (WM_SYSCOMMAND =? WM_SYSCOMMAND) with true.
    cbv beta iota. unfold WSI_WndProc_WM_SYSCOMMAND.
    assert (E : (Z.land wparam 65520 =? SC_KEYMENU) && (lparam =? VK_RETURN) = false).
    { destruct H as [H|H]; apply Z.eqb_neq in H; rewrite H;
        [reflexivity|apply andb_false_r]. }
    rewrite E. reflexivity.
  - destruct (UserData (host m)); [|reflexivity]. cbv beta iota delta [negb].
    change (WM_PAINT =? WM_MOVE) with false.
    change (WM_PAINT =? WM_SIZE) with false.
    change (WM_PAINT =? WM_PAINT) with true.
    cbv beta iota. unfold WSI_WndProc_WM_PAINT.
    unfold bind at 1, get_window at 1. rewrite H. reflexivity.
Qed.

Lemma WSI_WndProc_forwards_witness :
  forwarded 7 WM_CLOSE 0 0 (mkMachine fresh_window (os_set_UserData false (desktop_created []))) /\
  forwarded 7 WM_SYSCOMMAND SC_KEYMENU 32 (mkMachine shown_window (desktop [])) /\
  forwarded 7 WM_PAINT 0 0 (mkMachine fresh_window (desktop_created [])).
Proof.
  split; [|split].
  - apply WSI_WndProc_forwards; [discriminate|]. left. reflexivity.
  - apply WSI_WndProc_forwards; [discriminate|].
    right. right. left. split; [reflexivity|right; discriminate].
  - apply WSI_WndProc_forwards; [discriminate|].
    right. right. right. split; reflexivity.
Defined.

(** ** The DPI the handlers see *)

(** X14.  When Shcore.dll or its [GetDpiForMonitor] is missing, [wWinMain]
    installs the stub, and the stub reports the pixels per inch of the
    screen device context without looking at the monitor: a move
    notification then stores that DPI, and the window size converted at it,
    whatever DPI the monitor of the window has. *)
Theorem WM_MOVE_dpi_through_stub (m : Machine) (shcore wparam lparam : Z)
        (has_get has_set : bool) :
  let o := host m in
  let rc := WindowRect o in
  let dpi_x := u32 (fst (ScreenLogPixels o)) in
  let dpi_y := u32 (snd (ScreenLogPixels o)) in
  Win32Api (window m) = resolve_Win32Api shcore has_get has_set ->
  shcore = 0 \/ has_get = false ->
  dpi_x <> 0 -> dpi_y <> 0 ->
  exists w',
    WSI_WndProc_WM_MOVE wparam lparam m = Some (0, mkMachine w' o) /\
    OutputDpiX w' = dpi_x /\ OutputDpiY w' = dpi_y /\
    WindowSizeX w' = u32 (u32 (right rc - left rc) * 96) / dpi_x /\
    WindowSizeY w' = u32 (u32 (bottom rc - top rc) * 96) / dpi_y.
Proof.
  intros o rc dpi_x dpi_y Hapi Hstub Hx Hy.
  assert (Hq : monitor_dpi m = (dpi_x, dpi_y)).
  { unfold monitor_dpi, query_dpi. rewrite Hapi. unfold resolve_Win32Api.
    destruct Hstub as [-> | ->]; [reflexivity|].
    destruct (negb (shcore =? 0)); reflexivity. }
  unfold WSI_WndProc_WM_MOVE, call_GetDpiForMonitor, GetWindowRect. run.
  fold (monitor_dpi m). rewrite Hq. cbn [fst snd]. fold o. fold rc.
  rewrite !PhysicalToLogicalPixels_Some by assumption.
  cbn. eexists. split. reflexivity. cbn. repeat split.
Qed.

Lemma WM_MOVE_dpi_through_stub_witness :
  let o := mkWin32 (mkRECT 560 220 2176 1459) (mkRECT 0 0 1600 1200) overlapped_style 0 true
                   (mkRECT 0 0 3840 2160) (Some (192, 192)) (96, 96) decorate
                   (fun _ => mkRECT 100 100 500 400) (fun _ _ _ => 0) [] [] in
  exists w',
    WSI_WndProc_WM_MOVE 0 0
      (mkMachine (wWinMain_window_state (mkRECT 0 0 3840 2120) (resolve_Win32Api 0 true true))
                 o) = Some (0, mkMachine w' o) /\
    OutputDpiX w' = 96 /\ OutputDpiY w' = 96 /\ WindowSizeX w' = 1616 /\ WindowSizeY w' = 1239.
Proof.
  intros o.
  destruct (WM_MOVE_dpi_through_stub
              (mkMachine (wWinMain_window_state (mkRECT 0 0 3840 2120)
                                                (resolve_Win32Api 0 true true)) o)
              0 0 0 true true)
    as (w' & Hrun & Hdx & Hdy & Hwx & Hwy).
  - reflexivity.
  - left. reflexivity.
  - discriminate.
  - discriminate.
  - exists w'. split. exact Hrun. split. exact Hdx. split. exact Hdy.
    split. exact Hwx. exact Hwy.
Defined.

(** ** Where [wWinMain] puts the window *)

(** The placement along one axis: the work area starts at [lo] and is [ext]
    wide, the window is to be [dim] wide. *)
Lemma placement_inside (lo ext dim : Z) :
  0 <= lo -> 0 < dim <= ext -> lo + ext < 2147483648 ->
  s32 (lo + u32 (ext - dim) / 2) = lo + (ext - dim) / 2.
Proof.
  intros Hlo Hdim Hhi. unfold s32, u32.
  rewrite (Z.mod_small (ext - dim)) by lia.
  assert (0 <= (ext - dim) / 2 <= ext - dim).
  { split; [apply Z.div_pos; lia|]. apply Z.div_le_upper_bound; lia. }
  rewrite Z.mod_small by lia. lia.
Qed.

Lemma placement_short (lo ext dim : Z) :
  0 <= lo -> 0 <= ext < dim -> dim < 2147483648 ->
  lo + (ext - dim) / 2 < 0 ->
  s32 (lo + u32 (ext - dim) / 2) = 2147483648 + lo + (ext - dim) / 2.
Proof.
  intros Hlo Hext Hdim Hneg. unfold s32, u32.
  replace (ext - dim) with (ext - dim + 4294967296 + (-1) * 4294967296) at 1 by lia.
  rewrite Z.mod_add by lia.
  rewrite (Z.mod_small (ext - dim + 4294967296)) by lia.
  replace (ext - dim + 4294967296) with (ext - dim + 2147483648 * 2) by lia.
  rewrite Z.div_add by lia.
  assert (- dim <= (ext - dim) / 2).
  { apply Z.div_le_lower_bound; lia. }
  rewrite Z.mod_small by lia. lia.
Qed.

(** X15.  On a work area of at least 800 x 600 that starts no further from
    the origin than half of what it has to spare, [wWinMain] asks for a
    window of 800 x 600 in the middle of the work area: the margins on
    either side differ by at most one pixel. *)
Theorem wWinMain_centres_window (rc : RECT) (win32 : WIN32API_DISPATCH) :
  let ext_x := right rc - left rc in
  let ext_y := bottom rc - top rc in
  let ws := wWinMain_window_state rc win32 in
  0 <= left rc <= (ext_x - 800 + 1) / 2 -> 800 <= ext_x -> right rc < 2147483648 ->
  0 <= top rc <= (ext_y - 600 + 1) / 2 -> 600 <= ext_y -> bottom rc < 2147483648 ->
  PositionX ws = left rc + (ext_x - 800) / 2 /\
  PositionY ws = top rc + (ext_y - 600) / 2 /\
  ClientSizeX ws = 800 /\ ClientSizeY ws = 600 /\
  WindowSizeX ws = 800 /\ WindowSizeY ws = 600 /\
  0 <= (right rc - (PositionX ws + 800)) - (PositionX ws - left rc) <= 1 /\
  0 <= (bottom rc - (PositionY ws + 600)) - (PositionY ws - top rc) <= 1.
Proof.
  intros ext_x ext_y ws Hl Hx Hr Ht Hy Hb.
  assert (Px : PositionX ws = left rc + (ext_x - 800) / 2).
  { apply placement_inside; lia. }
  assert (Py : PositionY ws = top rc + (ext_y - 600) / 2).
  { apply placement_inside; lia. }
  assert (Dx : 0 <= (ext_x - 800) / 2 /\ 2 * ((ext_x - 800) / 2) <= ext_x - 800
               /\ ext_x - 800 <= 2 * ((ext_x - 800) / 2) + 1
               /\ (ext_x - 800 + 1) / 2 + (ext_x - 800) / 2 = ext_x - 800).
  { Z.div_mod_to_equations. lia. }
  assert (Dy : 0 <= (ext_y - 600) / 2 /\ 2 * ((ext_y - 600) / 2) <= ext_y - 600
               /\ ext_y - 600 <= 2 * ((ext_y - 600) / 2) + 1
               /\ (ext_y - 600 + 1) / 2 + (ext_y - 600) / 2 = ext_y - 600).
  { Z.div_mod_to_equations. lia. }
  assert (Cx : ClientSizeX ws = 800).
  { unfold ws, wWinMain_window_state. cbn [ClientSizeX].
    change (s32 (left rc + u32 (right rc - left rc - 800) / 2)) with (PositionX ws).
    rewrite Px. fold ext_x.
    rewrite (s32_small ext_x), (s32_small (_ + 800)) by lia.
    destruct (Z.ltb_spec ext_x (left rc + (ext_x - 800) / 2 + 800)); [lia|reflexivity]. }
  assert (Cy : ClientSizeY ws = 600).
  { unfold ws, wWinMain_window_state. cbn [ClientSizeY].
    change (s32 (top rc + u32 (bottom rc - top rc - 600) / 2)) with (PositionY ws).
    rewrite Py. fold ext_y.
    rewrite (s32_small ext_y), (s32_small (_ + 600)) by lia.
    destruct (Z.ltb_spec ext_y (top rc + (ext_y - 600) / 2 + 600)); [lia|reflexivity]. }
  repeat split; try assumption; try lia.
Qed.

Lemma wWinMain_centres_window_witness :
  let ws := wWinMain_window_state (mkRECT 62 0 1920 1040) (resolve_Win32Api 1 true true) in
  PositionX ws = 591 /\ PositionY ws = 220 /\ ClientSizeX ws = 800 /\ ClientSizeY ws = 600.
Proof.
  destruct (wWinMain_centres_window (mkRECT 62 0 1920 1040) (resolve_Win32Api 1 true true))
    as (Hx & Hy & Hcx & Hcy & _).
  - vm_compute. split; discriminate.
  - vm_compute. discriminate.
  - reflexivity.
  - vm_compute. split; discriminate.
  - vm_compute. discriminate.
  - reflexivity.
  - cbv zeta. rewrite Hx, Hy, Hcx, Hcy. repeat split.
Defined.

(** X16.  The width is checked against the extent of the work area, not
    against its right edge.  On a work area that is at least 800 wide but
    starts further from the origin than half of what it has to spare, the
    width of 800 is given up although a window of 800 would have ended
    inside the work area: the width becomes the extent less the position,
    taken as an unsigned number.  That is less than 800 as long as the
    position does not exceed the extent, and 2^32 less the excess when it
    does. *)
Theorem wWinMain_narrows_window (rc : RECT) (win32 : WIN32API_DISPATCH) :
  let ext_x := right rc - left rc in
  let ws := wWinMain_window_state rc win32 in
  800 <= ext_x -> right rc < 2147483648 ->
  (ext_x - 800 + 1) / 2 < left rc ->
  PositionX ws = left rc + (ext_x - 800) / 2 /\
  PositionX ws + 800 <= right rc /\
  WindowSizeX ws = ClientSizeX ws /\
  (PositionX ws <= ext_x ->
   ClientSizeX ws = ext_x - PositionX ws /\ ClientSizeX ws < 800) /\
  (ext_x < PositionX ws ->
   ClientSizeX ws = 4294967296 - (PositionX ws - ext_x)).
Proof.
  intros ext_x ws Hx Hr Hl.
  assert (Dx : 0 <= (ext_x - 800) / 2 /\ 2 * ((ext_x - 800) / 2) <= ext_x - 800
               /\ ext_x - 800 <= 2 * ((ext_x - 800) / 2) + 1
               /\ (ext_x - 800 + 1) / 2 + (ext_x - 800) / 2 = ext_x - 800
               /\ 0 <= (ext_x - 800 + 1) / 2).
  { Z.div_mod_to_equations. lia. }
  assert (Px : PositionX ws = left rc + (ext_x - 800) / 2).
  { apply placement_inside; lia. }
  assert (Cx : ClientSizeX ws = u32 (ext_x - PositionX ws)).
  { rewrite Px. unfold ws, wWinMain_window_state. cbn [ClientSizeX].
    change (s32 (left rc + u32 (right rc - left rc - 800) / 2)) with (PositionX ws).
    rewrite Px. fold ext_x.
    rewrite (s32_small ext_x), (s32_small (_ + 800)) by lia.
    destruct (Z.ltb_spec ext_x (left rc + (ext_x - 800) / 2 + 800)); [reflexivity|lia]. }
  split. exact Px. split. lia. split. reflexivity.
  split.
  - intros Hle. rewrite Cx, u32_small by lia. lia.
  - intros Hgt. rewrite Cx. unfold u32.
    replace (ext_x - PositionX ws)
      with (4294967296 - (PositionX ws - ext_x) + (-1) * 4294967296) by lia.
    rewrite Z.mod_add by lia. apply Z.mod_small. lia.
Qed.

Lemma wWinMain_narrows_window_witness :
  (let ws := wWinMain_window_state (mkRECT 500 0 1400 1040) (resolve_Win32Api 1 true true) in
   PositionX ws = 550 /\ ClientSizeX ws = 350 /\ PositionX ws + 800 <= 1400) /\
  (let ws := wWinMain_window_state (mkRECT 2000 0 3920 1040) (resolve_Win32Api 1 true true) in
   PositionX ws = 2560 /\ ClientSizeX ws = 4294966656 /\ PositionX ws + 800 <= 3920).
Proof.
  split.
  - destruct (wWinMain_narrows_window (mkRECT 500 0 1400 1040) (resolve_Win32Api 1 true true))
      as (Hx & Hfit & _ & Hin & _).
    + vm_compute. discriminate.
    + reflexivity.
    + reflexivity.
    + cbv zeta. destruct Hin as (Hcx & _).
      * rewrite Hx. vm_compute. discriminate.
      * rewrite Hcx, Hx. repeat split. exact Hfit.
  - destruct (wWinMain_narrows_window (mkRECT 2000 0 3920 1040) (resolve_Win32Api 1 true true))
      as (Hx & Hfit & _ & _ & Hout).
    + vm_compute. discriminate.
    + reflexivity.
    + reflexivity.
    + cbv zeta. rewrite Hout, Hx.
      * repeat split. exact Hfit.
      * rewrite Hx. reflexivity.
Defined.

(** X17.  On a work area narrower than 800 the difference of the extents is
    taken as an unsigned number before it is halved: the window keeps its
    width of 800 and is placed about 2^31 pixels to the right of where the
    middle would put it. *)
Theorem wWinMain_short_work_area (rc : RECT) (win32 : WIN32API_DISPATCH) :
  let ext_x := right rc - left rc in
  let ws := wWinMain_window_state rc win32 in
  0 <= left rc -> 0 <= ext_x < 800 -> left rc + (ext_x - 800) / 2 < 0 ->
  PositionX ws = 2147483648 + (left rc + (ext_x - 800) / 2) /\
  ClientSizeX ws = 800 /\ WindowSizeX ws = 800.
Proof.
  intros ext_x ws Hl Hx Hneg.
  assert (Dx : -400 <= (ext_x - 800) / 2 < 0).
  { Z.div_mod_to_equations. lia. }
  assert (Px : PositionX ws = 2147483648 + left rc + (ext_x - 800) / 2).
  { apply placement_short; lia. }
  assert (Cx : ClientSizeX ws = 800).
  { unfold ws, wWinMain_window_state. cbn [ClientSizeX].
    change (s32 (left rc + u32 (right rc - left rc - 800) / 2)) with (PositionX ws).
    rewrite Px. fold ext_x.
    rewrite (s32_small ext_x) by lia.
    assert (E : s32 (2147483648 + left rc + (ext_x - 800) / 2 + 800) =
                left rc + (ext_x - 800) / 2 + 800 - 2147483648).
    { unfold s32.
      replace (2147483648 + left rc + (ext_x - 800) / 2 + 800 + 2147483648)
        with (left rc + (ext_x - 800) / 2 + 800 + 1 * 4294967296) by lia.
      rewrite Z.mod_add by lia. rewrite Z.mod_small; lia. }
    rewrite E.
    destruct (Z.ltb_spec ext_x (left rc + (ext_x - 800) / 2 + 800 - 2147483648));
      [lia|reflexivity]. }
  split. lia. split; exact Cx.
Qed.

Lemma wWinMain_short_work_area_witness :
  let ws := wWinMain_window_state (mkRECT 0 0 640 480) (resolve_Win32Api 1 true true) in
  PositionX ws = 2147483568 /\ ClientSizeX ws = 800.
Proof.
  destruct (wWinMain_short_work_area (mkRECT 0 0 640 480) (resolve_Win32Api 1 true true))
    as (Hx & Hcx & _).
  - reflexivity.
  - vm_compute. split; [discriminate|reflexivity].
  - reflexivity.
  - cbv zeta. rewrite Hx, Hcx. split; reflexivity.
Defined.

(** ** A DPI change on a borderless window *)



(** ** Showing and hiding *)

Lemma ResizeBackBuffer_keeps_DefResult (x y r : Z) (m m' : Machine) :
  ResizeBackBuffer x y m = Some (r, m') -> DefResult (host m') = DefResult (host m).
Proof.
  intros H.
  destruct (resize_is_noop (window m) x y) eqn:Hn.
  - rewrite ResizeBackBuffer_noop in H by exact Hn. injection H as <- <-. reflexivity.
  - destruct (Z.eq_dec (hd 0 (AllocPlan (host m))) 0) as [Hp|Hp].
    + rewrite ResizeBackBuffer_fail in H by assumption. injection H as <- <-. reflexivity.
    + rewrite ResizeBackBuffer_ok in H by assumption. injection H as <- <-.
      destruct (BackBufferMemory (window m) =? 0); reflexivity.
Qed.

(** X19.  A show notification sets the Visible flag and the Shown event,
    stores the corner and the logical extent of the window rectangle, the
    logical extent of the client rectangle and the DPI of the monitor, and
    resizes the backbuffer to the physical extent of the client rectangle;
    whatever the resize returns, the message then goes to [DefWindowProc]. *)
Theorem WM_SHOWWINDOW_shown (m : Machine) (wparam lparam : Z) :
  let dpi_x := fst (monitor_dpi m) in
  let dpi_y := snd (monitor_dpi m) in
  let rc := WindowRect (host m) in
  let client := ClientRect (host m) in
  let phys_x_px := u32 (right client - left client) in
  let phys_y_px := u32 (bottom client - top client) in
  wparam <> 0 -> dpi_x <> 0 -> dpi_y <> 0 ->
  exists r m1 m2,
    host m1 = host m /\
    same_buffer (window m) (window m1) /\
    ResizeBackBuffer phys_x_px phys_y_px m1 = Some (r, m2) /\
    WSI_WndProc_WM_SHOWWINDOW wparam lparam m =
      Some (DefResult (host m) WM_SHOWWINDOW wparam lparam,
            mkMachine (window m2)
                      (os_log (Call_DefWindowProc WM_SHOWWINDOW wparam lparam) (host m2))) /\
    StatusFlags (window m2) =
      Z.lor (StatusFlags (window m)) WSI_WINDOW_STATUS_FLAG_VISIBLE /\
    EventFlags (window m2) = Z.lor (EventFlags (window m)) WSI_WINDOW_EVENT_FLAG_SHOWN /\
    PositionX (window m2) = left rc /\ PositionY (window m2) = top rc /\
    PhysicalToLogicalPixels (u32 (right rc - left rc)) dpi_x = Some (WindowSizeX (window m2)) /\
    PhysicalToLogicalPixels (u32 (bottom rc - top rc)) dpi_y = Some (WindowSizeY (window m2)) /\
    PhysicalToLogicalPixels phys_x_px dpi_x = Some (ClientSizeX (window m2)) /\
    PhysicalToLogicalPixels phys_y_px dpi_y = Some (ClientSizeY (window m2)) /\
    OutputDpiX (window m2) = dpi_x /\ OutputDpiY (window m2) = dpi_y /\
    (r <> -1 ->
       BackBufferMemory (window m2) <> 0 /\
       BackBufferWidth (window m2) = phys_x_px /\ BackBufferHeight (window m2) = phys_y_px).
Proof.
  intros dpi_x dpi_y rc client phys_x_px phys_y_px Hw Hx Hy.
  set (m1 := mkMachine
    (set_OutputDpi dpi_x dpi_y
       (set_ClientSize (u32 (phys_x_px * 96) / dpi_x) (u32 (phys_y_px * 96) / dpi_y)
          (set_WindowSize (u32 (u32 (right rc - left rc) * 96) / dpi_x)
                          (u32 (u32 (bottom rc - top rc) * 96) / dpi_y)
             (set_Position (left rc) (top rc)
                (set_EventFlags (Z.lor (EventFlags (window m)) WSI_WINDOW_EVENT_FLAG_SHOWN)
                   (set_StatusFlags
                      (Z.lor (StatusFlags (window m)) WSI_WINDOW_STATUS_FLAG_VISIBLE)
                      (window m)))))))
    (host m)).
  assert (Hrun : WSI_WndProc_WM_SHOWWINDOW wparam lparam m =
                 match ResizeBackBuffer phys_x_px phys_y_px m1 with
                 | Some (_, m2) =>
                     Some (DefResult (host m2) WM_SHOWWINDOW wparam lparam,
                           mkMachine (window m2)
                             (os_log (Call_DefWindowProc WM_SHOWWINDOW wparam lparam)
                                     (host m2)))
                 | None => None
                 end).
  { unfold WSI_WndProc_WM_SHOWWINDOW, call_GetDpiForMonitor, GetWindowRect, GetClientRect,
      DefWindowProc.
    apply Z.eqb_neq in Hw. rewrite Hw. run.
    fold (monitor_dpi m). fold dpi_x. fold dpi_y. fold rc. fold client.
    fold phys_x_px. fold phys_y_px.
    rewrite !(PhysicalToLogicalPixels_Some _ dpi_x) by exact Hx.
    rewrite !(PhysicalToLogicalPixels_Some _ dpi_y) by exact Hy.
    cbn. fold phys_x_px. fold phys_y_px.
    rewrite ?(PhysicalToLogicalPixels_Some _ dpi_x) by exact Hx.
    rewrite ?(PhysicalToLogicalPixels_Some _ dpi_y) by exact Hy.
    cbn. subst m1. destruct m as [w o]. cbn [window host].
    destruct (ResizeBackBuffer _ _ _) as [[r m2]|]; reflexivity. }
  destruct (ResizeBackBuffer_outcome phys_x_px phys_y_px m1)
    as (r & m2 & Hr & Hf & _ & Hok).
  exists r, m1, m2.
  rewrite Hrun, Hr, (ResizeBackBuffer_keeps_DefResult _ _ _ _ _ Hr).
  rewrite !PhysicalToLogicalPixels_Some by assumption.
  destruct Hf as (_ & Hst & Hev & Hdx & Hdy & Hpx & Hpy & Hwx & Hwy & Hcx & Hcy & _).
  unfold m1 in Hst, Hev, Hdx, Hdy, Hpx, Hpy, Hwx, Hwy, Hcx, Hcy.
  fields_in Hst. fields_in Hev. fields_in Hdx. fields_in Hdy. fields_in Hpx. fields_in Hpy.
  fields_in Hwx. fields_in Hwy. fields_in Hcx. fields_in Hcy.
  rewrite Hst, Hev, Hdx, Hdy, Hpx, Hpy, Hwx, Hwy, Hcx, Hcy.
  split. reflexivity.
  split. { unfold same_buffer. repeat split. }
  do 12 (split; [reflexivity|]).
  intros Hne. destruct (Hok Hne) as (_ & H1 & H2 & H3). auto.
Qed.

Lemma WM_SHOWWINDOW_shown_witness :
  exists m3,
    WSI_WndProc_WM_SHOWWINDOW 1 0 (mkMachine fresh_window (desktop_created [65536])) =
      Some (0, m3) /\
    ClientSizeX (window m3) = 784 /\ ClientSizeY (window m3) = 561 /\
    StatusFlags (window m3) = 4 /\ EventFlags (window m3) = 4.
Proof.
  destruct (WM_SHOWWINDOW_shown (mkMachine fresh_window (desktop_created [65536])) 1 0)
    as (r & m1 & m2 & _ & _ & _ & Hrun & Hst & Hev & _ & _ & _ & _ & Hcx & Hcy & _).
  - discriminate.
  - vm_compute. discriminate.
  - vm_compute. discriminate.
  - eexists. split. exact Hrun. cbn [window].
    change (Some 784 = Some (ClientSizeX (window m2))) in Hcx.
    change (Some 561 = Some (ClientSizeY (window m2))) in Hcy.
    split. congruence. split. congruence. split. exact Hst. exact Hev.
Defined.

(** X20.  A hide notification clears the Visible and the Active flag, adds
    the Hidden and the Deactivated event and goes to [DefWindowProc]; the
    pass of the loop that dispatched it then issues no blit, whether or not
    a backbuffer is held, and sleeps. *)
Theorem hidden_window_not_presented (m : Machine) (hwnd lparam : Z) :
  let w := window m in
  UserData (host m) = true ->
  has_flag (EventFlags w) WSI_WINDOW_EVENT_FLAG_DESTROYED = false ->
  exists w',
    wWinMain_tick hwnd [mkMSG WM_SHOWWINDOW 0 lparam] m =
      Some (Tick_continue,
            mkMachine w'
              (os_log (Call_Sleep 16)
                 (os_log (Call_DefWindowProc WM_SHOWWINDOW 0 lparam) (host m)))) /\
    has_flag (StatusFlags w') WSI_WINDOW_STATUS_FLAG_VISIBLE = false /\
    has_flag (StatusFlags w') WSI_WINDOW_STATUS_FLAG_ACTIVE = false /\
    has_flag (StatusFlags w') WSI_WINDOW_STATUS_FLAG_CREATED =
      has_flag (StatusFlags w) WSI_WINDOW_STATUS_FLAG_CREATED /\
    has_flag (StatusFlags w') WSI_WINDOW_STATUS_FLAG_FULLSCREEN =
      has_flag (StatusFlags w) WSI_WINDOW_STATUS_FLAG_FULLSCREEN /\
    EventFlags w' =
      Z.lor (EventFlags w)
            (Z.lor WSI_WINDOW_EVENT_FLAG_HIDDEN WSI_WINDOW_EVENT_FLAG_DEACTIVATED) /\
    ClientSizeX w' = ClientSizeX w /\ ClientSizeY w' = ClientSizeY w /\
    same_buffer w w'.
Proof.
  intros w Hu Hd.
  set (w' := set_EventFlags
               (Z.lor (EventFlags w)
                      (Z.lor WSI_WINDOW_EVENT_FLAG_HIDDEN WSI_WINDOW_EVENT_FLAG_DEACTIVATED))
               (set_StatusFlags
                  (Z.land (Z.land (StatusFlags w) (not32 WSI_WINDOW_STATUS_FLAG_VISIBLE))
                          (not32 WSI_WINDOW_STATUS_FLAG_ACTIVE)) w)).
  assert (Hproc : WSI_WndProc hwnd WM_SHOWWINDOW 0 lparam m =
                  Some (DefResult (host m) WM_SHOWWINDOW 0 lparam,
                        mkMachine w' (os_log (Call_DefWindowProc WM_SHOWWINDOW 0 lparam)
                                             (host m)))).
  { unfold WSI_WndProc.
    change (WM_SHOWWINDOW =? WM_NCCREATE) with false. cbv beta iota.
    unfold bind at 1, get_host at 1. rewrite Hu. cbv beta iota delta [negb].
    change (WM_SHOWWINDOW =? WM_MOVE) with false.
    change (WM_SHOWWINDOW =? WM_SIZE) with false.
    change (WM_SHOWWINDOW =? WM_PAINT) with false.
    change (WM_SHOWWINDOW =? WM_ACTIVATE) with false.
    change (WM_SHOWWINDOW =? WM_SHOWWINDOW) with true.
    cbv beta iota.
    unfold WSI_WndProc_WM_SHOWWINDOW, DefWindowProc.
    change (0 =? 0) with true.
    cbv beta iota zeta delta
      [bind ret store os_do get_window get_host or_EventFlags and_StatusFlags negb].
    cbn [window host StatusFlags EventFlags set_StatusFlags set_EventFlags].
    reflexivity. }
  assert (Hvis : has_flag (StatusFlags w') WSI_WINDOW_STATUS_FLAG_VISIBLE = false).
  { unfold w'. cbn [StatusFlags set_StatusFlags set_EventFlags]. read_flags. }
  assert (Hdes : has_flag (EventFlags w') WSI_WINDOW_EVENT_FLAG_DESTROYED = false).
  { unfold w'. cbn [EventFlags set_StatusFlags set_EventFlags].
    rewrite has_flag_lor_unset by reflexivity. exact Hd. }
  exists w'. split.
  - unfold wWinMain_tick. cbn [dispatch_messages message wParam lParam].
    change (WM_SHOWWINDOW =? WM_QUIT) with false. cbv beta iota.
    unfold bind. rewrite Hproc. unfold ret.
    rewrite wWinMain_present_eq. cbn [window host]. rewrite Hdes, Hvis. reflexivity.
  - split. exact Hvis.
    unfold w', same_buffer. cbn [StatusFlags EventFlags ClientSizeX ClientSizeY
      BackBufferMemory BackBufferWidth BackBufferHeight BackBufferStride
      set_StatusFlags set_EventFlags].
    repeat split; read_flags.
Qed.

Lemma hidden_window_not_presented_witness :
  exists w',
    wWinMain_tick 7 [mkMSG WM_SHOWWINDOW 0 0] (mkMachine shown_window (desktop [])) =
      Some (Tick_continue,
            mkMachine w' (os_log (Call_Sleep 16)
                            (os_log (Call_DefWindowProc WM_SHOWWINDOW 0 0) (desktop [])))) /\
    StatusFlags w' = 1 /\ BackBufferMemory w' = 65536.
Proof.
  destruct (hidden_window_not_presented (mkMachine shown_window (desktop [])) 7 0)
    as (w' & Hrun & _ & _ & _ & _ & _ & _ & _ & (Hmem & _)).
  - reflexivity.
  - reflexivity.
  - exists w'. split. exact Hrun.
    split; [|exact Hmem].
    revert Hrun. vm_compute. intros Hrun. injection Hrun as Hw. rewrite <- Hw. reflexivity.
Defined.

(** ** Attaching the window state *)

(** X21.  The attaching notification records the window handle, attaches the
    state to the window and goes to [DefWindowProc], whatever was attached
    before; nothing else of the window state changes, and a close
    notification that follows reaches its handler and marks the window
    destroyed. *)
Theorem WM_NCCREATE_attaches (m : Machine) (hwnd wparam lparam : Z) :
  exists m1,
    WSI_WndProc hwnd WM_NCCREATE wparam lparam m =
      Some (DefResult (host m) WM_NCCREATE wparam lparam, m1) /\
    window m1 = set_Win32Handle hwnd (window m) /\
    UserData (host m1) = true /\
    Calls (host m1) =
      [Call_DefWindowProc WM_NCCREATE wparam lparam; Call_SetWindowLongPtr_USERDATA]
      ++ Calls (host m) /\
    forall wparam' lparam',
      exists m2,
        WSI_WndProc hwnd WM_CLOSE wparam' lparam' m1 = Some (0, m2) /\
        marked_destroyed m2 /\ Win32Handle (window m2) = hwnd.
Proof.
  eexists. split.
  { unfold WSI_WndProc. change (WM_NCCREATE =? WM_NCCREATE) with true. cbv beta iota.
    unfold DefWindowProc. run. reflexivity. }
  cbn [window host]. split. reflexivity.
  split. reflexivity. split. reflexivity.
  intros wparam' lparam'. eexists. split.
  { unfold WSI_WndProc. change (WM_CLOSE =? WM_NCCREATE) with false. cbv beta iota.
    unfold bind at 1, get_host at 1. cbn [host UserData os_log os_set_UserData negb].
    cbv beta iota. reflexivity. }
  split; reflexivity.
Qed.

(** ** Runs that return *)

Lemma returns_ret {A} (P : Machine -> Prop) (a : A) : returns P (ret a).
Proof. intros m HP. exists a, m. split; [reflexivity|exact HP]. Qed.

Lemma returns_bind {A B} (P : Machine -> Prop) (c : M A) (k : A -> M B) :
  returns P c -> (forall a, returns P (k a)) -> returns P (bind c k).
Proof.
  intros Hc Hk m HP. destruct (Hc m HP) as (a & m1 & E1 & H1).
  destruct (Hk a m1 H1) as (b & m2 & E2 & H2).
  exists b, m2. unfold bind. rewrite E1. auto.
Qed.

Lemma ResizeBackBuffer_returns (d : Z * Z) (x y : Z) :
  returns (dpi_is d) (ResizeBackBuffer x y).
Proof.
  intros m HP. unfold dpi_is, monitor_dpi, query_dpi in *.
  destruct (resize_is_noop (window m) x y) eqn:Hn.
  - rewrite ResizeBackBuffer_noop by exact Hn. eauto.
  - destruct (Z.eq_dec (hd 0 (AllocPlan (host m))) 0) as [Hp|Hp].
    + rewrite ResizeBackBuffer_fail by assumption. eexists _, _. split; [reflexivity|].
      exact HP.
    + rewrite ResizeBackBuffer_ok by assumption. eexists _, _. split; [reflexivity|].
      destruct (BackBufferMemory (window m) =? 0); exact HP.
Qed.

(** The DPI resolved does not depend on what the handlers write. *)
Ltac dpi_kept :=
  unfold dpi_is, monitor_dpi, query_dpi in *;
  cbn [window host Win32Api MonitorDpi ScreenLogPixels
       set_Win32Handle set_StatusFlags set_EventFlags set_OutputDpi set_Position
       set_WindowSize set_ClientSize set_Restore set_BackBuffer set_BackBufferInfo
       os_log os_set_AllocPlan os_set_WindowRect os_set_WindowStyle
       os_set_WindowStyleEx os_set_UserData] in *;
  repeat match goal with |- context [if ?b then _ else _] => destruct b end;
  cbn [window host Win32Api MonitorDpi ScreenLogPixels
       os_log os_set_AllocPlan os_set_WindowRect os_set_WindowStyle
       os_set_WindowStyleEx os_set_UserData] in *;
  first [assumption | tauto].

(** One step of a handler that runs on a machine known in part: a resize, a
    division by a DPI that is not zero, or a branch. *)
Ltac exec_step d :=
  match goal with
  | |- context [ResizeBackBuffer ?x ?y ?m1] =>
      let r := fresh "r" in
      let m2 := fresh "m" in
      let Hr := fresh "Hr" in
      let H2 := fresh "H" in
      assert (H2 : dpi_is d m1) by dpi_kept;
      destruct (ResizeBackBuffer_returns d x y m1 H2) as (r & m2 & Hr & ?);
      rewrite Hr; clear Hr H2; cbn
  | |- context [PhysicalToLogicalPixels ?a ?b] =>
      rewrite (PhysicalToLogicalPixels_Some a b) by assumption; cbn
  | |- context [if ?b then _ else _] => destruct b; cbn
  end.

Ltac exec d := repeat exec_step d; (eexists _, _; split; [reflexivity|dpi_kept]).

Lemma WM_MOVE_returns (d : Z * Z) (wparam lparam : Z) :
  returns (dpi_is d) (WSI_WndProc_WM_MOVE wparam lparam).
Proof.
  intros m HP. pose proof HP as (Hd & Hx & Hy).
  unfold WSI_WndProc_WM_MOVE, call_GetDpiForMonitor, GetWindowRect. run.
  fold (monitor_dpi m). rewrite Hd. exec d.
Qed.

Lemma WM_SIZE_returns (d : Z * Z) (wparam lparam : Z) :
  returns (dpi_is d) (WSI_WndProc_WM_SIZE wparam lparam).
Proof.
  intros m HP. pose proof HP as (Hd & Hx & Hy).
  unfold WSI_WndProc_WM_SIZE, call_GetDpiForMonitor, GetWindowRect. run.
  fold (monitor_dpi m). rewrite Hd. exec d.
Qed.

Lemma WM_SHOWWINDOW_returns (d : Z * Z) (wparam lparam : Z) :
  returns (dpi_is d) (WSI_WndProc_WM_SHOWWINDOW wparam lparam).
Proof.
  intros m HP. pose proof HP as (Hd & Hx & Hy).
  unfold WSI_WndProc_WM_SHOWWINDOW, call_GetDpiForMonitor, GetWindowRect, GetClientRect,
    DefWindowProc.
  destruct (negb (wparam =? 0)); run.
  - fold (monitor_dpi m). rewrite Hd. exec d.
  - exec d.
Qed.

Lemma WM_CREATE_returns (d : Z * Z) (wparam lparam : Z) :
  returns (dpi_is d) (WSI_WndProc_WM_CREATE wparam lparam).
Proof.
  intros m HP. pose proof HP as (Hd & Hx & Hy).
  unfold WSI_WndProc_WM_CREATE, call_GetDpiForMonitor, GetWindowLong, AdjustWindowRectEx,
    SetWindowPos.
  run. fold (monitor_dpi m). rewrite Hd. exec d.
Qed.

Lemma WM_SYSCOMMAND_returns (d : Z * Z) (wparam lparam : Z) :
  returns (dpi_is d) (WSI_WndProc_WM_SYSCOMMAND wparam lparam).
Proof.
  intros m HP.
  unfold WSI_WndProc_WM_SYSCOMMAND, call_GetDpiForMonitor, GetWindowLong, SetWindowLong,
    SetWindowPos, ShowWindow, QueryMonitorGeometry, GetWindowRect, DefWindowProc.
  destruct ((Z.land wparam 65520 =? SC_KEYMENU) && (lparam =? VK_RETURN)); run.
  - destruct (has_flag _ _); cbn; eexists _, _; (split; [reflexivity|dpi_kept]).
  - eexists _, _; (split; [reflexivity|dpi_kept]).
Qed.

Lemma WM_other_returns (d : Z * Z) (wparam lparam : Z) :
  returns (dpi_is d) (WSI_WndProc_WM_PAINT wparam lparam) /\
  returns (dpi_is d) (WSI_WndProc_WM_ACTIVATE wparam lparam) /\
  returns (dpi_is d) (WSI_WndProc_WM_CLOSE wparam lparam) /\
  (forall msg, returns (dpi_is d) (DefWindowProc msg wparam lparam)).
Proof.
  split; [|split; [|split; [|intros msg]]]; intros m HP.
  - unfold WSI_WndProc_WM_PAINT, PresentBackBuffer, DefWindowProc. run.
    destruct (BackBufferMemory (window m) =? 0); cbn;
      eexists _, _; (split; [reflexivity|dpi_kept]).
  - unfold WSI_WndProc_WM_ACTIVATE, DefWindowProc.
    destruct (negb (LOWORD wparam =? 0)), (negb (HIWORD wparam =? 0));
      cbv beta iota zeta delta
        [bind ret store os_do get_window get_host when or_EventFlags or_StatusFlags
         and_StatusFlags];
      eexists _, _; (split; [reflexivity|dpi_kept]).
  - unfold WSI_WndProc_WM_CLOSE, ShowWindow. run.
    eexists _, _; (split; [reflexivity|dpi_kept]).
  - unfold DefWindowProc. run. eexists _, _; (split; [reflexivity|dpi_kept]).
Qed.

Lemma WSI_WndProc_returns (d : Z * Z) (hwnd msg wparam lparam : Z) :
  msg <> WM_DPICHANGED -> msg <> WM_NCCREATE ->
  returns (dpi_is d) (WSI_WndProc hwnd msg wparam lparam).
Proof.
  intros Hdpi Hnc. apply Z.eqb_neq in Hdpi, Hnc.
  destruct (WM_other_returns d wparam lparam) as (Hpaint & Hact & Hclose & Hdef).
  unfold WSI_WndProc. rewrite Hnc, Hdpi.
  intros m HP. unfold bind at 1, get_host at 1.
  destruct (negb (UserData (host m))); [apply Hdef, HP|].
  destruct (msg =? WM_MOVE); [apply WM_MOVE_returns, HP|].
  destruct (msg =? WM_SIZE); [apply WM_SIZE_returns, HP|].
  destruct (msg =? WM_PAINT); [apply Hpaint, HP|].
  destruct (msg =? WM_ACTIVATE); [apply Hact, HP|].
  destruct (msg =? WM_SHOWWINDOW); [apply WM_SHOWWINDOW_returns, HP|].
  destruct (msg =? WM_SYSCOMMAND); [apply WM_SYSCOMMAND_returns, HP|].
  destruct (msg =? WM_CREATE); [apply WM_CREATE_returns, HP|].
  destruct (msg =? WM_CLOSE); [apply Hclose, HP|].
  apply Hdef, HP.
Qed.

Lemma dispatch_messages_returns (d : Z * Z) (hwnd : Z) (queue : list MSG) :
  Forall plain_message queue -> returns (dpi_is d) (dispatch_messages hwnd queue).
Proof.
  intros Hq. induction Hq as [|msg rest Hmsg _ IH]; cbn [dispatch_messages].
  - apply returns_ret.
  - destruct (message msg =? WM_QUIT); [apply returns_ret|].
    apply returns_bind; [|intros _; exact IH].
    destruct Hmsg as [Hdpi Hnc]. apply WSI_WndProc_returns; assumption.
Qed.

Lemma wWinMain_present_returns (d : Z * Z) : returns (dpi_is d) wWinMain_present.
Proof.
  intros m HP. rewrite wWinMain_present_eq. cbv zeta.
  destruct (has_flag (EventFlags (window m)) WSI_WINDOW_EVENT_FLAG_DESTROYED).
  - eauto.
  - eexists _, _. split; [reflexivity|]. dpi_kept.
Qed.

Lemma wWinMain_loop_returns (d : Z * Z) (hwnd : Z) (ticks : list (list MSG)) :
  Forall (Forall plain_message) ticks -> returns (dpi_is d) (wWinMain_loop hwnd ticks).
Proof.
  intros Ht. induction Ht as [|queue rest Hq _ IH]; cbn [wWinMain_loop].
  - apply returns_ret.
  - apply returns_bind.
    + unfold wWinMain_tick. apply returns_bind.
      * apply dispatch_messages_returns, Hq.
      * intros _. apply wWinMain_present_returns.
    + intros [|]; [apply returns_ret|exact IH].
Qed.

(** X22.  With a DPI resolved for the monitor that has no zero component, a
    run whose messages are neither DPI-changed nor attaching notifications,
    the two that read through the pointer in their parameter, returns from
    every pass of the loop and from the teardown: the other handlers divide
    by nothing but the DPI resolved, and with it they all return. *)
Theorem run_returns (hwnd : Z) (ticks : list (list MSG)) (destroyed : bool)
        (final : list MSG) (m : Machine) :
  fst (monitor_dpi m) <> 0 -> snd (monitor_dpi m) <> 0 ->
  Forall (Forall plain_message) ticks -> Forall plain_message final ->
  exists left_loop m1 r m',
    wWinMain_loop hwnd ticks m = Some (left_loop, m1) /\
    wWinMain_run hwnd ticks destroyed final m = Some (r, m') /\
    r = (if left_loop then Some 0 else None).
Proof.
  intros Hx Hy Ht Hf.
  set (d := monitor_dpi m).
  assert (HP : dpi_is d m) by (unfold dpi_is; auto).
  destruct (wWinMain_loop_returns d hwnd ticks Ht m HP) as (b & m1 & E1 & H1).
  exists b, m1.
  unfold wWinMain_run, bind at 1. rewrite E1.
  destruct b.
  - unfold wWinMain_destroy.
    assert (H2 : dpi_is d (mkMachine (window m1) (os_log Call_DestroyWindow (host m1))))
      by dpi_kept.
    destruct destroyed.
    + destruct (dispatch_messages_returns d hwnd final Hf _ H2) as ([] & m2 & E2 & H3).
      exists (Some 0), m2. split; [reflexivity|]. split; [|reflexivity].
      run. unfold when. cbn. rewrite E2. reflexivity.
    + eexists _, _. split; [reflexivity|]. split; reflexivity.
  - exists None, m1. split; [reflexivity|]. split; reflexivity.
Qed.

Lemma run_returns_witness :
  exists m1 m',
    wWinMain_loop 7 [[mkMSG WM_CREATE 0 0; mkMSG WM_SHOWWINDOW 1 0];
                     [mkMSG WM_SIZE 0 (MAKELONG 1024 768); mkMSG WM_CLOSE 0 0]]
                  (mkMachine fresh_window (desktop_created [65536; 131072])) =
      Some (true, m1) /\
    wWinMain_run 7 [[mkMSG WM_CREATE 0 0; mkMSG WM_SHOWWINDOW 1 0];
                    [mkMSG WM_SIZE 0 (MAKELONG 1024 768); mkMSG WM_CLOSE 0 0]] true []
                 (mkMachine fresh_window (desktop_created [65536; 131072])) =
      Some (Some 0, m').
Proof.
  destruct (run_returns 7
              [[mkMSG WM_CREATE 0 0; mkMSG WM_SHOWWINDOW 1 0];
               [mkMSG WM_SIZE 0 (MAKELONG 1024 768); mkMSG WM_CLOSE 0 0]] true []
              (mkMachine fresh_window (desktop_created [65536; 131072])))
    as (b & m1 & r & m' & Hloop & Hrun & Hr).
  - vm_compute. discriminate.
  - vm_compute. discriminate.
  - repeat (first [apply Forall_nil | apply Forall_cons]); split; discriminate.
  - apply Forall_nil.
  - assert (Hb : b = true).
    { revert Hloop. vm_compute. intros E. injection E as <- _. reflexivity. }
    subst b r. exists m1, m'. split; assumption.
Defined.
